(** * pacaur: an Ansible module managing Arch Linux packages with AUR support

    A shallow embedding of [pacaur.py] and the properties of its
    classification, planning, handler selection and execution logic.

    The module talks to the outside world through [AnsibleModule]
    ([run_command], [get_bin_path], [exit_json], [fail_json]), through
    [open_url] and through [os], [tarfile] and [tempfile].  Those collaborators
    are an interface here (class [Collaborators]): every function of the module
    is a computation over a host state that answers commands and may change
    while doing so.  A computation returns its outcome, the state it leaves
    and the events it issued, in order.

    What is taken from the libraries: [run_command] gives an exit code and
    two outputs, and with [check_rc=True] fails the module itself on an exit
    code other than zero; [get_bin_path] gives a path or [None], and fails the
    module when the program is required and missing; [exit_json] and
    [fail_json] end the run; an exception that nobody catches ends it too, and
    a [with] block cleans up on the way out. *)

From Stdlib Require Import String Ascii List ZArith Bool Arith Lia.
From Stdlib Require Import DecimalString.
Import ListNotations.

Local Open Scope string_scope.
Local Open Scope list_scope.
Local Open Scope nat_scope.

Infix "+++" := String.append (right associativity, at level 60).

(** ** Python strings

    Strings are sequences of characters below code point 256. *)

Definition nl : ascii := ascii_of_nat 10.

(** [str.isspace] on one character. *)
Definition is_space (c : ascii) : bool :=
  let n := nat_of_ascii c in
  ((9 <=? n) && (n <=? 13)) || ((28 <=? n) && (n <=? 32))
  || (n =? 133) || (n =? 160).

Definition is_digit (c : ascii) : bool :=
  let n := nat_of_ascii c in (48 <=? n) && (n <=? 57).

Definition is_empty (s : string) : bool :=
  match s with EmptyString => true | String _ _ => false end.

Fixpoint lstrip (s : string) : string :=
  match s with
  | EmptyString => EmptyString
  | String c r => if is_space c then lstrip r else s
  end.

Fixpoint rstrip (s : string) : string :=
  match s with
  | EmptyString => EmptyString
  | String c r =>
      let r' := rstrip r in
      if is_space c && is_empty r' then EmptyString else String c r'
  end.

(** [s.strip()] *)
Definition strip (s : string) : string := rstrip (lstrip s).

(** [s.split(sep)] for a one-character separator: never the empty list. *)
Fixpoint split_on (sep : ascii) (s : string) : list string :=
  match s with
  | EmptyString => [EmptyString]
  | String c r =>
      if Ascii.eqb c sep then EmptyString :: split_on sep r
      else match split_on sep r with
           | [] => [String c EmptyString]
           | w :: ws => String c w :: ws
           end
  end.

(** [s.split()]: the maximal runs of characters that are not white space;
    [cur] is the run being read. *)
Fixpoint words (cur : string) (s : string) : list string :=
  match s with
  | EmptyString => if is_empty cur then [] else [cur]
  | String c r =>
      if is_space c
      then (if is_empty cur then words EmptyString r
            else cur :: words EmptyString r)
      else words (cur +++ String c EmptyString) r
  end.

Definition split (s : string) : list string := words EmptyString s.

(** [l[-1]] on the result of a split. *)
Definition last_item (l : list string) : string := last l EmptyString.

(** [' '.join(l)] *)
Definition join_spaces (l : list string) : string := String.concat " " l.

Definition string_of_nat (n : nat) : string :=
  NilEmpty.string_of_uint (Nat.to_uint n).

Fixpoint no_newline (s : string) : bool :=
  match s with
  | EmptyString => true
  | String c r => negb (Ascii.eqb c nl) && no_newline r
  end.

(** No line feed, except possibly as the very last character: where the
    regular expression [.*$] matches a whole string. *)
Fixpoint dot_star_eol (s : string) : bool :=
  match s with
  | EmptyString => true
  | String c r => if Ascii.eqb c nl then is_empty r else dot_star_eol r
  end.

Fixpoint ends_with_nl (s : string) : bool :=
  match s with
  | EmptyString => false
  | String c EmptyString => Ascii.eqb c nl
  | String _ r => ends_with_nl r
  end.

Definition has_suffix (suf s : string) : bool :=
  (String.length suf <=? String.length s)
  && String.eqb (substring (String.length s - String.length suf)
                           (String.length suf) s) suf.

(** [re.match(r'^.+' + suf + '$', s)] for a literal [suf]: a non-empty prefix
    without line feed, then [suf], then the end of the string or one final
    line feed. *)
Definition dot_plus_then (suf s : string) : bool :=
  let fits (tail : string) :=
    has_suffix tail s
    && (String.length tail <? String.length s)
    && no_newline (substring 0 (String.length s - String.length tail) s) in
  fits suf || fits (suf +++ String nl EmptyString).

(** ** Module constants *)

(** [package_version_pattern = '-[0-9].*$'], as used by
    [re.sub(package_version_pattern, '', s)]: the first hyphen that is followed
    by a digit and by the rest of the last line is where the string is cut; a
    final line feed stays. *)
Fixpoint strip_package_version (s : string) : string :=
  match s with
  | EmptyString => EmptyString
  | String c r =>
      let here :=
        match r with
        | String d t => Ascii.eqb c "-" && is_digit d && dot_star_eol t
        | EmptyString => false
        end in
      if here
      then (if ends_with_nl (substring 1 (String.length r) r)
            then String nl EmptyString else EmptyString)
      else String c (strip_package_version r)
  end.

Inductive State := Absent | Latest | Present.

Definition State_eqb (a b : State) : bool :=
  match a, b with
  | Absent, Absent | Latest, Latest | Present, Present => true
  | _, _ => false
  end.

Definition state_equivalents (s : State) : string :=
  match s with
  | Absent => "removed"
  | Present => "installed"
  | Latest => "updated"
  end.

Inductive Action := install | upgrade_action.

(** The table [pacman_wrappers], in the order Python iterates over it. *)
Definition pacman_wrappers : list (string * (Action -> list string)) :=
  [ ("yay", fun a => match a with
      | install => ["-S"; "--needed"; "--noconfirm"; "--noprogressbar"; "--cleanafter"]
      | upgrade_action => ["-S"; "-u"; "-q"; "--noconfirm"] end);
    ("pikaur", fun a => match a with
      | install => ["-S"; "--needed"; "--noconfirm"; "--noprogressbar"; "--noedit"]
      | upgrade_action => ["-S"; "-u"; "-q"; "--noconfirm"] end);
    ("trizen", fun a => match a with
      | install => ["-S"; "--needed"; "--noconfirm"; "--noprogressbar"; "--noedit"]
      | upgrade_action => ["-S"; "-u"; "-q"; "--noconfirm"] end) ].

Fixpoint lookup {V : Type} (k : string) (l : list (string * V)) : option V :=
  match l with
  | [] => None
  | (k', v) :: r => if String.eqb k k' then Some v else lookup k r
  end.

(** ** Data model *)

(** [module.params], after the argument parsing of [AnsibleModule];
    [upgrade_flag] is [params['upgrade']], [upgrade] being the function. *)
Record Params := {
  name : option (list string);
  state : State;
  upgrade_flag : bool;
  update_cache : bool;
  force : bool;
  extra_args : string
}.

Record AnsibleModule := {
  params : Params;
  check_mode : bool
}.

(** The dictionary [result] that [run_module] creates and every function
    updates in place before it reports. *)
Record Result := {
  changed : bool;
  msg : string;
  handler : option string
}.

Definition initial_result : Result :=
  {| changed := false; msg := "no action has been taken"; handler := None |}.

(** The dictionary that [get_package_details] returns. *)
Record Details := {
  package : string;
  installed : bool;
  latest : bool
}.

(** The answer of the AUR RPC interface. *)
Record AurResult := { Name : string; Version : string; URLPath : string }.
Record AurInfo := { resultcount : Z; results : list AurResult }.

(** A command line: the program ([None] when [get_bin_path] found nothing)
    and its arguments. *)
Definition Cmdline : Type := option string * list string.

Definition extend (c : Cmdline) (more : list string) : Cmdline :=
  (fst c, snd c ++ more).

(** ** The collaborators *)

Class Collaborators (Host : Type) := {
  (** [module.run_command], in a working directory *)
  exec : string -> option string -> list string -> Host -> (Z * string * string) * Host;
  (** [module.get_bin_path] *)
  which : string -> Host -> option string;
  (** [open_url] on the RPC interface and [json.loads]; [None] when either
      raises *)
  aur_rpc : string -> Host -> option AurInfo * Host;
  (** [download_aur_package] in a working directory; [false] when it raises *)
  fetch : string -> string -> string -> Host -> bool * Host;
  (** [extract_tar_file] in a working directory; [false] when it raises *)
  untar : string -> string -> Host -> bool * Host;
  (** [tempfile.TemporaryDirectory()], creation and clean-up *)
  mkdtemp : Host -> string * Host;
  rmtree : string -> Host -> Host;
  (** whether [os.chdir], from a working directory, finds its target *)
  enter : string -> string -> Host -> bool
}.

Inductive Event :=
| Cmd (prog : option string) (args : list string)
| AurRpc (pkg : string)
| Download (file_name url_path : string)
| Untar (file_name : string)
| MkTemp (dir : string)
| RmTemp (dir : string)
| Chdir (path : string).

(** How a computation ends when it does not return to its caller. *)
Inductive Halt :=
| ExitJson                 (* module.exit_json with the result dictionary *)
| FailJson                 (* module.fail_json with the result dictionary *)
| LibFail (what : string)  (* a fail_json of AnsibleModule's own *)
| Raised (what : string).  (* an exception nobody catches *)

Inductive Outcome (A : Type) :=
| Ret (a : A)
| Stop (h : Halt).
Arguments Ret {A} a.
Arguments Stop {A} h.

Section Pacaur.

Context {Host : Type} `{Collaborators Host}.

Record St := {
  host : Host;
  cwd : string;
  result : Result
}.

Definition M (A : Type) : Type := St -> Outcome A * St * list Event.

Definition ret {A} (a : A) : M A := fun st => (Ret a, st, []).

Definition bind {A B} (m : M A) (f : A -> M B) : M B :=
  fun st =>
    match m st with
    | (Ret a, st1, e1) =>
        match f a st1 with
        | (o, st2, e2) => (o, st2, e1 ++ e2)
        end
    | (Stop h, st1, e1) => (Stop h, st1, e1)
    end.

Definition halt {A} (h : Halt) : M A := fun st => (Stop h, st, []).

Definition when (b : bool) (m : M unit) : M unit :=
  if b then m else ret tt.

Fixpoint foldM {A B} (f : B -> A -> M B) (l : list A) (b : B) : M B :=
  match l with
  | [] => ret b
  | a :: r => bind (f b a) (foldM f r)
  end.

Fixpoint mapM {A B} (f : A -> M B) (l : list A) : M (list B) :=
  match l with
  | [] => ret []
  | a :: r => bind (f a) (fun b => bind (mapM f r) (fun bs => ret (b :: bs)))
  end.

Fixpoint filterM {A} (f : A -> M bool) (l : list A) : M (list A) :=
  match l with
  | [] => ret []
  | a :: r =>
      bind (f a) (fun keep =>
      bind (filterM f r) (fun kept => ret (if keep then a :: kept else kept)))
  end.

(** *** State primitives *)

Definition set_host (h : Host) (st : St) : St :=
  {| host := h; cwd := cwd st; result := result st |}.

Definition set_cwd (d : string) (st : St) : St :=
  {| host := host st; cwd := d; result := result st |}.

Definition set_result (r : Result) : M unit :=
  fun st => (Ret tt, {| host := host st; cwd := cwd st; result := r |}, []).

Definition set_changed (b : bool) : M unit :=
  fun st => set_result {| changed := b; msg := msg (result st);
                          handler := handler (result st) |} st.

Definition set_msg (s : string) : M unit :=
  fun st => set_result {| changed := changed (result st); msg := s;
                          handler := handler (result st) |} st.

Definition set_handler (h : option string) : M unit :=
  fun st => set_result {| changed := changed (result st);
                          msg := msg (result st); handler := h |} st.

Definition exit_json {A} : M A := halt ExitJson.
Definition fail_json {A} : M A := halt FailJson.

(** [module.run_command(cmd, check_rc=False)] *)
Definition run_command (cmd : Cmdline) : M (Z * string * string) :=
  fun st =>
    match exec (cwd st) (fst cmd) (snd cmd) (host st) with
    | (r, h) => (Ret r, set_host h st, [Cmd (fst cmd) (snd cmd)])
    end.

(** [module.run_command(cmd, check_rc=True)]: the library fails the module
    itself when the exit code is not zero. *)
Definition run_command_check_rc (cmd : Cmdline) : M (Z * string * string) :=
  bind (run_command cmd) (fun r =>
    match r with
    | (rc, _, stderr) =>
        if (rc =? 0)%Z then ret r else halt (LibFail stderr)
    end).

(** [module.get_bin_path(item, required)] *)
Definition get_bin_path (item : string) (required : bool) : M (option string) :=
  fun st =>
    match which item (host st) with
    | Some p => (Ret (Some p), st, [])
    | None =>
        if required then (Stop (LibFail item), st, []) else (Ret None, st, [])
    end.

(** [module.get_bin_path(item, True)], whose value is a path. *)
Definition require_bin_path (item : string) : M string :=
  bind (get_bin_path item true) (fun p =>
    match p with
    | Some path => ret path
    | None => halt (LibFail item)
    end).

Definition path_join (base path : string) : string :=
  match path with
  | String "/" _ => path
  | _ => if has_suffix "/" base then base +++ path else base +++ "/" +++ path
  end.

Definition os_getcwd : M string := fun st => (Ret (cwd st), st, []).

Definition os_chdir (path : string) : M unit :=
  fun st =>
    if enter (cwd st) path (host st)
    then (Ret tt, set_cwd (path_join (cwd st) path) st, [Chdir path])
    else (Stop (Raised "chdir"), st, [Chdir path]).

(** [with tempfile.TemporaryDirectory() as d: body]: the directory is removed
    however the body ends. *)
Definition with_temporary_directory {A} (body : string -> M A) : M A :=
  fun st =>
    match mkdtemp (host st) with
    | (d, h1) =>
        match body d (set_host h1 st) with
        | (o, st2, ev) =>
            (o, set_host (rmtree d (host st2)) st2,
             MkTemp d :: ev ++ [RmTemp d])
        end
    end.

End Pacaur.

Declare Scope pacaur_scope.
Delimit Scope pacaur_scope with pacaur.
Notation "x <- m ;; k" := (bind m (fun x => k))
  (at level 61, m at next level, right associativity) : pacaur_scope.
Notation "' p <- m ;; k" := (bind m (fun x => match x with p => k end))
  (at level 61, p pattern, m at next level, right associativity) : pacaur_scope.
Notation "m ;; k" := (bind m (fun _ => k))
  (at level 61, right associativity) : pacaur_scope.
Local Open Scope pacaur_scope.

(** ** The functions of the module *)

Section Functions.

Context {Host : Type} `{Collaborators Host}.

Local Abbreviation M := (@M Host).

Definition nonempty {A} (l : list A) : bool :=
  match l with [] => false | _ :: _ => true end.

(** Truth value of [params['name']]: neither [None] nor the empty list. *)
Definition name_given (p : Params) : bool :=
  match name p with Some (_ :: _) => true | _ => false end.

Fixpoint first_wrapper (items : list string) : M (option string) :=
  match items with
  | [] => ret None
  | item :: rest =>
      wrapper <- get_bin_path item false ;;
      match wrapper with
      | Some (String _ _) => ret wrapper
      | _ => first_wrapper rest
      end
  end.

Definition get_pacman_wrapper : M (option string) :=
  first_wrapper (map fst pacman_wrappers).

(** [None] stands for the [KeyError] of the table lookup. *)
Definition get_pacman_wrapper_command (wrapper : string) (upgrade_mode : bool)
  : option Cmdline :=
  let action := if upgrade_mode then upgrade_action else install in
  match lookup (last_item (split_on "/" wrapper)) pacman_wrappers with
  | Some template => Some (Some wrapper, template action)
  | None => None
  end.

Definition wrapper_command (wrapper : string) (upgrade_mode : bool)
  : M Cmdline :=
  match get_pacman_wrapper_command wrapper upgrade_mode with
  | Some cmd => ret cmd
  | None => halt (Raised "KeyError")
  end.

Definition get_current_user_name : M string :=
  '(rc, stdout, _) <- run_command (Some "whoami", []) ;;
  ret (if (rc =? 0)%Z then strip stdout else "root").

Definition get_handler (pacman : string) : M string :=
  user <- get_current_user_name ;;
  if negb (String.eqb user "root") then
    wrapper <- get_pacman_wrapper ;;
    match wrapper with
    | Some w => ret w
    | None => ret pacman
    end
  else ret pacman.

Definition split_extra_args (extra_args_str : string) : list string :=
  if is_empty extra_args_str then [] else split extra_args_str.

Definition refresh_package_databases (module : AnsibleModule) (pacman : string)
  : M unit :=
  handler <- get_handler pacman ;;
  denied <- (if String.eqb handler pacman
             then user <- get_current_user_name ;;
                  ret (negb (String.eqb user "root"))
             else ret false) ;;
  when denied
    (set_msg ("could not refresh the master package databases as a non-root "
              +++ "user when no pacman's wrapper is installed") ;;
     fail_json) ;;
  let p := params module in
  let cmd : Cmdline := (Some handler, ["-S"; "-y"]) in
  let cmd := if force p then extend cmd ["-y"] else cmd in
  let cmd := if negb (name_given p || upgrade_flag p)
             then extend cmd (split_extra_args (extra_args p)) else cmd in
  '(rc, _, stderr) <- run_command cmd ;;
  when (negb (rc =? 0)%Z)
    (set_msg ("could not refresh the master package databases: " +++ stderr) ;;
     fail_json).

Definition return_update_cache_result (submsg : string) : M unit :=
  set_changed true ;;
  set_msg ("master package databases " +++ submsg +++ " refreshed") ;;
  exit_json.

Definition return_upgrade_result (submsg : string) : M unit :=
  set_changed true ;;
  set_msg ("system " +++ submsg +++ " upgraded") ;;
  exit_json.

Definition upgrade (module : AnsibleModule) (pacman : string) : M unit :=
  handler <- get_handler pacman ;;
  cmd <- (if String.eqb handler pacman
          then user <- get_current_user_name ;;
               when (negb (String.eqb user "root"))
                 (set_msg ("could not upgrade the system as a non-root user "
                           +++ "when no pacman's wrapper is installed") ;;
                  fail_json) ;;
               ret (Some pacman, ["-S"; "-u"; "-q"; "--noconfirm"])
          else wrapper_command handler true) ;;
  '(rc, stdout, _) <- run_command (Some handler, ["-Q"; "-u"]) ;;
  when (negb (rc =? 0)%Z || is_empty stdout)
    (set_msg "system is up to date" ;; exit_json) ;;
  '(rc, _, stderr) <-
    run_command (extend cmd (split_extra_args (extra_args (params module)))) ;;
  when (negb (rc =? 0)%Z)
    (set_msg ("could not upgrade the system: " +++ stderr) ;; fail_json) ;;
  set_handler (Some handler) ;;
  return_upgrade_result "has been".

(** [re.match(r'^.+\.pkg\.tar(\.(gz|bz2|xz|lrz|lzo|Z))?$', package)] *)
Definition is_local_package (package : string) : bool :=
  existsb (fun ext => dot_plus_then (".pkg.tar" +++ ext) package)
          [""; ".gz"; ".bz2"; ".xz"; ".lrz"; ".lzo"; ".Z"].

Definition get_aur_package_info (package : string) : M AurInfo :=
  fun st =>
    match aur_rpc package (host st) with
    | (Some info, h) => (Ret info, set_host h st, [AurRpc package])
    | (None, h) => (Stop (Raised "open_url"), set_host h st, [AurRpc package])
    end.

Definition is_aur_package (package : string) : M bool :=
  info <- get_aur_package_info package ;;
  ret (resultcount info >? 0)%Z.

Definition is_official_package (package pacman : string) : M bool :=
  let ere := "^" +++ package +++ "$" in
  '(rc, _, _) <- run_command (Some pacman, ["-S"; "-s"; ere]) ;;
  ret (rc =? 0)%Z.

(** The loop of [extract_packages]: the stripped lines that are not empty. *)
Definition member_lines (stdout : string) : list string :=
  filter (fun item => negb (is_empty item)) (map strip (split_on nl stdout)).

Definition extract_packages (package_group pacman : string) : M (list string) :=
  '(rc, stdout, _) <-
    run_command (Some pacman, ["-S"; "-g"; "-q"; package_group]) ;;
  ret (if (rc =? 0)%Z then member_lines stdout else []).

(** The three lists [packages], [aur_packages] and [local_packages]. *)
Definition Buckets : Type := list string * list string * list string.

(** One turn of the loop of [group_packages]. *)
Definition group_packages_step (module : AnsibleModule) (pacman : string)
    (acc : Buckets) (name : string) : M Buckets :=
  match acc with
  | (packages, aur_packages, local_packages) =>
      if is_empty name then ret acc
      else if is_local_package name
      then ret (packages, aur_packages, local_packages ++ [name])
      else
        in_aur <- is_aur_package name ;;
        if in_aur && negb (force (params module))
        then ret (packages, aur_packages ++ [name], local_packages)
        else
          official <- is_official_package name pacman ;;
          if official
          then extracted <- extract_packages name pacman ;;
               ret (if nonempty extracted then packages ++ extracted
                    else packages ++ [name],
                    aur_packages, local_packages)
          else set_msg "unavailable package has been detected" ;; fail_json
  end.

Definition group_packages (module : AnsibleModule) (names : list string)
    (pacman : string) : M Buckets :=
  if negb (State_eqb (state (params module)) Absent)
  then foldM (group_packages_step module pacman) names ([], [], [])
  else ret (filter (fun n => negb (is_empty n)) names, [], []).

Definition is_package_installed (package pacman : string) : M bool :=
  '(rc, _, _) <- run_command (Some pacman, ["-Q"; package]) ;;
  ret (rc =? 0)%Z.

Definition get_package_version (package pacman : string) (remote_version : bool)
  : M (option string) :=
  let query_parameter := if remote_version then "-S" else "-Q" in
  '(rc, stdout, _) <- run_command (Some pacman, [query_parameter; "-i"; package]) ;;
  if (rc =? 0)%Z then
    let version_line := if remote_version then 2 else 1 in
    match nth_error (split_on nl stdout) version_line with
    | Some line => ret (Some (strip (last_item (split_on ":" line))))
    | None => halt (Raised "IndexError")
    end
  else ret None.

Definition get_aur_package_version (package : string) : M (option string) :=
  info <- get_aur_package_info package ;;
  if (resultcount info >? 0)%Z then
    match results info with
    | r :: _ => ret (Some (strip (last_item (split_on ":" (Version r)))))
    | [] => halt (Raised "IndexError")
    end
  else ret None.

(** [version == remote_version] where [version] may be [None]. *)
Definition version_eqb (version : option string) (remote_version : string) : bool :=
  match version with
  | Some v => String.eqb v remote_version
  | None => false
  end.

Definition get_package_details (module : AnsibleModule) (package pacman : string)
    (aur_package : bool) : M Details :=
  is_installed <- is_package_installed package pacman ;;
  let details := {| package := package; installed := is_installed;
                    latest := is_installed |} in
  if State_eqb (state (params module)) Latest && is_installed then
    version <- get_package_version package pacman false ;;
    remote_version <- (if aur_package then get_aur_package_version package
                       else get_package_version package pacman true) ;;
    match remote_version with
    | Some rv => ret {| package := package; installed := is_installed;
                        latest := version_eqb version rv |}
    | None => ret details
    end
  else ret details.

Definition is_state_change_required (s : State) (details : Details) : bool :=
  let state_change := false in
  let state_change :=
    if State_eqb s Absent && installed details then true else state_change in
  let state_change :=
    if State_eqb s Present && negb (installed details) then true
    else state_change in
  let state_change :=
    if State_eqb s Latest && negb (installed details && latest details)
    then true else state_change in
  state_change.

Definition return_name_result (module : AnsibleModule) (number_of_changes : nat)
    (single_package : bool) (check : bool) : M unit :=
  let s := state (params module) in
  let multiple_submsg := if check then "would be" else "have been" in
  let single_submsg := if check then "would be" else "has been" in
  (if 0 <? number_of_changes then
     set_changed true ;;
     set_msg (if 1 <? number_of_changes
              then string_of_nat number_of_changes +++ " packages "
                   +++ multiple_submsg +++ " " +++ state_equivalents s
              else "package " +++ single_submsg +++ " " +++ state_equivalents s)
   else
     set_msg (if single_package
              then "package is already " +++ state_equivalents s
              else "all packages are already " +++ state_equivalents s)) ;;
  exit_json.

(** The name of a local package file: [re.sub(package_version_pattern, '',
    package.split('/')[-1])]. *)
Definition local_package_name (package : string) : string :=
  strip_package_version (last_item (split_on "/" package)).

Definition run_name_check_mode (module : AnsibleModule)
    (packages aur_packages local_packages : list string) (pacman : string)
  : M unit :=
  let s := state (params module) in
  official <- mapM (fun package => get_package_details module package pacman false)
                   packages ;;
  others <- (if negb (State_eqb s Absent) then
               aur <- mapM (fun package =>
                              get_package_details module package pacman true)
                           aur_packages ;;
               loc <- mapM (fun package =>
                              get_package_details module
                                (local_package_name package) pacman false)
                           local_packages ;;
               ret (aur ++ loc)
             else ret []) ;;
  let collected_details := official ++ others in
  let number_of_changes :=
    length (filter (is_state_change_required s) collected_details) in
  return_name_result module number_of_changes
    (length collected_details =? 1) true.

Definition prepare_remove_package_command (module : AnsibleModule)
    (pacman : string) : Cmdline :=
  let p := params module in
  let cmd : Cmdline := (Some pacman, ["-R"]) in
  let cmd := if force p then extend cmd ["-d"; "-d"] else cmd in
  let cmd := extend cmd ["--noconfirm"; "--noprogressbar"] in
  extend cmd (split_extra_args (extra_args p)).

Definition remove_packages (module : AnsibleModule) (packages : list string)
    (pacman : string) : M unit :=
  number_of_changes <-
    foldM (fun n pkg =>
             package_details <- get_package_details module pkg pacman false ;;
             if installed package_details then
               let cmd := extend (prepare_remove_package_command module pacman)
                                 [package package_details] in
               '(rc, _, stderr) <- run_command cmd ;;
               when (negb (rc =? 0)%Z)
                 (set_msg ("failed to remove " +++ package package_details
                           +++ ": " +++ stderr) ;;
                  fail_json) ;;
               ret (n + 1)
             else ret n)
          packages 0 ;;
  return_name_result module number_of_changes (length packages =? 1) false.

Definition run_install_packages_command (module : AnsibleModule) (cmd : Cmdline)
    (packages : list string) : M unit :=
  let cmd := extend cmd (split_extra_args (extra_args (params module))) in
  let cmd := extend cmd packages in
  '(rc, _, stderr) <- run_command cmd ;;
  when (negb (rc =? 0)%Z)
    (set_msg ("failed to install " +++ join_spaces packages +++ ": " +++ stderr) ;;
     fail_json).

Definition install_packages_with_pacman (module : AnsibleModule)
    (packages : list string) (pacman : string) (local_resources : bool) : M nat :=
  packages_to_install <-
    filterM (fun pkg =>
               let package_name :=
                 if local_resources then local_package_name pkg else pkg in
               details <- get_package_details module package_name pacman false ;;
               ret (is_state_change_required (state (params module)) details))
            packages ;;
  when (nonempty packages_to_install)
    (let cmd : Cmdline :=
       if local_resources then (Some pacman, ["-U"]) else (Some pacman, ["-S"]) in
     let cmd := extend cmd ["--needed"; "--noconfirm"; "--noprogressbar"] in
     run_install_packages_command module cmd packages_to_install) ;;
  ret (length packages_to_install).

Definition install_packages_with_wrapper (module : AnsibleModule)
    (packages aur_packages : list string) (wrapper pacman : string) : M nat :=
  let s := state (params module) in
  official <-
    filterM (fun pkg =>
               details <- get_package_details module pkg pacman false ;;
               ret (is_state_change_required s details))
            packages ;;
  aur <-
    filterM (fun pkg =>
               details <- get_package_details module pkg pacman true ;;
               ret (is_state_change_required s details))
            aur_packages ;;
  let packages_to_install := official ++ aur in
  when (nonempty packages_to_install)
    (cmd <- wrapper_command wrapper false ;;
     run_install_packages_command module cmd packages_to_install) ;;
  ret (length packages_to_install).

Definition download_aur_package (file_name url_path : string) : M unit :=
  fun st =>
    match fetch (cwd st) file_name url_path (host st) with
    | (true, h) => (Ret tt, set_host h st, [Download file_name url_path])
    | (false, h) =>
        (Stop (Raised "open_url"), set_host h st, [Download file_name url_path])
    end.

Definition extract_tar_file (file_name : string) : M unit :=
  fun st =>
    match untar (cwd st) file_name (host st) with
    | (true, h) => (Ret tt, set_host h st, [Untar file_name])
    | (false, h) => (Stop (Raised "tarfile"), set_host h st, [Untar file_name])
    end.

Definition prepare_aur_package_install_command (module : AnsibleModule)
  : M Cmdline :=
  makepkg <- get_bin_path "makepkg" false ;;
  ret (extend (makepkg, ["-s"; "-i"; "--needed"; "--noconfirm"; "--noprogressbar"])
              (split_extra_args (extra_args (params module)))).

(** One turn of the loop of [install_aur_packages_with_makepkg]. *)
Definition install_aur_package_step (module : AnsibleModule) (cmd : Cmdline)
    (pacman : string) (number_of_changes : nat) (pkg : string) : M nat :=
  details <- get_package_details module pkg pacman true ;;
  if is_state_change_required (state (params module)) details then
    info <- get_aur_package_info pkg ;;
    when (resultcount info <? 1)%Z
      (set_msg ("failed to install " +++ pkg
                +++ ": could not retrieve the package details") ;;
       fail_json) ;;
    match results info with
    | [] => halt (Raised "IndexError")
    | r :: _ =>
        let package_name := strip (Name r) in
        let url_path := strip (URLPath r) in
        let tar_file_name := package_name +++ ".tar.gz" in
        with_temporary_directory (fun temporary_directory =>
          os_chdir temporary_directory ;;
          download_aur_package tar_file_name url_path ;;
          extract_tar_file tar_file_name ;;
          os_chdir package_name ;;
          '(rc, _, stderr) <- run_command_check_rc cmd ;;
          when (negb (rc =? 0)%Z)
            (set_msg ("failed to install " +++ pkg +++ ": " +++ stderr) ;;
             fail_json) ;;
          ret (number_of_changes + 1))
    end
  else ret number_of_changes.

Definition install_aur_packages_with_makepkg (module : AnsibleModule)
    (packages : list string) (pacman : string) : M nat :=
  cmd <- prepare_aur_package_install_command module ;;
  current_directory <- os_getcwd ;;
  number_of_changes <-
    foldM (install_aur_package_step module cmd pacman) packages 0 ;;
  os_chdir current_directory ;;
  ret number_of_changes.

Definition install_packages_with_aur_support (module : AnsibleModule)
    (packages aur_packages : list string) (pacman : string)
  : M (option string * nat) :=
  user <- get_current_user_name ;;
  when (String.eqb user "root")
    (set_msg "could not install aur packages as a root" ;; fail_json) ;;
  handler <- get_handler pacman ;;
  if negb (String.eqb handler pacman) then
    number_of_changes <-
      install_packages_with_wrapper module packages aur_packages handler pacman ;;
    ret (Some handler, number_of_changes)
  else
    when (nonempty packages)
      (set_msg ("could not install packages from the official repositories "
                +++ "mixed with aur packages when no pacman's wrapper is "
                +++ "installed") ;;
       fail_json) ;;
    get_bin_path "fakeroot" true ;;
    number_of_changes <-
      install_aur_packages_with_makepkg module aur_packages pacman ;;
    makepkg <- get_bin_path "makepkg" false ;;
    ret (makepkg, number_of_changes).

Definition install_packages (module : AnsibleModule)
    (packages aur_packages local_packages : list string) (pacman : string)
  : M unit :=
  let number_of_all_packages :=
    length packages + length aur_packages + length local_packages in
  '(handler, number_of_changes) <-
    (if nonempty aur_packages then
       install_packages_with_aur_support module packages aur_packages pacman
     else
       user <- get_current_user_name ;;
       when (negb (String.eqb user "root"))
         (set_msg ("could not install neither packages from the official "
                   +++ "repositories nor local packages as a non-root user") ;;
          fail_json) ;;
       n1 <- (if nonempty packages
              then install_packages_with_pacman module packages pacman false
              else ret 0) ;;
       n2 <- (if nonempty local_packages
              then install_packages_with_pacman module local_packages pacman true
              else ret 0) ;;
       ret (Some pacman, n1 + n2)) ;;
  set_handler handler ;;
  return_name_result module number_of_changes (number_of_all_packages =? 1) false.

(** The three blocks of [run_module], in the order it runs them. *)
Definition run_module_update_cache (module : AnsibleModule) (pacman : string)
  : M unit :=
  let p := params module in
  when (update_cache p)
    (if negb (check_mode module) then
       refresh_package_databases module pacman ;;
       when (negb (name_given p || upgrade_flag p))
         (return_update_cache_result "have been")
     else
       when (negb (name_given p || upgrade_flag p))
         (return_update_cache_result "would be")).

Definition run_module_upgrade (module : AnsibleModule) (pacman : string)
  : M unit :=
  when (upgrade_flag (params module))
    (if check_mode module then return_upgrade_result "would be"
     else upgrade module pacman).

Definition run_module_name (module : AnsibleModule) (pacman : string) : M unit :=
  let p := params module in
  if name_given p then
    '(packages, aur_packages, local_packages) <-
      group_packages module (match name p with Some l => l | None => [] end)
                     pacman ;;
    when (nonempty aur_packages && nonempty local_packages)
      (set_msg "could not install aur packages mixed with local packages" ;;
       fail_json) ;;
    when (check_mode module)
      (run_name_check_mode module packages aur_packages local_packages pacman) ;;
    if State_eqb (state p) Absent
    then remove_packages module packages pacman
    else install_packages module packages aur_packages local_packages pacman
  else exit_json.

Definition run_module (module : AnsibleModule) : M unit :=
  set_result initial_result ;;
  pacman <- require_bin_path "pacman" ;;
  run_module_update_cache module pacman ;;
  run_module_upgrade module pacman ;;
  run_module_name module pacman.

End Functions.

(** ** Kinds of events

    The commands are told apart by the fixed leading arguments the module
    gives them. What follows on a line (the extra arguments of the caller, the
    packages) is not looked at: a kind says which line of the module a command
    is, not what the program makes of the arguments the caller adds. *)

Fixpoint list_prefix (p l : list string) : bool :=
  match p, l with
  | [], _ => true
  | x :: p', y :: l' => String.eqb x y && list_prefix p' l'
  | _ :: _, [] => false
  end.

(** Read-only queries: [whoami], [-Q ...] (installed check, local version,
    list of outdated packages), [-S -s] (search), [-S -g] (group members),
    [-S -i] (remote version), and the AUR metadata lookup. *)
Definition probing (e : Event) : bool :=
  match e with
  | Cmd prog args =>
      match prog, args with
      | Some p, [] => String.eqb p "whoami"
      | _, _ => list_prefix ["-Q"] args || list_prefix ["-S"; "-s"] args
                || list_prefix ["-S"; "-g"] args || list_prefix ["-S"; "-i"] args
      end
  | AurRpc _ => true
  | _ => false
  end.

Definition mutating (e : Event) : bool := negb (probing e).

(** [-S -y]: refresh of the package databases. *)
Definition refresh_command (e : Event) : bool :=
  match e with
  | Cmd _ args => list_prefix ["-S"; "-y"] args
  | _ => false
  end.

(** The install lines of the module: [-S --needed] (pacman or a wrapper),
    [-U --needed] (local files) and [-s -i] (makepkg). *)
Definition install_command (e : Event) : bool :=
  match e with
  | Cmd _ args => list_prefix ["-S"; "--needed"] args
                  || list_prefix ["-U"; "--needed"] args
                  || list_prefix ["-s"; "-i"] args
  | _ => false
  end.

Definition removal_command (e : Event) : bool :=
  match e with
  | Cmd _ args => list_prefix ["-R"] args
  | _ => false
  end.

(** ** A concrete host

    A machine described by tables, whose answers follow pacman's conventions;
    it is the host of the examples below.  Commands leave it unchanged. *)

Record Machine := {
  m_user : string;
  m_bins : list (string * string);
  m_installed : list (string * string);
  m_official : list (string * string);
  m_groups : list (string * list string);
  m_aur : list (string * AurResult);
  m_failing : list string
}.

Definition mem (x : string) (l : list string) : bool :=
  existsb (String.eqb x) l.

Definition answer (rc : Z) (out : string) : Z * string * string :=
  (rc, out, if (rc =? 0)%Z then "" else "error").

Definition machine_exec (prog : option string) (args : list string)
    (mc : Machine) : Z * string * string :=
  let nls := String nl EmptyString in
  match prog, args with
  | Some p, [] =>
      if String.eqb p "whoami" then answer 0 (m_user mc +++ nls)
      else answer 127 ""
  | _, a :: rest =>
      if mem a (m_failing mc) then answer 1 ""
      else if String.eqb a "-Q" then
        match rest with
        | [b; pkg] =>
            if String.eqb b "-i" then
              match lookup pkg (m_installed mc) with
              | Some v => answer 0 ("Name : " +++ pkg +++ nls
                                    +++ "Version : " +++ v +++ nls)
              | None => answer 1 ""
              end
            else answer 1 ""
        | [pkg] =>
            if String.eqb pkg "-u" then answer 1 ""
            else match lookup pkg (m_installed mc) with
                 | Some _ => answer 0 pkg
                 | None => answer 1 ""
                 end
        | _ => answer 1 ""
        end
      else if String.eqb a "-S" then
        match rest with
        | [b; x] =>
            if String.eqb b "-s" then
              if existsb (fun kv => String.eqb x ("^" +++ fst kv +++ "$"))
                         (m_official mc)
                 || existsb (fun kv => String.eqb x ("^" +++ fst kv +++ "$"))
                            (m_groups mc)
              then answer 0 x else answer 1 ""
            else if String.eqb b "-i" then
              match lookup x (m_official mc) with
              | Some v => answer 0 ("Repository : core" +++ nls
                                    +++ "Name : " +++ x +++ nls
                                    +++ "Version : " +++ v +++ nls)
              | None => answer 1 ""
              end
            else answer 0 ""
        | [b; c; g] =>
            if String.eqb b "-g" then
              match lookup g (m_groups mc) with
              | Some ms => answer 0 (String.concat nls ms +++ nls)
              | None => answer 1 ""
              end
            else answer 0 ""
        | _ => answer 0 ""
        end
      else answer 0 ""
  | None, [] => answer 127 ""
  end.

#[export] Instance machine_host : Collaborators Machine := {|
  exec := fun _ prog args mc => (machine_exec prog args mc, mc);
  which := fun item mc => lookup item (m_bins mc);
  aur_rpc := fun pkg mc =>
    (Some match lookup pkg (m_aur mc) with
          | Some r => {| resultcount := 1; results := [r] |}
          | None => {| resultcount := 0; results := [] |}
          end, mc);
  fetch := fun _ _ _ mc => (true, mc);
  untar := fun _ _ mc => (true, mc);
  mkdtemp := fun mc => ("/tmp/tmpq1w2e3", mc);
  rmtree := fun _ mc => mc;
  enter := fun _ _ _ => true
|}.

Definition start (mc : Machine) : @St Machine :=
  {| host := mc; cwd := "/home/user"; result := initial_result |}.

Definition request (names : list string) (s : State) : Params :=
  {| name := Some names; state := s; upgrade_flag := false;
     update_cache := false; force := false; extra_args := "" |}.

Definition real_run (p : Params) : AnsibleModule :=
  {| params := p; check_mode := false |}.

Definition dry_run (p : Params) : AnsibleModule :=
  {| params := p; check_mode := true |}.

(** A machine run by root, without wrapper: [foo] is installed and current,
    [bar] is available, [grp] is a group of [ga] and [gb], and [aurfoo] is an
    AUR package. *)
Definition machine_root : Machine := {|
  m_user := "root";
  m_bins := [("pacman", "/usr/bin/pacman"); ("makepkg", "/usr/bin/makepkg");
             ("fakeroot", "/usr/bin/fakeroot")];
  m_installed := [("foo", "1.0-1")];
  m_official := [("foo", "1.0-1"); ("bar", "2.0-1"); ("ga", "1-1"); ("gb", "1-1")];
  m_groups := [("grp", ["ga"; "gb"])];
  m_aur := [("aurfoo", {| Name := "aurfoo"; Version := "3.1-2";
                          URLPath := "/cgit/aur.git/snapshot/aurfoo.tar.gz" |})];
  m_failing := []
|}.

Definition as_user (user : string) (mc : Machine) : Machine :=
  {| m_user := user; m_bins := m_bins mc; m_installed := m_installed mc;
     m_official := m_official mc; m_groups := m_groups mc; m_aur := m_aur mc;
     m_failing := m_failing mc |}.

Definition failing (flags : list string) (mc : Machine) : Machine :=
  {| m_user := m_user mc; m_bins := m_bins mc; m_installed := m_installed mc;
     m_official := m_official mc; m_groups := m_groups mc; m_aur := m_aur mc;
     m_failing := flags |}.

Definition with_bin (item path : string) (mc : Machine) : Machine :=
  {| m_user := m_user mc; m_bins := (item, path) :: m_bins mc;
     m_installed := m_installed mc; m_official := m_official mc;
     m_groups := m_groups mc; m_aur := m_aur mc; m_failing := m_failing mc |}.

(** ** Vocabulary of the properties *)

Section Vocabulary.

Context {Host : Type} `{Collaborators Host}.

Local Abbreviation M := (@M Host).
Local Abbreviation St := (@St Host).

(** The three parts of what a computation gives: how it ended, the state it
    left, the events it issued. *)
Definition outcome {A} (x : Outcome A * St * list Event) : Outcome A := fst (fst x).
Definition final {A} (x : Outcome A * St * list Event) : St := snd (fst x).
Definition events {A} (x : Outcome A * St * list Event) : list Event := snd x.

Definition returned {A} (o : Outcome A) : bool :=
  match o with Ret _ => true | Stop _ => false end.

(** Events put in front of what a computation issues. *)
Definition after {A} (evs : list Event) (x : Outcome A * St * list Event)
  : Outcome A * St * list Event :=
  (outcome x, final x, evs ++ events x).

(** A computation that never returns to its caller. *)
Definition never_returns {A} (m : M A) : Prop :=
  forall st, returned (outcome (m st)) = false.

(** [None] for a computation that returned, else the way it stopped. *)
Definition kind {A} (o : Outcome A) : option Halt :=
  match o with Ret _ => None | Stop h => Some h end.

(** [R st k st'] relates the states around a computation that returned
    ([k = None]) or stopped ([k = Some h]); [E] holds of every event. *)
Definition sound (R : St -> option Halt -> St -> Prop) (E : Event -> Prop)
    {A} (m : M A) : Prop :=
  forall st, R st (kind (outcome (m st))) (final (m st))
             /\ Forall E (events (m st)).

(** The loop of [group_packages] over the names, from given lists. *)
Definition loop_group_packages (module : AnsibleModule) (pacman : string) :=
  foldM (group_packages_step module pacman).

(** The queries of the classification leave the host as it is. *)
Definition read_only_queries : Prop :=
  (forall d prog args (h : Host),
      probing (Cmd prog args) = true -> snd (exec d prog args h) = h)
  /\ (forall pkg (h : Host), snd (aur_rpc pkg h) = h).

(** What the classification queries answer about an identifier. *)
Definition aur_knows (st : St) (nm : string) : option bool :=
  match fst (aur_rpc nm (host st)) with
  | Some info => Some (resultcount info >? 0)%Z
  | None => None
  end.

Definition official_knows (pacman : string) (st : St) (nm : string) : bool :=
  match fst (exec (cwd st) (Some pacman) ["-S"; "-s"; "^" +++ nm +++ "$"] (host st))
  with (rc, _, _) => (rc =? 0)%Z end.

Definition group_members (pacman : string) (st : St) (nm : string) : list string :=
  match fst (exec (cwd st) (Some pacman) ["-S"; "-g"; "-q"; nm] (host st))
  with (rc, out, _) => if (rc =? 0)%Z then member_lines out else [] end.

(** An identifier that the classification takes from the official
    repositories. *)
Definition official_identifier (module : AnsibleModule) (pacman : string)
    (st : St) (nm : string) : Prop :=
  is_empty nm = false
  /\ is_local_package nm = false
  /\ (aur_knows st nm = Some false
      \/ (force (params module) = true /\ aur_knows st nm <> None))
  /\ official_knows pacman st nm = true.

(** The state in which [run_module] starts its work: [result] is fresh. *)
Definition fresh (st : St) : St :=
  {| host := host st; cwd := cwd st; result := initial_result |}.

(** A computation that returns leaves [result] as it was. *)
Definition quiet_return (s : St) (k : option Halt) (s' : St) : Prop :=
  k = None -> result s' = result s.

(** The user that [get_current_user_name] makes of the answer of [whoami]. *)
Definition user_of (rc : Z) (stdout : string) : string :=
  if (rc =? 0)%Z then strip stdout else "root".

(** The state after [result['msg'] = message]. *)
Definition said (message : string) (st : St) : St :=
  {| host := host st; cwd := cwd st;
     result := {| changed := changed (result st); msg := message;
                  handler := handler (result st) |} |}.

(** A path as [os.getcwd] gives it. *)
Definition is_absolute (path : string) : bool :=
  match path with
  | String "/" _ => true
  | _ => false
  end.

(** The command line that [prepare_aur_package_install_command] builds. *)
Definition makepkg_command (module : AnsibleModule) (st : St) : Cmdline :=
  extend (which "makepkg" (host st),
          ["-s"; "-i"; "--needed"; "--noconfirm"; "--noprogressbar"])
         (split_extra_args (extra_args (params module))).

End Vocabulary.

(** *** More machines and requests *)

Definition pacman_path : string := "/usr/bin/pacman".

Definition local_file : string := "~/bar-1.0.0-1-any.pkg.tar.xz".

(** A machine on which [old] is installed and known to no repository. *)
Definition machine_orphan : Machine := {|
  m_user := "root";
  m_bins := [("pacman", pacman_path)];
  m_installed := [("old", "0.9-1")];
  m_official := [];
  m_groups := [];
  m_aur := [];
  m_failing := []
|}.

(** A machine of user [alice], with the wrapper [yay]. *)
Definition machine_alice_yay : Machine :=
  with_bin "yay" "/usr/bin/yay" (as_user "alice" machine_root).

(** A machine of user [alice], without wrapper, on which makepkg fails. *)
Definition machine_alice_broken : Machine :=
  failing ["-s"] (as_user "alice" machine_root).

(** The same request with [update_cache: yes]. *)
Definition with_update_cache (p : Params) : Params :=
  {| name := name p; state := state p; upgrade_flag := upgrade_flag p;
     update_cache := true; force := force p; extra_args := extra_args p |}.

(** The machine of root on which the member [ga] of the group [grp] is also
    known to the AUR. *)
Definition machine_member_in_aur : Machine := {|
  m_user := "root";
  m_bins := m_bins machine_root;
  m_installed := m_installed machine_root;
  m_official := m_official machine_root;
  m_groups := m_groups machine_root;
  m_aur := ("ga", {| Name := "ga"; Version := "1-2";
                     URLPath := "/cgit/aur.git/snapshot/ga.tar.gz" |})
           :: m_aur machine_root;
  m_failing := []
|}.

(** *** A host with outdated packages

    A machine on which [pacman -Q -u] lists packages to upgrade; every other
    command is answered as by the machine. *)
Record Outdated := {
  machine : Machine;
  outdated : string
}.

Definition lists_outdated (args : list string) : bool :=
  match args with
  | [a; b] => String.eqb a "-Q" && String.eqb b "-u"
  | _ => false
  end.

#[export] Instance outdated_host : Collaborators Outdated := {|
  exec := fun _ prog args oh =>
    (if lists_outdated args then answer 0 (outdated oh)
     else machine_exec prog args (machine oh), oh);
  which := fun item oh => lookup item (m_bins (machine oh));
  aur_rpc := fun pkg oh => (fst (aur_rpc pkg (machine oh)), oh);
  fetch := fun _ _ _ oh => (true, oh);
  untar := fun _ _ oh => (true, oh);
  mkdtemp := fun oh => ("/tmp/tmpq1w2e3", oh);
  rmtree := fun _ oh => oh;
  enter := fun _ _ _ => true
|}.

(** [foo] can be upgraded on the machine of root, and on the machine of
    [alice] with [yay]; on the third, the upgrade command fails. *)
Definition outdated_root : Outdated :=
  {| machine := machine_root; outdated := "foo 1.0-1 -> 1.1-1" |}.

Definition outdated_alice_yay : Outdated :=
  {| machine := machine_alice_yay; outdated := "foo 1.0-1 -> 1.1-1" |}.

Definition outdated_root_failing : Outdated :=
  {| machine := failing ["-S"] machine_root; outdated := "foo 1.0-1 -> 1.1-1" |}.

Definition upgrade_request : Params :=
  {| name := None; state := Present; upgrade_flag := true;
     update_cache := false; force := false; extra_args := "" |}.

(** ** Vocabulary of the further properties *)

(** A path that [get_pacman_wrapper] takes: not [None] and not empty. *)
Definition found (o : option string) : bool :=
  match o with Some (String _ _) => true | _ => false end.

Definition is_whoami (e : Event) : bool :=
  match e with
  | Cmd (Some p) [] => String.eqb p "whoami"
  | _ => false
  end.

(** The upgrade line of the module: [-S -u]. *)
Definition upgrade_command (e : Event) : bool :=
  match e with
  | Cmd _ args => list_prefix ["-S"; "-u"] args
  | _ => false
  end.

Definition is_mktemp (e : Event) : bool :=
  match e with MkTemp _ => true | _ => false end.

Definition is_rmtemp (e : Event) : bool :=
  match e with RmTemp _ => true | _ => false end.

(** How many events of a kind there are. *)
Definition count (p : Event -> bool) (evs : list Event) : nat :=
  length (filter p evs).

(** An event that neither makes nor removes a scratch directory. *)
Definition plain (e : Event) : bool := negb (is_mktemp e) && negb (is_rmtemp e).

Fixpoint contains (c : ascii) (s : string) : bool :=
  match s with
  | EmptyString => false
  | String c' r => Ascii.eqb c' c || contains c r
  end.

Fixpoint has_space (s : string) : bool :=
  match s with
  | EmptyString => false
  | String c r => is_space c || has_space r
  end.

Definition starts_with_space (s : string) : bool :=
  match s with
  | EmptyString => false
  | String c _ => is_space c
  end.

Fixpoint ends_with_space (s : string) : bool :=
  match s with
  | EmptyString => false
  | String c EmptyString => is_space c
  | String _ r => ends_with_space r
  end.

(** A name as the module takes it from the output of a command: not empty,
    without line feed, without white space at either end. *)
Definition clean_name (s : string) : bool :=
  negb (is_empty s) && negb (contains nl s)
  && negb (starts_with_space s) && negb (ends_with_space s).

(** A hyphen at [c] with a digit after it, and such a place somewhere in a
    string: where [package_version_pattern] can begin. *)
Definition hyphen_digit (c : ascii) (r : string) : bool :=
  match r with
  | String d _ => Ascii.eqb c "-" && is_digit d
  | EmptyString => false
  end.

Fixpoint hyphen_then_digit (s : string) : bool :=
  match s with
  | EmptyString => false
  | String c r => hyphen_digit c r || hyphen_then_digit r
  end.

(** One way for [dot_plus_then] to match: [s] ends in [tail], with a
    non-empty part without line feed in front. *)
Definition fits (tail s : string) : bool :=
  has_suffix tail s
  && (String.length tail <? String.length s)
  && no_newline (substring 0 (String.length s - String.length tail) s).

(** The extensions that [is_local_package] accepts after [.pkg.tar]. *)
Definition archive_extensions : list string :=
  [""; ".gz"; ".bz2"; ".xz"; ".lrz"; ".lzo"; ".Z"].

Section Choice.

Context {Host : Type} `{Collaborators Host}.

(** The wrapper that [get_pacman_wrapper] finds on a host. *)
Definition wrapper_on (h : Host) : option string :=
  if found (which "yay" h) then which "yay" h
  else if found (which "pikaur" h) then which "pikaur" h
  else if found (which "trizen" h) then which "trizen" h
  else None.

(** The command line of [refresh_package_databases]. *)
Definition refresh_arguments (p : Params) : list string :=
  ["-S"; "-y"] ++ (if force p then ["-y"] else [])
  ++ (if negb (name_given p || upgrade_flag p)
      then split_extra_args (extra_args p) else []).

(** A computation that returns leaves [result] as it was, and it never ends
    by [exit_json]. *)
Definition steady (s : @St Host) (k : option Halt) (s' : @St Host) : Prop :=
  (k = None -> result s' = result s) /\ k <> Some ExitJson.

(** A computation that does not end by [exit_json]. *)
Definition noexit (s : @St Host) (k : option Halt) (s' : @St Host) : Prop :=
  k <> Some ExitJson.

(** The removal command of [remove_packages] for one of the packages. *)
Definition removes (module : AnsibleModule) (pacman : string)
    (packages : list string) (e : Event) : Prop :=
  exists pkg, In pkg packages
              /\ e = Cmd (Some pacman)
                       (snd (prepare_remove_package_command module pacman)
                        ++ [pkg]).

(** The command of [install_packages_with_pacman] for some packages. *)
Definition pacman_install_command (module : AnsibleModule) (pacman : string)
    (local_resources : bool) (packages : list string) : Event :=
  Cmd (Some pacman)
      ((([if local_resources then "-U" else "-S"]
         ++ ["--needed"; "--noconfirm"; "--noprogressbar"])
        ++ split_extra_args (extra_args (params module)))
       ++ packages).

(** Whether a package needs a change, by what [get_package_details] finds
    about it in a state ([false] when the look-up does not return). *)
Definition needs_change (module : AnsibleModule) (pacman : string)
    (aur_package : bool) (st : @St Host) (package_name : string) : bool :=
  match outcome (get_package_details module package_name pacman aur_package st)
  with
  | Ret details => is_state_change_required (state (params module)) details
  | Stop _ => false
  end.

End Choice.

(** ** Reasoning about computations *)

Section Logic.

Context {Host : Type} `{Collaborators Host}.

Local Abbreviation M := (@M Host).
Local Abbreviation St := (@St Host).
Local Abbreviation never_returns := (@never_returns Host).

Lemma bind_ret {A B} (m : M A) (f : A -> M B) st a st1 e1 :
  m st = (Ret a, st1, e1) -> bind m f st = after e1 (f a st1).
Proof.
  intros Hm. unfold bind, after, outcome, final, events. rewrite Hm.
  destruct (f a st1) as [[o st2] e2]. reflexivity.
Qed.

Lemma bind_stop {A B} (m : M A) (f : A -> M B) st h st1 e1 :
  m st = (Stop h, st1, e1) -> bind m f st = (Stop h, st1, e1).
Proof. intros Hm. unfold bind. rewrite Hm. reflexivity. Qed.

Lemma bind_inv {A B} (m : M A) (f : A -> M B) st o st2 ev :
  bind m f st = (o, st2, ev) ->
  (exists a st1 e1 e2, m st = (Ret a, st1, e1) /\ f a st1 = (o, st2, e2)
                       /\ ev = e1 ++ e2)
  \/ (exists h, m st = (Stop h, st2, ev) /\ o = Stop h).
Proof.
  unfold bind. destruct (m st) as [[[a | h] st1] e1].
  - destruct (f a st1) as [[o' st2'] e2] eqn:Hf. intros Heq.
    injection Heq as -> -> <-. left. exists a, st1, e1, e2. auto.
  - intros Heq. injection Heq as <- -> ->. right. exists h. auto.
Qed.

Lemma after_nil {A} (x : Outcome A * St * list Event) : after [] x = x.
Proof. destruct x as [[o st] ev]. reflexivity. Qed.

Lemma after_after {A} e1 e2 (x : Outcome A * St * list Event) :
  after e1 (after e2 x) = after (e1 ++ e2) x.
Proof. unfold after; simpl. now rewrite app_assoc. Qed.

Lemma foldM_cons {A B} (f : B -> A -> M B) a l b :
  foldM f (a :: l) b = bind (f b a) (foldM f l).
Proof. reflexivity. Qed.

Lemma foldM_app {A B} (f : B -> A -> M B) xs ys b st :
  foldM f (xs ++ ys) b st = bind (foldM f xs b) (foldM f ys) st.
Proof.
  revert b st. induction xs as [| x xs IH]; intros b st; simpl.
  - unfold bind, ret. destruct (foldM f ys b st) as [[o s] e]. reflexivity.
  - unfold bind. destruct (f b x st) as [[[b' | h] st1] e1]; [| reflexivity].
    rewrite IH. unfold bind.
    destruct (foldM f xs b' st1) as [[[b2 | h2] st2] e2]; [| reflexivity].
    destruct (foldM f ys b2 st2) as [[o3 st3] e3]. now rewrite app_assoc.
Qed.

Lemma never_returns_halt {A} h : never_returns (@halt Host A h).
Proof. intros st. reflexivity. Qed.

Lemma never_returns_bind_l {A B} (m : M A) (f : A -> M B) :
  never_returns m -> never_returns (bind m f).
Proof.
  intros Hm st. specialize (Hm st). unfold bind.
  destruct (m st) as [[[a | h] st1] e1]; simpl in *; [discriminate | reflexivity].
Qed.

Lemma never_returns_bind_r {A B} (m : M A) (f : A -> M B) :
  (forall a, never_returns (f a)) -> never_returns (bind m f).
Proof.
  intros Hf st. unfold bind.
  destruct (m st) as [[[a | h] st1] e1]; [| reflexivity].
  specialize (Hf a st1). destruct (f a st1) as [[o st2] e2]. exact Hf.
Qed.

Lemma bind_never_returns {A B} (m : M A) (f : A -> M B) st :
  never_returns m ->
  exists h st1 e1, m st = (Stop h, st1, e1) /\ bind m f st = (Stop h, st1, e1).
Proof.
  intros Hm. specialize (Hm st). unfold bind.
  destruct (m st) as [[[a | h] st1] e1]; simpl in *; [discriminate |].
  exists h, st1, e1. split; reflexivity.
Qed.

(** *** Rules for [sound]

    The relation [R] holds around a computation that leaves [result] alone
    and returns, around one that stops otherwise than by [exit_json] and
    leaves the handler alone, and it composes. *)

Section Sound.

Variable R : St -> option Halt -> St -> Prop.
Variable E : Event -> Prop.

Hypothesis R_ret : forall st st', result st' = result st -> R st None st'.
Hypothesis R_stop : forall st st' h,
  h <> ExitJson -> handler (result st') = handler (result st) ->
  R st (Some h) st'.
Hypothesis R_trans : forall st st1 k st2,
  R st None st1 -> R st1 k st2 -> R st k st2.

Lemma sound_ret {A} (a : A) : sound R E (ret a).
Proof. intros st. split; [apply R_ret; reflexivity | constructor]. Qed.

Lemma sound_halt {A} h : h <> ExitJson -> sound R E (@halt Host A h).
Proof. intros Hh st. split; [apply R_stop; auto | constructor]. Qed.

Lemma sound_bind {A B} (m : M A) (f : A -> M B) :
  sound R E m -> (forall a, sound R E (f a)) -> sound R E (bind m f).
Proof.
  intros Hm Hf st. destruct (Hm st) as [HR HE]. unfold bind.
  destruct (m st) as [[[a | h] st1] e1]; simpl in *.
  - destruct (Hf a st1) as [HR2 HE2].
    destruct (f a st1) as [[o st2] e2]; simpl in *. split.
    + eapply R_trans; eassumption.
    + apply Forall_app. split; assumption.
  - split; assumption.
Qed.

Lemma sound_bind_stop {A B} (m : M A) (f : A -> M B) :
  sound R E m -> never_returns m -> sound R E (bind m f).
Proof.
  intros Hm Hn st.
  destruct (bind_never_returns m f st Hn) as (h & st1 & e1 & Hst & ->).
  specialize (Hm st). rewrite Hst in Hm. exact Hm.
Qed.

Lemma sound_when b (m : M unit) : sound R E m -> sound R E (when b m).
Proof. intros Hm. destruct b; [exact Hm | apply sound_ret]. Qed.

(** [result['msg'] = s] followed by [fail_json]. *)
Lemma sound_msg_fail {A} s : sound R E (bind (set_msg s) (fun _ => @fail_json Host A)).
Proof.
  intros st. split; [apply R_stop; [discriminate | reflexivity] | constructor].
Qed.

Lemma sound_foldM {A B} (f : B -> A -> M B) l :
  (forall b a, sound R E (f b a)) -> forall b, sound R E (foldM f l b).
Proof.
  intros Hf. induction l as [| a l IH]; intros b; simpl.
  - apply sound_ret.
  - apply sound_bind; [apply Hf | exact IH].
Qed.

Lemma sound_mapM {A B} (f : A -> M B) l :
  (forall a, sound R E (f a)) -> sound R E (mapM f l).
Proof.
  intros Hf. induction l as [| a l IH]; simpl.
  - apply sound_ret.
  - apply sound_bind; [apply Hf |]. intros b.
    apply sound_bind; [exact IH |]. intros bs. apply sound_ret.
Qed.

Lemma sound_filterM {A} (f : A -> M bool) l :
  (forall a, sound R E (f a)) -> sound R E (filterM f l).
Proof.
  intros Hf. induction l as [| a l IH]; simpl.
  - apply sound_ret.
  - apply sound_bind; [apply Hf |]. intros b.
    apply sound_bind; [exact IH |]. intros bs. apply sound_ret.
Qed.

Lemma sound_run_command cmd :
  E (Cmd (fst cmd) (snd cmd)) -> sound R E (run_command cmd).
Proof.
  intros HE st. unfold run_command.
  destruct (exec (cwd st) (fst cmd) (snd cmd) (host st)) as [r h]. simpl.
  split; [apply R_ret; reflexivity | repeat constructor; assumption].
Qed.

Lemma sound_get_bin_path item required : sound R E (get_bin_path item required).
Proof.
  intros st. unfold get_bin_path.
  destruct (which item (host st)); [| destruct required]; simpl;
    (split; [first [apply R_ret; reflexivity
                   | apply R_stop; [discriminate | reflexivity]]
            | constructor]).
Qed.

Lemma sound_require_bin_path item : sound R E (require_bin_path item).
Proof.
  apply sound_bind; [apply sound_get_bin_path |].
  intros [p |]; [apply sound_ret | apply sound_halt; discriminate].
Qed.

Lemma sound_get_aur_package_info pkg :
  E (AurRpc pkg) -> sound R E (get_aur_package_info pkg).
Proof.
  intros HE st. unfold get_aur_package_info.
  destruct (aur_rpc pkg (host st)) as [[info |] h]; simpl;
    (split; [first [apply R_ret; reflexivity
                   | apply R_stop; [discriminate | reflexivity]]
            | repeat constructor; assumption]).
Qed.

(** *** The functions that only look at the host *)

Hypothesis E_probe : forall e, probing e = true -> E e.

Ltac msound_with side :=
  repeat first
    [ apply sound_ret | apply sound_halt; discriminate | apply sound_msg_fail
    | apply sound_get_bin_path | apply sound_require_bin_path
    | apply sound_run_command; solve [side]
    | apply sound_get_aur_package_info; solve [side]
    | apply sound_when
    | apply sound_bind; [| intros ?]
    | match goal with
      | |- sound R E (match ?x with _ => _ end) => destruct x
      | |- sound R E (if ?b then _ else _) => destruct b
      end ].

Ltac msound := msound_with ltac:(apply E_probe; reflexivity).

Lemma sound_get_current_user_name : sound R E get_current_user_name.
Proof. unfold get_current_user_name. msound. Qed.

Lemma sound_first_wrapper items : sound R E (first_wrapper items).
Proof.
  induction items as [| item rest IH]; simpl; [apply sound_ret |].
  apply sound_bind; [apply sound_get_bin_path |].
  intros [[| c w] |]; first [exact IH | apply sound_ret].
Qed.

Lemma sound_get_handler pacman : sound R E (get_handler pacman).
Proof.
  unfold get_handler, get_pacman_wrapper.
  apply sound_bind; [apply sound_get_current_user_name |]. intros user.
  destruct (negb (user =? "root")%string); [| apply sound_ret].
  apply sound_bind; [apply sound_first_wrapper |]. intros [w |]; apply sound_ret.
Qed.

Lemma sound_is_package_installed pkg pacman :
  sound R E (is_package_installed pkg pacman).
Proof. unfold is_package_installed. msound. Qed.

Lemma sound_get_package_version pkg pacman remote :
  sound R E (get_package_version pkg pacman remote).
Proof. unfold get_package_version. destruct remote; msound. Qed.

Lemma sound_get_aur_package_version pkg : sound R E (get_aur_package_version pkg).
Proof. unfold get_aur_package_version. msound. Qed.

Lemma sound_get_package_details module pkg pacman aur :
  sound R E (get_package_details module pkg pacman aur).
Proof.
  unfold get_package_details.
  apply sound_bind; [apply sound_is_package_installed |]. intros inst.
  destruct (State_eqb (state (params module)) Latest && inst); [| apply sound_ret].
  apply sound_bind; [apply sound_get_package_version |]. intros version.
  apply sound_bind.
  - destruct aur; [apply sound_get_aur_package_version
                  | apply sound_get_package_version].
  - intros [rv |]; apply sound_ret.
Qed.

Lemma sound_group_packages_step module pacman acc nm :
  sound R E (group_packages_step module pacman acc nm).
Proof.
  unfold group_packages_step, is_aur_package, is_official_package,
    extract_packages.
  destruct acc as [[packages aur_packages] local_packages]. msound.
Qed.

Lemma sound_group_packages module names pacman :
  sound R E (group_packages module names pacman).
Proof.
  unfold group_packages.
  destruct (negb (State_eqb (state (params module)) Absent)); [| apply sound_ret].
  apply sound_foldM. intros b a. apply sound_group_packages_step.
Qed.

Lemma never_returns_return_name_result module n single check :
  never_returns (return_name_result module n single check).
Proof.
  intros st. unfold return_name_result. destruct (0 <? n); reflexivity.
Qed.

Lemma never_returns_run_name_check_mode module packages aur_packages
    local_packages pacman :
  never_returns
    (run_name_check_mode module packages aur_packages local_packages pacman).
Proof.
  unfold run_name_check_mode.
  apply never_returns_bind_r. intros official.
  apply never_returns_bind_r. intros others.
  apply never_returns_return_name_result.
Qed.

(** *** The functions that change the host *)

Lemma sound_refresh_package_databases module pacman :
  (forall e, refresh_command e = true -> E e) ->
  sound R E (refresh_package_databases module pacman).
Proof.
  intros E_refresh. unfold refresh_package_databases.
  apply sound_bind; [apply sound_get_handler |]. intros handler.
  apply sound_bind.
  { destruct (handler =? pacman)%string; [| apply sound_ret].
    apply sound_bind; [apply sound_get_current_user_name |].
    intros user. apply sound_ret. }
  intros denied. apply sound_bind; [apply sound_when, sound_msg_fail |].
  intros _. apply sound_bind.
  - apply sound_run_command. apply E_refresh.
    destruct (force (params module));
      destruct (negb (name_given (params module) || upgrade_flag (params module)));
      reflexivity.
  - intros [[rc out] err]. apply sound_when, sound_msg_fail.
Qed.



(** *** The functions that report *)

Hypothesis R_exit : forall st st',
  handler (result st') = handler (result st) -> R st (Some ExitJson) st'.

Lemma sound_return_name_result module n single check :
  sound R E (return_name_result module n single check).
Proof.
  intros st. unfold return_name_result.
  destruct (0 <? n); simpl; (split; [apply R_exit; reflexivity | constructor]).
Qed.

Lemma sound_run_name_check_mode module packages aur_packages local_packages pacman :
  sound R E (run_name_check_mode module packages aur_packages local_packages pacman).
Proof.
  unfold run_name_check_mode.
  apply sound_bind; [apply sound_mapM; intros; apply sound_get_package_details |].
  intros official. apply sound_bind.
  - destruct (negb (State_eqb (state (params module)) Absent)); [| apply sound_ret].
    apply sound_bind; [apply sound_mapM; intros; apply sound_get_package_details |].
    intros aur.
    apply sound_bind; [apply sound_mapM; intros; apply sound_get_package_details |].
    intros loc. apply sound_ret.
  - intros others. apply sound_return_name_result.
Qed.

Lemma sound_return_update_cache_result submsg :
  sound R E (return_update_cache_result submsg).
Proof. intros st. split; [apply R_exit; reflexivity | constructor]. Qed.

Lemma sound_return_upgrade_result submsg : sound R E (return_upgrade_result submsg).
Proof. intros st. split; [apply R_exit; reflexivity | constructor]. Qed.

Lemma sound_run_module_update_cache module pacman :
  (check_mode module = false -> forall e, refresh_command e = true -> E e) ->
  sound R E (run_module_update_cache module pacman).
Proof.
  intros E_refresh. unfold run_module_update_cache. apply sound_when.
  destruct (check_mode module); simpl.
  - apply sound_when, sound_return_update_cache_result.
  - apply sound_bind; [apply sound_refresh_package_databases; auto |].
    intros _. apply sound_when, sound_return_update_cache_result.
Qed.

Lemma sound_remove_packages module packages pacman :
  (forall e, removal_command e = true -> E e) ->
  sound R E (remove_packages module packages pacman).
Proof.
  intros E_remove. unfold remove_packages. apply sound_bind.
  - apply sound_foldM. intros n pkg.
    apply sound_bind; [apply sound_get_package_details |]. intros details.
    destruct (installed details); [| apply sound_ret].
    apply sound_bind.
    + apply sound_run_command. apply E_remove.
      unfold prepare_remove_package_command.
      destruct (force (params module)); reflexivity.
    + intros [[rc out] err].
      apply sound_bind; [apply sound_when, sound_msg_fail |].
      intros _. apply sound_ret.
  - intros n. apply sound_return_name_result.
Qed.

(** What [run_module] does once [result] is initialised, in a dry run and for
    a removal request. *)
Lemma sound_run_module_stages module :
  check_mode module = true
  \/ (state (params module) = Absent /\ upgrade_flag (params module) = false) ->
  (check_mode module = false ->
   forall e, refresh_command e = true \/ removal_command e = true -> E e) ->
  sound R E (pacman <- require_bin_path "pacman" ;;
         run_module_update_cache module pacman ;;
         run_module_upgrade module pacman ;;
         run_module_name module pacman).
Proof.
  intros Hcase E_change.
  apply sound_bind; [apply sound_require_bin_path |]. intros pacman.
  apply sound_bind; [apply sound_run_module_update_cache; auto |]. intros _.
  apply sound_bind.
  { unfold run_module_upgrade.
    destruct Hcase as [Hc | [_ Hu]].
    - rewrite Hc. apply sound_when, sound_return_upgrade_result.
    - rewrite Hu. apply sound_ret. }
  intros _. unfold run_module_name.
  destruct (name_given (params module)).
  2: { intros st. split; [apply R_exit; reflexivity | constructor]. }
  apply sound_bind; [apply sound_group_packages |].
  intros [[packages aur_packages] local_packages].
  apply sound_bind; [apply sound_when, sound_msg_fail |]. intros _.
  destruct (check_mode module) eqn:Hc; simpl.
  - apply sound_bind_stop;
      [apply sound_run_name_check_mode | apply never_returns_run_name_check_mode].
  - destruct Hcase as [Hcase | [Hs _]]; [discriminate |].
    apply sound_bind; [apply sound_ret |]. intros _.
    rewrite Hs. simpl. apply sound_remove_packages. auto.
Qed.

End Sound.

End Logic.

(** ** Properties of the module *)

Section Properties.

Context {Host : Type} `{Collaborators Host}.

Local Abbreviation St := (@St Host).
Local Abbreviation quiet_return := (@quiet_return Host).

Lemma set_host_same (st : St) : set_host (host st) st = st.
Proof. destruct st; reflexivity. Qed.

(** C5. The convergence decision follows the decision table: [Absent] needs a
    change iff the package is installed, [Present] iff it is not installed,
    [Latest] iff it is not installed or not up to date. *)
Theorem is_state_change_required_table (s : State) (details : Details) :
  is_state_change_required s details =
  match s with
  | Absent => installed details
  | Present => negb (installed details)
  | Latest => negb (installed details) || negb (latest details)
  end.
Proof.
  unfold is_state_change_required.
  destruct s, details as [p [|] [|]]; reflexivity.
Qed.

(** C6. [latest] is looked into only when the desired state is [Latest] and
    the package is installed: otherwise the installed check is the only query
    and [latest] is [installed]; and when it is looked into and no remote
    version is found, [latest] is true, so that no change is required. *)
Theorem get_package_details_latest (module : AnsibleModule) (pkg pacman : string)
    (aur : bool) (st st1 : St) (is_installed : bool) (e1 : list Event) :
  is_package_installed pkg pacman st = (Ret is_installed, st1, e1) ->
  e1 = [Cmd (Some pacman) ["-Q"; pkg]]
  /\ (state (params module) <> Latest \/ is_installed = false ->
      get_package_details module pkg pacman aur st
      = (Ret {| package := pkg; installed := is_installed;
                latest := is_installed |}, st1, e1))
  /\ (state (params module) = Latest -> is_installed = true ->
      forall version st2 e2 remote_version st3 e3,
        get_package_version pkg pacman false st1 = (Ret version, st2, e2) ->
        (if aur then get_aur_package_version pkg
         else get_package_version pkg pacman true) st2
        = (Ret remote_version, st3, e3) ->
        get_package_details module pkg pacman aur st
        = (Ret {| package := pkg; installed := true;
                  latest := match remote_version with
                            | Some rv => version_eqb version rv
                            | None => true
                            end |}, st3, e1 ++ e2 ++ e3)
        /\ (remote_version = None ->
            forall details st' ev,
              get_package_details module pkg pacman aur st
              = (Ret details, st', ev) ->
              is_state_change_required Latest details = false)).
Proof.
  intros Hinst. split; [| split].
  - revert Hinst. unfold is_package_installed, bind, run_command. simpl.
    destruct (exec (cwd st) (Some pacman) ["-Q"; pkg] (host st)) as [[[rc out] err] h].
    simpl. intros Heq. injection Heq as _ _ <-. reflexivity.
  - intros Hskip. unfold get_package_details.
    rewrite (bind_ret _ _ _ _ _ _ Hinst).
    replace (State_eqb (state (params module)) Latest && is_installed) with false.
    + unfold after, ret; simpl. now rewrite app_nil_r.
    + destruct Hskip as [Hs | ->]; [| now rewrite andb_false_r].
      destruct (state (params module)) eqn:Hstate; simpl; congruence.
  - intros Hs -> version st2 e2 remote_version st3 e3 Hlocal Hremote.
    assert (Hrun : get_package_details module pkg pacman aur st
                   = (Ret {| package := pkg; installed := true;
                             latest := match remote_version with
                                       | Some rv => version_eqb version rv
                                       | None => true
                                       end |}, st3, e1 ++ e2 ++ e3)).
    { unfold get_package_details.
      rewrite (bind_ret _ _ _ _ _ _ Hinst), Hs. simpl.
      rewrite (bind_ret _ _ _ _ _ _ Hlocal).
      rewrite (bind_ret _ _ _ _ _ _ Hremote).
      destruct remote_version as [rv |]; unfold after, ret; simpl;
        now rewrite app_nil_r. }
    split; [exact Hrun |].
    intros -> details st' ev Hdetails. rewrite Hrun in Hdetails.
    injection Hdetails as <- _ _. reflexivity.
Qed.

(** *** Classification *)

Lemma group_packages_loop module names pacman :
  state (params module) <> Absent ->
  group_packages module names pacman
  = loop_group_packages module pacman names ([], [], []).
Proof.
  intros Hs. unfold group_packages, loop_group_packages.
  destruct (state (params module)) eqn:Hstate; simpl; congruence.
Qed.

Lemma run_command_eq (cmd : Cmdline) (st : St) r h :
  exec (cwd st) (fst cmd) (snd cmd) (host st) = (r, h) ->
  run_command cmd st = (Ret r, set_host h st, [Cmd (fst cmd) (snd cmd)]).
Proof. intros Hx. unfold run_command. rewrite Hx. reflexivity. Qed.

Lemma is_aur_package_eq nm (st : St) info h :
  aur_rpc nm (host st) = (Some info, h) ->
  is_aur_package nm st
  = (Ret (resultcount info >? 0)%Z, set_host h st, [AurRpc nm]).
Proof.
  intros Hq. unfold is_aur_package, get_aur_package_info, bind, ret.
  rewrite Hq. reflexivity.
Qed.

Lemma is_official_package_eq nm pacman (st : St) rc out err h :
  exec (cwd st) (Some pacman) ["-S"; "-s"; "^" +++ nm +++ "$"] (host st)
  = ((rc, out, err), h) ->
  is_official_package nm pacman st
  = (Ret (rc =? 0)%Z, set_host h st,
     [Cmd (Some pacman) ["-S"; "-s"; "^" +++ nm +++ "$"]]).
Proof.
  intros Hx. unfold is_official_package.
  erewrite bind_ret by (eapply run_command_eq; exact Hx). reflexivity.
Qed.

Lemma extract_packages_eq nm pacman (st : St) rc out err h :
  exec (cwd st) (Some pacman) ["-S"; "-g"; "-q"; nm] (host st)
  = ((rc, out, err), h) ->
  extract_packages nm pacman st
  = (Ret (if (rc =? 0)%Z then member_lines out else []), set_host h st,
     [Cmd (Some pacman) ["-S"; "-g"; "-q"; nm]]).
Proof.
  intros Hx. unfold extract_packages.
  erewrite bind_ret by (eapply run_command_eq; exact Hx). reflexivity.
Qed.

Lemma step_local module pacman nm packages aur_packages local_packages (st : St) :
  is_empty nm = false -> is_local_package nm = true ->
  group_packages_step module pacman (packages, aur_packages, local_packages) nm st
  = (Ret (packages, aur_packages, local_packages ++ [nm]), st, []).
Proof.
  intros Hne Hlocal. unfold group_packages_step. rewrite Hne, Hlocal. reflexivity.
Qed.

Lemma step_aur module pacman nm packages aur_packages local_packages (st : St)
    info h1 :
  is_empty nm = false -> is_local_package nm = false ->
  aur_rpc nm (host st) = (Some info, h1) ->
  (resultcount info >? 0)%Z = true -> force (params module) = false ->
  group_packages_step module pacman (packages, aur_packages, local_packages) nm st
  = (Ret (packages, aur_packages ++ [nm], local_packages), set_host h1 st,
     [AurRpc nm]).
Proof.
  intros Hne Hnot Hq Hmatch Hforce. unfold group_packages_step.
  rewrite Hne, Hnot.
  erewrite bind_ret by (apply is_aur_package_eq; exact Hq).
  rewrite Hmatch, Hforce. reflexivity.
Qed.

Lemma step_official module pacman nm packages aur_packages local_packages
    (st : St) info h1 out err h2 rc' out' err' h3 :
  is_empty nm = false -> is_local_package nm = false ->
  aur_rpc nm (host st) = (Some info, h1) ->
  (resultcount info >? 0)%Z = false \/ force (params module) = true ->
  exec (cwd st) (Some pacman) ["-S"; "-s"; "^" +++ nm +++ "$"] h1
  = ((0%Z, out, err), h2) ->
  exec (cwd st) (Some pacman) ["-S"; "-g"; "-q"; nm] h2 = ((rc', out', err'), h3) ->
  group_packages_step module pacman (packages, aur_packages, local_packages) nm st
  = (Ret (if nonempty (if (rc' =? 0)%Z then member_lines out' else [])
          then packages ++ (if (rc' =? 0)%Z then member_lines out' else [])
          else packages ++ [nm], aur_packages, local_packages),
     set_host h3 st,
     [AurRpc nm; Cmd (Some pacman) ["-S"; "-s"; "^" +++ nm +++ "$"];
      Cmd (Some pacman) ["-S"; "-g"; "-q"; nm]]).
Proof.
  intros Hne Hnot Hq Hno Hsearch Hgroup. unfold group_packages_step.
  rewrite Hne, Hnot.
  erewrite bind_ret by (apply is_aur_package_eq; exact Hq).
  replace ((resultcount info >? 0)%Z && negb (force (params module))) with false
    by (destruct Hno as [-> | ->]; [reflexivity | now rewrite andb_false_r]).
  erewrite bind_ret by (eapply is_official_package_eq; exact Hsearch).
  change (0 =? 0)%Z with true. cbv iota.
  erewrite bind_ret by (eapply extract_packages_eq; exact Hgroup).
  reflexivity.
Qed.

Lemma step_unavailable module pacman nm packages aur_packages local_packages
    (st : St) info h1 rc out err h2 :
  is_empty nm = false -> is_local_package nm = false ->
  aur_rpc nm (host st) = (Some info, h1) ->
  (resultcount info >? 0)%Z = false \/ force (params module) = true ->
  exec (cwd st) (Some pacman) ["-S"; "-s"; "^" +++ nm +++ "$"] h1
  = ((rc, out, err), h2) ->
  rc <> 0%Z ->
  group_packages_step module pacman (packages, aur_packages, local_packages) nm st
  = (Stop FailJson,
     {| host := h2; cwd := cwd st;
        result := {| changed := changed (result st);
                     msg := "unavailable package has been detected";
                     handler := handler (result st) |} |},
     [AurRpc nm; Cmd (Some pacman) ["-S"; "-s"; "^" +++ nm +++ "$"]]).
Proof.
  intros Hne Hnot Hq Hno Hsearch Hrc. unfold group_packages_step.
  rewrite Hne, Hnot.
  erewrite bind_ret by (apply is_aur_package_eq; exact Hq).
  replace ((resultcount info >? 0)%Z && negb (force (params module))) with false
    by (destruct Hno as [-> | ->]; [reflexivity | now rewrite andb_false_r]).
  erewrite bind_ret by (eapply is_official_package_eq; exact Hsearch).
  apply Z.eqb_neq in Hrc. rewrite Hrc. reflexivity.
Qed.

(** *** Group expansion *)

Lemma pure_exec d prog args (h : Host) :
  read_only_queries -> probing (Cmd prog args) = true ->
  exec d prog args h = (fst (exec d prog args h), h).
Proof.
  intros [Hx _] Hp. specialize (Hx d prog args h Hp).
  destruct (exec d prog args h) as [r h']. simpl in *. now subst.
Qed.

Lemma pure_aur_rpc pkg (h : Host) :
  read_only_queries -> aur_rpc pkg h = (fst (aur_rpc pkg h), h).
Proof.
  intros [_ Hq]. specialize (Hq pkg h).
  destruct (aur_rpc pkg h) as [r h']. simpl in *. now subst.
Qed.

Lemma official_step module pacman nm packages aur_packages local_packages
    (st : St) :
  read_only_queries -> official_identifier module pacman st nm ->
  group_packages_step module pacman (packages, aur_packages, local_packages) nm st
  = (Ret (if nonempty (group_members pacman st nm)
          then packages ++ group_members pacman st nm
          else packages ++ [nm], aur_packages, local_packages),
     st,
     [AurRpc nm; Cmd (Some pacman) ["-S"; "-s"; "^" +++ nm +++ "$"];
      Cmd (Some pacman) ["-S"; "-g"; "-q"; nm]]).
Proof.
  intros Hpure (Hne & Hnot & Haur & Hoff).
  unfold aur_knows in Haur. unfold official_knows in Hoff. unfold group_members.
  pose proof (pure_aur_rpc nm (host st) Hpure) as Hq.
  pose proof (pure_exec (cwd st) (Some pacman) ["-S"; "-s"; "^" +++ nm +++ "$"]
                        (host st) Hpure eq_refl) as Hs.
  pose proof (pure_exec (cwd st) (Some pacman) ["-S"; "-g"; "-q"; nm]
                        (host st) Hpure eq_refl) as Hg.
  destruct (fst (aur_rpc nm (host st))) as [info |] eqn:Hinfo.
  2: { destruct Haur as [Haur | [_ Haur]]; [discriminate | contradiction]. }
  destruct (fst (exec (cwd st) (Some pacman) ["-S"; "-s"; "^" +++ nm +++ "$"]
                      (host st))) as [[rc out] err] eqn:Hrc.
  apply Z.eqb_eq in Hoff. subst rc.
  destruct (fst (exec (cwd st) (Some pacman) ["-S"; "-g"; "-q"; nm] (host st)))
    as [[rc' out'] err'] eqn:Hrc'.
  assert (Hno : (resultcount info >? 0)%Z = false \/ force (params module) = true).
  { destruct Haur as [Haur | [Hf _]]; [left | right; exact Hf].
    now injection Haur. }
  pose proof (step_official module pacman nm packages aur_packages
                local_packages st info (host st) out err (host st) rc' out' err'
                (host st) Hne Hnot Hq Hno Hs Hg) as Hstep.
  rewrite set_host_same in Hstep. exact Hstep.
Qed.

Lemma run_command_same_state cmd (st st' : St) o ev :
  read_only_queries -> probing (Cmd (fst cmd) (snd cmd)) = true ->
  run_command cmd st = (o, st', ev) -> st' = st.
Proof.
  intros Hpure Hp. unfold run_command.
  rewrite (pure_exec _ _ _ _ Hpure Hp).
  intros Heq. injection Heq as _ <- _. apply set_host_same.
Qed.

Lemma is_aur_package_same_state nm (st st' : St) o ev :
  read_only_queries -> is_aur_package nm st = (o, st', ev) -> st' = st.
Proof.
  intros Hpure. unfold is_aur_package, get_aur_package_info, bind, ret.
  rewrite (pure_aur_rpc nm (host st) Hpure).
  destruct (fst (aur_rpc nm (host st))); intros Heq; injection Heq as _ <- _;
    apply set_host_same.
Qed.

Lemma step_returns_same_state module pacman acc nm (st st' : St) b ev :
  read_only_queries ->
  group_packages_step module pacman acc nm st = (Ret b, st', ev) -> st' = st.
Proof.
  intros Hpure. unfold group_packages_step.
  destruct acc as [[packages aur_packages] local_packages].
  destruct (is_empty nm); [intros Heq; now injection Heq |].
  destruct (is_local_package nm); [intros Heq; now injection Heq |].
  intros Hrun.
  apply bind_inv in Hrun
    as [(in_aur & st1 & e1 & e2 & Haur & Hrun & _) | (h & _ & Hh)];
    [| discriminate].
  apply is_aur_package_same_state in Haur; [| exact Hpure]. subst st1.
  destruct (in_aur && negb (force (params module)));
    [now injection Hrun |].
  apply bind_inv in Hrun
    as [(official & st2 & e3 & e4 & Hoff & Hrun & _) | (h & _ & Hh)];
    [| discriminate].
  unfold is_official_package in Hoff.
  apply bind_inv in Hoff
    as [(r & st3 & e5 & e6 & Hcmd & Hoff & _) | (h & _ & Hh)];
    [| discriminate].
  apply run_command_same_state in Hcmd; [| exact Hpure | reflexivity].
  subst st3. destruct r as [[rc out] err]. injection Hoff as _ <- _.
  destruct official.
  - apply bind_inv in Hrun
      as [(extracted & st4 & e7 & e8 & Hext & Hrun & _) | (h & _ & Hh)];
      [| discriminate].
    unfold extract_packages in Hext.
    apply bind_inv in Hext
      as [(r & st5 & e9 & e10 & Hcmd & Hext & _) | (h & _ & Hh)];
      [| discriminate].
    apply run_command_same_state in Hcmd; [| exact Hpure | reflexivity].
    subst st5. destruct r as [[rc' out'] err']. injection Hext as _ <- _.
    now injection Hrun.
  - apply bind_inv in Hrun
      as [(u & st4 & e7 & e8 & _ & Hfail & _) | (h & _ & Hh)];
      discriminate.
Qed.

Lemma loop_returns_same_state module pacman names acc (st st' : St) b ev :
  read_only_queries ->
  loop_group_packages module pacman names acc st = (Ret b, st', ev) -> st' = st.
Proof.
  intros Hpure. unfold loop_group_packages.
  revert acc st ev. induction names as [| nm names IH]; intros acc st ev.
  - simpl. unfold ret. intros Heq. now injection Heq.
  - rewrite foldM_cons. intros Hrun.
    apply bind_inv in Hrun as [(a & st1 & e1 & e2 & Hstep & Hrest & _) | (h & _ & Hh)];
      [| discriminate].
    apply step_returns_same_state in Hstep; [| exact Hpure]. subst st1.
    eapply IH; eassumption.
Qed.

Lemma member_lines_nonempty out m : In m (member_lines out) -> is_empty m = false.
Proof.
  unfold member_lines. intros Hin. apply filter_In in Hin as [_ Hm].
  now apply negb_true_iff in Hm.
Qed.

(** The members of a group, asked for one by one, when each is an identifier of
    the official repositories and not itself a group. *)
Lemma loop_plain_members module pacman members packages aur_packages
    local_packages (st : St) :
  read_only_queries ->
  (forall m, In m members ->
     official_identifier module pacman st m /\ group_members pacman st m = []) ->
  exists ev,
    loop_group_packages module pacman members
      (packages, aur_packages, local_packages) st
    = (Ret (packages ++ members, aur_packages, local_packages), st, ev).
Proof.
  intros Hpure. unfold loop_group_packages. revert packages.
  induction members as [| m members IH]; intros packages Hplain.
  - exists []. simpl. now rewrite app_nil_r.
  - destruct (Hplain m (or_introl eq_refl)) as [Hoff Hnone].
    destruct (IH (packages ++ [m])) as [ev Hev].
    { intros m' Hin. apply Hplain. now right. }
    eexists. rewrite foldM_cons.
    erewrite bind_ret by (apply official_step; eassumption).
    rewrite Hnone. cbn [nonempty]. rewrite Hev.
    rewrite <- app_assoc. reflexivity.
Qed.

(** C9, as the module has it. In a request that is not a removal, an
    identifier of the official repositories whose group query lists members is
    replaced by these members in the list of official packages, without a look
    at what the members are; and when each member, asked for by itself, is an
    identifier of the official repositories and no group, asking for the group
    gives the same classification as asking for its members. *)
Theorem group_expansion (module : AnsibleModule) (pacman g : string)
    (members : list string) (st : St) :
  read_only_queries ->
  state (params module) <> Absent ->
  official_identifier module pacman st g ->
  group_members pacman st g = members ->
  members <> [] ->
  (forall before packages aur_packages local_packages st1 e1,
     group_packages module before pacman st
     = (Ret (packages, aur_packages, local_packages), st1, e1) ->
     group_packages module (before ++ [g]) pacman st
     = (Ret (packages ++ members, aur_packages, local_packages), st,
        e1 ++ [AurRpc g; Cmd (Some pacman) ["-S"; "-s"; "^" +++ g +++ "$"];
               Cmd (Some pacman) ["-S"; "-g"; "-q"; g]]))
  /\
  ((forall m, In m members ->
      official_identifier module pacman st m /\ group_members pacman st m = []) ->
   forall before rest,
     let asked_group := group_packages module (before ++ g :: rest) pacman st in
     let asked_members :=
       group_packages module (before ++ members ++ rest) pacman st in
     outcome asked_group = outcome asked_members
     /\ final asked_group = final asked_members).
Proof.
  intros Hpure Hstate Hoff Hmem Hne.
  assert (Hstep : forall rest packages aur_packages local_packages,
    loop_group_packages module pacman (g :: rest)
      (packages, aur_packages, local_packages) st
    = after [AurRpc g; Cmd (Some pacman) ["-S"; "-s"; "^" +++ g +++ "$"];
             Cmd (Some pacman) ["-S"; "-g"; "-q"; g]]
        (loop_group_packages module pacman rest
           (packages ++ members, aur_packages, local_packages) st)).
  { intros rest packages aur_packages local_packages.
    unfold loop_group_packages. rewrite foldM_cons.
    erewrite bind_ret by (apply official_step; eassumption).
    rewrite Hmem. destruct members; [contradiction | reflexivity]. }
  split.
  - intros before packages aur_packages local_packages st1 e1 Hbefore.
    rewrite group_packages_loop in Hbefore |- * by assumption.
    unfold loop_group_packages in Hbefore |- *. rewrite foldM_app.
    rewrite (bind_ret _ _ _ _ _ _ Hbefore).
    apply (loop_returns_same_state module pacman) in Hbefore; [| exact Hpure].
    subst st1. fold (loop_group_packages module pacman). rewrite Hstep.
    reflexivity.
  - intros Hplain before rest asked_group asked_members.
    subst asked_group asked_members.
    rewrite !group_packages_loop by assumption.
    unfold loop_group_packages. rewrite !foldM_app.
    destruct (foldM (group_packages_step module pacman) before ([], [], []) st)
      as [[[acc | h] st1] e1] eqn:Hbefore.
    2: { rewrite !(bind_stop _ _ _ _ _ _ Hbefore). split; reflexivity. }
    rewrite !(bind_ret _ _ _ _ _ _ Hbefore).
    apply (loop_returns_same_state module pacman) in Hbefore; [| exact Hpure].
    subst st1. destruct acc as [[packages aur_packages] local_packages].
    fold (loop_group_packages module pacman).
    rewrite Hstep.
    destruct (loop_plain_members module pacman members packages aur_packages
                local_packages st Hpure Hplain) as [ev Hev].
    unfold loop_group_packages in *. rewrite foldM_app.
    rewrite (bind_ret _ _ _ _ _ _ Hev).
    unfold after, outcome, final. simpl. split; reflexivity.
Qed.

(** *** The run as a whole *)

Lemma run_module_fresh module (st : St) :
  run_module module st
  = (pacman <- require_bin_path "pacman" ;;
     run_module_update_cache module pacman ;;
     run_module_upgrade module pacman ;;
     run_module_name module pacman) (fresh st).
Proof.
  unfold run_module.
  rewrite (bind_ret _ _ st tt (fresh st) []) by reflexivity.
  apply after_nil.
Qed.

Lemma probing_not_mutating e : probing e = true -> mutating e = false.
Proof. unfold mutating. now intros ->. Qed.

(** C7. A dry run issues no mutating command: every event of the run is a
    read-only query. *)
Theorem dry_run_issues_no_mutating_command (module : AnsibleModule) (st : St) :
  check_mode module = true ->
  Forall (fun e => mutating e = false) (events (run_module module st)).
Proof.
  intros Hcheck. rewrite run_module_fresh.
  apply (sound_run_module_stages (fun _ _ _ => True)
           (fun e => mutating e = false)); auto using probing_not_mutating.
  intros Hreal. congruence.
Qed.

(** *** The handler that is reported *)



(** *** The stages before the installation *)

Ltac decide_prefixes :=
  cbn [probing install_command refresh_command removal_command list_prefix];
  repeat match goal with
         | |- context [String.eqb ?x ?y] => destruct (String.eqb_spec x y)
         end;
  cbn [andb orb]; intros; subst;
  solve [discriminate | reflexivity | congruence].

Lemma probing_not_install e : probing e = true -> install_command e = false.
Proof.
  destruct e as [prog args | | | | | |]; try reflexivity.
  destruct args as [| a [| b rest]]; [reflexivity | |];
    destruct prog; decide_prefixes.
Qed.

Lemma refresh_not_install e : refresh_command e = true -> install_command e = false.
Proof.
  destruct e as [prog args | | | | | |]; try reflexivity.
  destruct args as [| a [| b rest]]; [reflexivity | |]; decide_prefixes.
Qed.

Lemma quiet_return_ret s s' : result s' = result s -> quiet_return s None s'.
Proof. intros Hr _. exact Hr. Qed.

Lemma quiet_return_stop s s' h : quiet_return s (Some h) s'.
Proof. intros Hk. discriminate. Qed.

Lemma quiet_return_trans s s1 k s2 :
  quiet_return s None s1 -> quiet_return s1 k s2 -> quiet_return s k s2.
Proof. intros H1 H2 Hk. rewrite (H2 Hk). now apply H1. Qed.

Lemma update_cache_stage_facts module pacman (st st1 : St) o e1 :
  run_module_update_cache module pacman st = (o, st1, e1) ->
  (kind o = None -> result st1 = result st)
  /\ Forall (fun e => probing e = true \/ refresh_command e = true) e1.
Proof.
  intros Hrun.
  assert (Hs : sound quiet_return
                 (fun e => probing e = true \/ refresh_command e = true)
                 (run_module_update_cache module pacman)).
  { apply sound_run_module_update_cache;
      first [ exact quiet_return_ret | exact quiet_return_trans
            | intros; apply quiet_return_stop | intros; now auto ]. }
  specialize (Hs st). rewrite Hrun in Hs. exact Hs.
Qed.

Lemma group_packages_facts module names pacman (st st2 : St) o e2 :
  group_packages module names pacman st = (o, st2, e2) ->
  (kind o = None -> result st2 = result st)
  /\ Forall (fun e => probing e = true) e2.
Proof.
  intros Hrun.
  assert (Hs : sound quiet_return (fun e => probing e = true)
                 (group_packages module names pacman)).
  { apply sound_group_packages;
      first [ exact quiet_return_ret | exact quiet_return_trans
            | intros; apply quiet_return_stop | intros; now auto ]. }
  specialize (Hs st). rewrite Hrun in Hs. exact Hs.
Qed.

Lemma removal_has_one_bucket module names pacman (st st2 : St)
    packages aur_packages local_packages e2 :
  group_packages module names pacman st
  = (Ret (packages, aur_packages, local_packages), st2, e2) ->
  state (params module) = Absent -> aur_packages = [] /\ local_packages = [].
Proof.
  unfold group_packages. intros Hrun Hs. rewrite Hs in Hrun.
  unfold ret in Hrun. cbn in Hrun. injection Hrun as _ <- <- _ _. auto.
Qed.

Lemma run_module_to_names module pacman (st st1 : St) e1 :
  which "pacman" (host st) = Some pacman ->
  upgrade_flag (params module) = false ->
  run_module_update_cache module pacman (fresh st) = (Ret tt, st1, e1) ->
  run_module module st = after e1 (run_module_name module pacman st1).
Proof.
  intros Hwhich Hup Hcache. rewrite run_module_fresh.
  rewrite (bind_ret _ _ (fresh st) pacman (fresh st) []).
  2: { unfold require_bin_path, get_bin_path, bind, ret.
       cbn [host fresh]. rewrite Hwhich. reflexivity. }
  rewrite after_nil, (bind_ret _ _ _ _ _ _ Hcache). f_equal.
  unfold run_module_upgrade. rewrite Hup.
  rewrite (bind_ret _ _ st1 tt st1 []) by reflexivity. apply after_nil.
Qed.

Lemma run_module_classified module pacman names (st st1 st2 : St) e1 e2
    packages aur_packages local_packages :
  which "pacman" (host st) = Some pacman ->
  upgrade_flag (params module) = false ->
  name (params module) = Some names -> names <> [] ->
  run_module_update_cache module pacman (fresh st) = (Ret tt, st1, e1) ->
  group_packages module names pacman st1
  = (Ret (packages, aur_packages, local_packages), st2, e2) ->
  run_module module st
  = after (e1 ++ e2)
      ((when (nonempty aur_packages && nonempty local_packages)
          (set_msg "could not install aur packages mixed with local packages" ;;
           fail_json) ;;
        when (check_mode module)
          (run_name_check_mode module packages aur_packages local_packages
                               pacman) ;;
        if State_eqb (state (params module)) Absent
        then remove_packages module packages pacman
        else install_packages module packages aur_packages local_packages pacman)
         st2)
    /\ result st2 = initial_result
    /\ Forall (fun e => probing e = true \/ refresh_command e = true) (e1 ++ e2).
Proof.
  intros Hwhich Hup Hname Hnames Hcache Hgroup.
  destruct (update_cache_stage_facts _ _ _ _ _ _ Hcache) as [Hr1 He1].
  destruct (group_packages_facts _ _ _ _ _ _ _ Hgroup) as [Hr2 He2].
  split; [| split].
  - rewrite (run_module_to_names module pacman st st1 e1) by assumption.
    unfold run_module_name, name_given. rewrite Hname.
    destruct names as [| n names]; [contradiction |].
    rewrite (bind_ret _ _ _ _ _ _ Hgroup), after_after. reflexivity.
  - rewrite Hr2, Hr1; reflexivity.
  - apply Forall_app. split; [exact He1 |].
    eapply Forall_impl; [| exact He2]. auto.
Qed.

Lemma no_install_among_queries evs :
  Forall (fun e => probing e = true \/ refresh_command e = true) evs ->
  Forall (fun e => install_command e = false) evs.
Proof.
  apply Forall_impl. intros e [Hp | Hr];
    [now apply probing_not_install | now apply refresh_not_install].
Qed.

(** C4. In a request that is not a removal, [group_packages] classifies one
    identifier after the other, an identifier [nm] that comes after the
    identifiers [before] in this order: an archive file name is a local
    package; otherwise an identifier the AUR knows is an AUR package unless
    [force] is set; otherwise an identifier found in the official repositories
    is official (a group gives its members); otherwise the classification
    fails at once with "unavailable package has been detected", whatever
    follows [nm] in the list, it gives no lists, and the run ends there. *)
Theorem group_packages_precedence (module : AnsibleModule) (pacman nm : string)
    (before packages aur_packages local_packages : list string)
    (st st1 : St) (e1 : list Event) :
  state (params module) <> Absent ->
  is_empty nm = false ->
  group_packages module before pacman st
  = (Ret (packages, aur_packages, local_packages), st1, e1) ->
  (is_local_package nm = true ->
   group_packages module (before ++ [nm]) pacman st
   = (Ret (packages, aur_packages, local_packages ++ [nm]), st1, e1))
  /\
  (is_local_package nm = false ->
   forall info h1, aur_rpc nm (host st1) = (Some info, h1) ->
   ((resultcount info >? 0)%Z = true -> force (params module) = false ->
    group_packages module (before ++ [nm]) pacman st
    = (Ret (packages, aur_packages ++ [nm], local_packages), set_host h1 st1,
       e1 ++ [AurRpc nm]))
   /\
   ((resultcount info >? 0)%Z = false \/ force (params module) = true ->
    forall rc out err h2,
      exec (cwd st1) (Some pacman) ["-S"; "-s"; "^" +++ nm +++ "$"] h1
      = ((rc, out, err), h2) ->
      (rc = 0%Z ->
       forall rc' out' err' h3,
         exec (cwd st1) (Some pacman) ["-S"; "-g"; "-q"; nm] h2
         = ((rc', out', err'), h3) ->
         let extracted := if (rc' =? 0)%Z then member_lines out' else [] in
         group_packages module (before ++ [nm]) pacman st
         = (Ret (if nonempty extracted then packages ++ extracted
                 else packages ++ [nm], aur_packages, local_packages),
            set_host h3 st1,
            e1 ++ [AurRpc nm;
                   Cmd (Some pacman) ["-S"; "-s"; "^" +++ nm +++ "$"];
                   Cmd (Some pacman) ["-S"; "-g"; "-q"; nm]]))
      /\
      (rc <> 0%Z ->
       forall rest,
         let unavailable : St :=
           {| host := h2; cwd := cwd st1;
              result := {| changed := changed (result st1);
                           msg := "unavailable package has been detected";
                           handler := handler (result st1) |} |} in
         let asked :=
           e1 ++ [AurRpc nm; Cmd (Some pacman) ["-S"; "-s"; "^" +++ nm +++ "$"]] in
         group_packages module (before ++ nm :: rest) pacman st
         = (Stop FailJson, unavailable, asked)
         /\ forall st0 e0,
              which "pacman" (host st0) = Some pacman ->
              upgrade_flag (params module) = false ->
              name (params module) = Some (before ++ nm :: rest) ->
              run_module_update_cache module pacman (fresh st0)
              = (Ret tt, st, e0) ->
              run_module module st0 = (Stop FailJson, unavailable, e0 ++ asked)))).
Proof.
  intros Hstate Hne Hbefore.
  rewrite group_packages_loop in Hbefore by assumption.
  unfold loop_group_packages in Hbefore.
  assert (Hlast : forall o st2 ev,
    group_packages_step module pacman (packages, aur_packages, local_packages)
      nm st1 = (Ret o, st2, ev) ->
    group_packages module (before ++ [nm]) pacman st = (Ret o, st2, e1 ++ ev)).
  { intros o st2 ev Hstep. rewrite group_packages_loop by assumption.
    unfold loop_group_packages. rewrite foldM_app.
    rewrite (bind_ret _ _ _ _ _ _ Hbefore), foldM_cons.
    rewrite (bind_ret _ _ _ _ _ _ Hstep). cbn [foldM].
    unfold after, ret, outcome, final, events. cbn [fst snd].
    now rewrite app_nil_r. }
  split; [| intros Hnot info h1 Hquery; split].
  - intros Hlocal.
    pose proof (Hlast _ _ _ (step_local module pacman nm packages aur_packages
                               local_packages st1 Hne Hlocal)) as Hrun.
    now rewrite app_nil_r in Hrun.
  - intros Hmatch Hforce. apply Hlast. eapply step_aur; eauto.
  - intros Hno rc out err h2 Hsearch. split.
    + intros Hrc rc' out' err' h3 Hgroup extracted. subst rc extracted.
      apply Hlast. eapply step_official; eauto.
    + intros Hrc rest unavailable asked.
      assert (Hstop : group_packages module (before ++ nm :: rest) pacman st
                      = (Stop FailJson, unavailable, asked)).
      { rewrite group_packages_loop by assumption.
        unfold loop_group_packages. rewrite foldM_app.
        rewrite (bind_ret _ _ _ _ _ _ Hbefore), foldM_cons.
        erewrite bind_stop by (eapply step_unavailable; eauto).
        reflexivity. }
      split; [exact Hstop |].
      intros st0 e0 Hwhich Hup Hname Hcache.
      rewrite (run_module_to_names module pacman st0 st e0) by assumption.
      unfold run_module_name, name_given. rewrite Hname.
      destruct before; cbn [app];
        rewrite (bind_stop _ _ _ _ _ _ Hstop); reflexivity.
Qed.

(** C3, as the module has it. A request in which the classification finds both
    an AUR package and a local package file fails with "could not install aur
    packages mixed with local packages". Before that the names are classified,
    and a real run with [update_cache] has refreshed the databases; no other
    command is issued. *)
Theorem mixing_is_rejected (module : AnsibleModule) (pacman : string)
    (names packages aur_packages local_packages : list string)
    (st st1 st2 : St) (e1 e2 : list Event) :
  which "pacman" (host st) = Some pacman ->
  upgrade_flag (params module) = false ->
  name (params module) = Some names ->
  run_module_update_cache module pacman (fresh st) = (Ret tt, st1, e1) ->
  group_packages module names pacman st1
  = (Ret (packages, aur_packages, local_packages), st2, e2) ->
  aur_packages <> [] -> local_packages <> [] ->
  exists st3,
    run_module module st = (Stop FailJson, st3, e1 ++ e2)
    /\ result st3
       = {| changed := false;
            msg := "could not install aur packages mixed with local packages";
            handler := None |}
    /\ Forall (fun e => probing e = true \/ refresh_command e = true) (e1 ++ e2)
    /\ (update_cache (params module) = false \/ check_mode module = true ->
        Forall (fun e => mutating e = false) (e1 ++ e2)).
Proof.
  intros Hwhich Hup Hname Hcache Hgroup Haur Hloc.
  assert (Hnames : names <> []).
  { intros ->. unfold group_packages in Hgroup.
    destruct (negb (State_eqb (state (params module)) Absent));
      cbn in Hgroup; unfold ret in Hgroup; injection Hgroup as _ <- _ _ _;
      contradiction. }
  destruct (run_module_classified module pacman names st st1 st2 e1 e2 _ _ _
              Hwhich Hup Hname Hnames Hcache Hgroup) as (Hrun & Hres & Hev).
  destruct aur_packages as [| a aur]; [contradiction |].
  destruct local_packages as [| l loc]; [contradiction |].
  eexists. split; [| split; [| split]].
  - rewrite Hrun. cbn [nonempty andb when].
    unfold bind, set_msg, set_result, fail_json, halt, after, outcome, final,
      events. cbn. rewrite !app_nil_r. reflexivity.
  - cbn. rewrite Hres. reflexivity.
  - exact Hev.
  - intros Hquiet.
    destruct (group_packages_facts _ _ _ _ _ _ _ Hgroup) as [_ He2].
    apply Forall_app. split.
    + destruct Hquiet as [Hno | Hcheck].
      * unfold run_module_update_cache in Hcache. rewrite Hno in Hcache.
        unfold when, ret in Hcache. injection Hcache as _ <-. constructor.
      * assert (Hs : sound (fun (_ : St) _ (_ : St) => True)
                       (fun e => mutating e = false)
                       (run_module_update_cache module pacman)).
        { apply sound_run_module_update_cache;
            auto using probing_not_mutating. congruence. }
        specialize (Hs (fresh st)). rewrite Hcache in Hs. apply Hs.
    + eapply Forall_impl; [| exact He2]. apply probing_not_mutating.
Qed.

(** *** Who may install *)

Lemma get_current_user_name_eq (st : St) rc out err h :
  exec (cwd st) (Some "whoami") [] (host st) = ((rc, out, err), h) ->
  get_current_user_name st
  = (Ret (user_of rc out), set_host h st, [Cmd (Some "whoami") []]).
Proof.
  intros Hx. unfold get_current_user_name.
  erewrite bind_ret by (eapply run_command_eq; exact Hx). reflexivity.
Qed.

Lemma aur_support_as_root module packages aur_packages pacman (st : St)
    rc out err h :
  exec (cwd st) (Some "whoami") [] (host st) = ((rc, out, err), h) ->
  user_of rc out = "root" ->
  install_packages_with_aur_support module packages aur_packages pacman st
  = (Stop FailJson, said "could not install aur packages as a root" (set_host h st),
     [Cmd (Some "whoami") []]).
Proof.
  intros Hx Huser. unfold install_packages_with_aur_support.
  erewrite bind_ret by (eapply get_current_user_name_eq; exact Hx).
  rewrite Huser. reflexivity.
Qed.

Lemma install_as_other_user module packages local_packages pacman (st : St)
    rc out err h :
  exec (cwd st) (Some "whoami") [] (host st) = ((rc, out, err), h) ->
  user_of rc out <> "root" ->
  install_packages module packages [] local_packages pacman st
  = (Stop FailJson,
     said ("could not install neither packages from the official "
           +++ "repositories nor local packages as a non-root user")
          (set_host h st),
     [Cmd (Some "whoami") []]).
Proof.
  intros Hx Huser. unfold install_packages. cbn [nonempty].
  apply bind_stop.
  erewrite bind_ret by (eapply get_current_user_name_eq; exact Hx).
  apply String.eqb_neq in Huser. rewrite Huser. reflexivity.
Qed.

Lemma not_a_removal module names pacman (st st2 : St) packages a aur_packages
    local_packages e2 :
  group_packages module names pacman st
  = (Ret (packages, a :: aur_packages, local_packages), st2, e2) ->
  State_eqb (state (params module)) Absent = false.
Proof.
  intros Hgroup. destruct (state (params module)) eqn:Hs; try reflexivity.
  destruct (removal_has_one_bucket _ _ _ _ _ _ _ _ _ Hgroup Hs). discriminate.
Qed.

(** C8, as the module has it. A real run that finds an AUR package and no
    local package file among the names, and is made by root, fails with "could
    not install aur packages as a root"; up to there it has only classified
    the names, refreshed the databases if asked to, and asked who the user
    is. A dry run looks at no user, and with a local package file the request
    is refused for the mixture. *)
Theorem aur_install_refused_for_root (module : AnsibleModule) (pacman : string)
    (names packages aur_packages : list string) (st st1 st2 : St)
    (e1 e2 : list Event) (rc : Z) (out err : string) (h3 : Host) :
  check_mode module = false ->
  which "pacman" (host st) = Some pacman ->
  upgrade_flag (params module) = false ->
  name (params module) = Some names ->
  run_module_update_cache module pacman (fresh st) = (Ret tt, st1, e1) ->
  group_packages module names pacman st1
  = (Ret (packages, aur_packages, []), st2, e2) ->
  aur_packages <> [] ->
  exec (cwd st2) (Some "whoami") [] (host st2) = ((rc, out, err), h3) ->
  user_of rc out = "root" ->
  exists st3,
    run_module module st
    = (Stop FailJson, st3, (e1 ++ e2) ++ [Cmd (Some "whoami") []])
    /\ result st3
       = {| changed := false; msg := "could not install aur packages as a root";
            handler := None |}
    /\ Forall (fun e => install_command e = false)
              ((e1 ++ e2) ++ [Cmd (Some "whoami") []]).
Proof.
  intros Hreal Hwhich Hup Hname Hcache Hgroup Haur Hwho Hroot.
  assert (Hnames : names <> []).
  { intros ->. unfold group_packages in Hgroup.
    destruct (negb (State_eqb (state (params module)) Absent));
      cbn in Hgroup; unfold ret in Hgroup; injection Hgroup as _ <- _ _ ;
      contradiction. }
  destruct (run_module_classified module pacman names st st1 st2 e1 e2 _ _ _
              Hwhich Hup Hname Hnames Hcache Hgroup) as (Hrun & Hres & Hev).
  destruct aur_packages as [| a aur]; [contradiction |].
  eexists. split; [| split].
  - rewrite Hrun, Hreal, (not_a_removal _ _ _ _ _ _ _ _ _ _ Hgroup).
    cbn [nonempty andb when].
    rewrite (bind_ret _ _ st2 tt st2 []) by reflexivity.
    rewrite (bind_ret _ _ st2 tt st2 []) by reflexivity.
    rewrite !after_nil. unfold install_packages. cbn [nonempty].
    erewrite bind_stop by (eapply aur_support_as_root; eassumption).
    reflexivity.
  - cbn. rewrite Hres. reflexivity.
  - apply Forall_app. split; [now apply no_install_among_queries |].
    repeat constructor.
Qed.

(** C10. A real run for names that are all official packages or local package
    files, made by a user other than root, fails with "could not install
    neither packages from the official repositories nor local packages as a
    non-root user" and has issued no install command; whether a wrapper is
    installed plays no part. *)
Theorem official_install_refused_for_other_users (module : AnsibleModule)
    (pacman : string) (names packages local_packages : list string)
    (st st1 st2 : St) (e1 e2 : list Event) (rc : Z) (out err : string)
    (h3 : Host) :
  check_mode module = false ->
  state (params module) <> Absent ->
  which "pacman" (host st) = Some pacman ->
  upgrade_flag (params module) = false ->
  name (params module) = Some names -> names <> [] ->
  run_module_update_cache module pacman (fresh st) = (Ret tt, st1, e1) ->
  group_packages module names pacman st1
  = (Ret (packages, [], local_packages), st2, e2) ->
  exec (cwd st2) (Some "whoami") [] (host st2) = ((rc, out, err), h3) ->
  user_of rc out <> "root" ->
  exists st3,
    run_module module st
    = (Stop FailJson, st3, (e1 ++ e2) ++ [Cmd (Some "whoami") []])
    /\ result st3
       = {| changed := false;
            msg := "could not install neither packages from the official "
                   +++ "repositories nor local packages as a non-root user";
            handler := None |}
    /\ Forall (fun e => install_command e = false)
              ((e1 ++ e2) ++ [Cmd (Some "whoami") []]).
Proof.
  intros Hreal Hstate Hwhich Hup Hname Hnames Hcache Hgroup Hwho Huser.
  destruct (run_module_classified module pacman names st st1 st2 e1 e2 _ _ _
              Hwhich Hup Hname Hnames Hcache Hgroup) as (Hrun & Hres & Hev).
  eexists. split; [| split].
  - rewrite Hrun, Hreal.
    replace (State_eqb (state (params module)) Absent) with false
      by (destruct (state (params module)) eqn:Hs; cbn; congruence).
    cbn [nonempty andb when].
    rewrite (bind_ret _ _ st2 tt st2 []) by reflexivity.
    rewrite (bind_ret _ _ st2 tt st2 []) by reflexivity.
    rewrite !after_nil.
    erewrite install_as_other_user by eassumption. reflexivity.
  - cbn. rewrite Hres. reflexivity.
  - apply Forall_app. split; [now apply no_install_among_queries |].
    repeat constructor.
Qed.

(** *** The working directory *)

Lemma path_join_absolute base path :
  is_absolute path = true -> path_join base path = path.
Proof.
  unfold is_absolute, path_join. destruct path as [| c rest]; [discriminate |].
  destruct c as [[] [] [] [] [] [] [] []]; try discriminate. reflexivity.
Qed.

Lemma prepare_aur_package_install_command_eq module (st : St) :
  prepare_aur_package_install_command module st
  = (Ret (makepkg_command module st), st, []).
Proof.
  unfold prepare_aur_package_install_command, makepkg_command, get_bin_path,
    bind, ret.
  destruct (which "makepkg" (host st)); reflexivity.
Qed.

Lemma install_aur_packages_with_makepkg_eq module packages pacman (st : St) :
  install_aur_packages_with_makepkg module packages pacman st
  = (number_of_changes <-
       foldM (install_aur_package_step module (makepkg_command module st) pacman)
             packages 0 ;;
     os_chdir (cwd st) ;;
     ret number_of_changes) st.
Proof.
  unfold install_aur_packages_with_makepkg.
  rewrite (bind_ret _ _ _ _ _ _ (prepare_aur_package_install_command_eq module st)).
  rewrite after_nil.
  rewrite (bind_ret _ _ st (cwd st) st []) by reflexivity.
  apply after_nil.
Qed.

(** X21. When [install_aur_packages_with_makepkg] returns to its caller, the
    working directory is the one it started in ([os.getcwd] gives an absolute
    path, to which the last [os.chdir] goes back). *)
Theorem working_directory_after_makepkg (module : AnsibleModule)
    (packages : list string) (pacman : string) (st st' : St) (n : nat)
    (ev : list Event) :
  is_absolute (cwd st) = true ->
  install_aur_packages_with_makepkg module packages pacman st
  = (Ret n, st', ev) ->
  cwd st' = cwd st.
Proof.
  intros Habs. rewrite install_aur_packages_with_makepkg_eq.
  intros Hrun.
  apply bind_inv in Hrun as [(n' & st1 & e1 & e2 & _ & Hrun & _)
                            | (h & _ & Hh)]; [| discriminate].
  apply bind_inv in Hrun as [(u & st2 & e3 & e4 & Hcd & Hret & _)
                            | (h & _ & Hh)]; [| discriminate].
  unfold ret in Hret. inversion Hret; subst.
  unfold os_chdir in Hcd.
  destruct (enter (cwd st1) (cwd st) (host st1)); [| discriminate].
  inversion Hcd; subst. cbn. now apply path_join_absolute.
Qed.

End Properties.

(** ** The properties on the concrete host *)

Lemma machine_read_only : @read_only_queries Machine machine_host.
Proof. split; intros; reflexivity. Qed.

Lemma get_package_details_latest_witness :
  let module := real_run (request ["old"] Latest) in
  let st := start machine_orphan in
  is_package_installed "old" pacman_path st
  = (Ret true, st, [Cmd (Some pacman_path) ["-Q"; "old"]])
  /\ get_package_version "old" pacman_path true st
     = (Ret None, st, [Cmd (Some pacman_path) ["-S"; "-i"; "old"]])
  /\ get_package_details module "old" pacman_path false st
     = (Ret {| package := "old"; installed := true; latest := true |}, st,
        [Cmd (Some pacman_path) ["-Q"; "old"]]
        ++ [Cmd (Some pacman_path) ["-Q"; "-i"; "old"]]
        ++ [Cmd (Some pacman_path) ["-S"; "-i"; "old"]]).
Proof.
  intros module st. split; [reflexivity | split; [reflexivity |]].
  exact (proj1 (proj2 (proj2 (get_package_details_latest module "old" pacman_path
                                false st st true _ eq_refl))
                      eq_refl eq_refl (Some "0.9-1") st _ None st _
                      eq_refl eq_refl)).
Defined.

Lemma group_packages_precedence_witness :
  let module := real_run (request ["nosuch"; "bar"] Present) in
  let st := start machine_root in
  group_packages module [local_file] pacman_path st
  = (Ret ([], [], [local_file]), st, [])
  /\ outcome (group_packages module ["aurfoo"] pacman_path st)
     = Ret ([], ["aurfoo"], [])
  /\ outcome (group_packages module ["grp"] pacman_path st)
     = Ret (["ga"; "gb"], [], [])
  /\ outcome (group_packages module ["bar"] pacman_path st)
     = Ret (["bar"], [], [])
  /\ outcome (group_packages module ["nosuch"; "bar"] pacman_path st)
     = Stop FailJson
  /\ outcome (run_module module st) = Stop FailJson
  /\ events (run_module module st)
     = [AurRpc "nosuch"; Cmd (Some pacman_path) ["-S"; "-s"; "^nosuch$"]]
  /\ msg (result (final (run_module module st)))
     = "unavailable package has been detected".
Proof.
  intros module st.
  assert (Hstate : state (params module) <> Absent) by discriminate.
  pose proof (fun nm ne =>
                group_packages_precedence module pacman_path nm [] [] [] [] st st
                  [] Hstate ne eq_refl) as Hstep.
  split; [| split; [| split; [| split]]].
  - exact (proj1 (Hstep local_file eq_refl) eq_refl).
  - pose proof (proj1 (proj2 (Hstep "aurfoo" eq_refl) eq_refl _ _ eq_refl)
                      eq_refl eq_refl) as Haur.
    cbn [app] in Haur. rewrite Haur. reflexivity.
  - pose proof (proj1 (proj2 (proj2 (Hstep "grp" eq_refl) eq_refl _ _ eq_refl)
                             (or_introl eq_refl) _ _ _ _ eq_refl)
                      eq_refl _ _ _ _ eq_refl) as Hgroup.
    cbn [app] in Hgroup. rewrite Hgroup. reflexivity.
  - pose proof (proj1 (proj2 (proj2 (Hstep "bar" eq_refl) eq_refl _ _ eq_refl)
                             (or_introl eq_refl) _ _ _ _ eq_refl)
                      eq_refl _ _ _ _ eq_refl) as Hofficial.
    cbn [app] in Hofficial. rewrite Hofficial. reflexivity.
  - pose proof (proj2 (proj2 (proj2 (Hstep "nosuch" eq_refl) eq_refl _ _ eq_refl)
                             (or_introl eq_refl) 1%Z "" "error" machine_root
                             eq_refl)) as Hnone.
    destruct (Hnone ltac:(discriminate) ["bar"]) as [Hstop Hrun].
    cbn [app] in Hstop. rewrite Hstop.
    rewrite (Hrun st [] eq_refl eq_refl eq_refl eq_refl).
    repeat split.
Defined.

Lemma group_expansion_witness :
  let module := real_run (request ["bar"; "grp"; "foo"] Present) in
  let st := start machine_root in
  group_members pacman_path st "grp" = ["ga"; "gb"]
  /\ outcome (group_packages module ["bar"; "grp"; "foo"] pacman_path st)
     = outcome (group_packages module ["bar"; "ga"; "gb"; "foo"] pacman_path st)
  /\ outcome (group_packages module ["bar"; "grp"; "foo"] pacman_path st)
     = Ret (["bar"; "ga"; "gb"; "foo"], [], []).
Proof.
  intros module st. split; [reflexivity | split; [| reflexivity]].
  assert (Hgrp : official_identifier module pacman_path st "grp").
  { repeat split; try reflexivity. left. reflexivity. }
  assert (Hne : ["ga"; "gb"] <> []) by discriminate.
  assert (Hplain : forall m, In m ["ga"; "gb"] ->
            official_identifier module pacman_path st m
            /\ group_members pacman_path st m = []).
  { intros m [<- | [<- | []]]; (split; [| reflexivity]);
      (repeat split; try reflexivity); left; reflexivity. }
  exact (proj1 (proj2 (group_expansion module pacman_path "grp" ["ga"; "gb"] st
                         machine_read_only ltac:(discriminate) Hgrp eq_refl Hne)
                      Hplain ["bar"] ["foo"])).
Defined.

(** The member [ga] of [grp] is also known to the AUR. Asked for through the
    group it is an official package, and root installs the two members; asked
    for by itself it is an AUR package, and the same request for the members
    is refused. *)
Lemma group_is_not_its_members :
  let st := start machine_member_in_aur in
  let for_group := real_run (request ["grp"] Present) in
  let for_members := real_run (request ["ga"; "gb"] Present) in
  group_members pacman_path st "grp" = ["ga"; "gb"]
  /\ outcome (group_packages for_group ["grp"] pacman_path st)
     = Ret (["ga"; "gb"], [], [])
  /\ outcome (group_packages for_members ["ga"; "gb"] pacman_path st)
     = Ret (["gb"], ["ga"], [])
  /\ outcome (group_packages for_group ["grp"] pacman_path st)
     <> outcome (group_packages for_members ["ga"; "gb"] pacman_path st)
  /\ outcome (run_module for_group st) = Stop ExitJson
  /\ result (final (run_module for_group st))
     = {| changed := true; msg := "2 packages have been installed";
          handler := Some pacman_path |}
  /\ outcome (run_module for_members st) = Stop FailJson
  /\ result (final (run_module for_members st))
     = {| changed := false; msg := "could not install aur packages as a root";
          handler := None |}.
Proof. repeat split. discriminate. Qed.

Lemma dry_run_issues_no_mutating_command_witness :
  let module := dry_run (with_update_cache (request ["foo"; "aurfoo"] Latest)) in
  check_mode module = true
  /\ Forall (fun e => mutating e = false)
            (events (run_module module (start machine_root))).
Proof.
  intros module. split; [reflexivity |].
  exact (dry_run_issues_no_mutating_command module (start machine_root) eq_refl).
Defined.


(** With [update_cache] the databases are refreshed before the names are
    looked at; and in any case the AUR is asked about [aurfoo] before the
    request is refused. *)
Lemma commands_before_mixing_is_rejected :
  let run :=
    run_module (real_run (with_update_cache (request ["aurfoo"; local_file] Present)))
               (start machine_root) in
  outcome run = Stop FailJson
  /\ msg (result (final run))
     = "could not install aur packages mixed with local packages"
  /\ events run
     = [Cmd (Some "whoami") []; Cmd (Some "whoami") [];
        Cmd (Some pacman_path) ["-S"; "-y"]; AurRpc "aurfoo"]
  /\ existsb mutating (events run) = true.
Proof. repeat split. Qed.

Lemma mixing_is_rejected_witness :
  let module :=
    real_run (with_update_cache (request ["aurfoo"; local_file] Present)) in
  let refresh := [Cmd (Some "whoami") []; Cmd (Some "whoami") [];
                  Cmd (Some pacman_path) ["-S"; "-y"]] in
  exists st3,
    run_module module (start machine_root)
    = (Stop FailJson, st3, refresh ++ [AurRpc "aurfoo"])
    /\ result st3
       = {| changed := false;
            msg := "could not install aur packages mixed with local packages";
            handler := None |}
    /\ Forall (fun e => probing e = true \/ refresh_command e = true)
              (refresh ++ [AurRpc "aurfoo"])
    /\ (update_cache (params module) = false \/ check_mode module = true ->
        Forall (fun e => mutating e = false) (refresh ++ [AurRpc "aurfoo"])).
Proof.
  intros module refresh.
  apply (mixing_is_rejected module pacman_path ["aurfoo"; local_file]
           [] ["aurfoo"] [local_file]
           (start machine_root) (start machine_root) (start machine_root)
           refresh [AurRpc "aurfoo"]);
    first [reflexivity | discriminate].
Defined.

(** Root asks for an AUR package: a dry run reports what would be installed
    and fails with nothing; together with a local package file the request is
    refused for the mixture, not for the user. *)
Lemma root_is_not_always_refused :
  let dry :=
    run_module (dry_run (request ["aurfoo"] Present)) (start machine_root) in
  let mixed :=
    run_module (real_run (request ["aurfoo"; local_file] Present))
               (start machine_root) in
  (outcome dry = Stop ExitJson
   /\ result (final dry)
      = {| changed := true; msg := "package would be installed"; handler := None |})
  /\
  (outcome mixed = Stop FailJson
   /\ msg (result (final mixed))
      = "could not install aur packages mixed with local packages").
Proof. repeat split. Qed.

Lemma aur_install_refused_for_root_witness :
  let module := real_run (request ["bar"; "aurfoo"] Present) in
  let queries :=
    [AurRpc "bar"; Cmd (Some pacman_path) ["-S"; "-s"; "^bar$"];
     Cmd (Some pacman_path) ["-S"; "-g"; "-q"; "bar"]; AurRpc "aurfoo"] in
  exists st3,
    run_module module (start machine_root)
    = (Stop FailJson, st3, ([] ++ queries) ++ [Cmd (Some "whoami") []])
    /\ result st3
       = {| changed := false; msg := "could not install aur packages as a root";
            handler := None |}
    /\ Forall (fun e => install_command e = false)
              (([] ++ queries) ++ [Cmd (Some "whoami") []]).
Proof.
  intros module queries.
  apply (aur_install_refused_for_root module pacman_path ["bar"; "aurfoo"]
           ["bar"] ["aurfoo"]
           (start machine_root) (start machine_root) (start machine_root)
           [] queries 0%Z ("root" +++ String nl EmptyString) "" machine_root);
    first [reflexivity | discriminate].
Defined.

Lemma official_install_refused_for_other_users_witness :
  let module := real_run (request ["bar"; local_file] Present) in
  let queries :=
    [AurRpc "bar"; Cmd (Some pacman_path) ["-S"; "-s"; "^bar$"];
     Cmd (Some pacman_path) ["-S"; "-g"; "-q"; "bar"]] in
  which "yay" machine_alice_yay = Some "/usr/bin/yay"
  /\ exists st3,
    run_module module (start machine_alice_yay)
    = (Stop FailJson, st3, ([] ++ queries) ++ [Cmd (Some "whoami") []])
    /\ result st3
       = {| changed := false;
            msg := "could not install neither packages from the official "
                   +++ "repositories nor local packages as a non-root user";
            handler := None |}
    /\ Forall (fun e => install_command e = false)
              (([] ++ queries) ++ [Cmd (Some "whoami") []]).
Proof.
  intros module queries. split; [reflexivity |].
  apply (official_install_refused_for_other_users module pacman_path
           ["bar"; local_file] ["bar"] [local_file]
           (start machine_alice_yay) (start machine_alice_yay)
           (start machine_alice_yay)
           [] queries 0%Z ("alice" +++ String nl EmptyString) "" machine_alice_yay);
    first [reflexivity | discriminate].
Defined.

(** C1, at a failing build. User [alice], without wrapper, asks for the AUR
    package [aurfoo] from [/home/user], and [makepkg] exits with an error: the
    run stops with the failure of the library, the scratch directory has been
    removed by then, and the working directory is still the package directory
    inside it, not the one the run started in. *)
Lemma working_directory_left_after_failure :
  let st := start machine_alice_broken in
  let run := run_module (real_run (request ["aurfoo"] Present)) st in
  cwd st = "/home/user"
  /\ outcome run = Stop (LibFail "error")
  /\ existsb install_command (events run) = true
  /\ last (events run) (Chdir "") = RmTemp "/tmp/tmpq1w2e3"
  /\ cwd (final run) = "/tmp/tmpq1w2e3/aurfoo"
  /\ cwd (final run) <> cwd st.
Proof. repeat split. discriminate. Qed.

Lemma working_directory_after_makepkg_witness :
  let module := real_run (request ["aurfoo"] Present) in
  let st := start (as_user "alice" machine_root) in
  let build := install_aur_packages_with_makepkg module ["aurfoo"] pacman_path st in
  outcome build = Ret 1
  /\ In (Chdir "aurfoo") (events build)
  /\ cwd (final build) = cwd st.
Proof.
  intros module st build. split; [reflexivity | split].
  - cbn. tauto.
  - exact (working_directory_after_makepkg module ["aurfoo"] pacman_path
             st (final build) 1 (events build) eq_refl eq_refl).
Defined.

(** ** Further properties of the module *)

Section Further.

Context {Host : Type} `{Collaborators Host}.

Local Abbreviation M := (@M Host).
Local Abbreviation St := (@St Host).
Local Abbreviation never_returns := (@never_returns Host).

(** *** The handler *)

Lemma get_bin_path_optional item (st : St) :
  get_bin_path item false st = (Ret (which item (host st)), st, []).
Proof. unfold get_bin_path. destruct (which item (host st)); reflexivity. Qed.

Lemma get_pacman_wrapper_eq (st : St) :
  get_pacman_wrapper st = (Ret (wrapper_on (host st)), st, []).
Proof.
  unfold get_pacman_wrapper, wrapper_on. cbn [map fst pacman_wrappers first_wrapper].
  rewrite (bind_ret _ _ _ _ _ _ (get_bin_path_optional "yay" st)), after_nil.
  destruct (which "yay" (host st)) as [[| c w] |]; try reflexivity;
    cbn [found];
    rewrite (bind_ret _ _ _ _ _ _ (get_bin_path_optional "pikaur" st)), after_nil;
    (destruct (which "pikaur" (host st)) as [[| c' w'] |]; try reflexivity;
     cbn [found];
     rewrite (bind_ret _ _ _ _ _ _ (get_bin_path_optional "trizen" st)), after_nil;
     destruct (which "trizen" (host st)) as [[| c'' w''] |]; reflexivity).
Qed.

Lemma get_handler_eq pacman (st : St) rc out err h :
  exec (cwd st) (Some "whoami") [] (host st) = ((rc, out, err), h) ->
  get_handler pacman st
  = (Ret (if String.eqb (user_of rc out) "root" then pacman
          else match wrapper_on h with Some w => w | None => pacman end),
     set_host h st, [Cmd (Some "whoami") []]).
Proof.
  intros Hx. unfold get_handler.
  rewrite (bind_ret _ _ _ _ _ _ (get_current_user_name_eq st rc out err h Hx)).
  destruct (String.eqb (user_of rc out) "root"); cbn [negb]; [reflexivity |].
  rewrite (bind_ret _ _ _ _ _ _ (get_pacman_wrapper_eq (set_host h st))).
  cbn [host set_host]. destruct (wrapper_on h); reflexivity.
Qed.

(** X1. [get_handler] asks [whoami] once. For root, and when [whoami] fails,
    the handler is pacman whatever is installed; for another user it is the
    first of yay, pikaur and trizen that is installed, and pacman when none
    is. *)
Theorem get_handler_choice (pacman : string) (st : St) (rc : Z)
    (out err : string) (h : Host) :
  exec (cwd st) (Some "whoami") [] (host st) = ((rc, out, err), h) ->
  let picks handler :=
    get_handler pacman st
    = (Ret handler, set_host h st, [Cmd (Some "whoami") []]) in
  (rc <> 0%Z \/ strip out = "root" -> picks pacman)
  /\ (rc = 0%Z -> strip out <> "root" ->
      (forall w, which "yay" h = Some w -> w <> "" -> picks w)
      /\ (forall w, found (which "yay" h) = false ->
                    which "pikaur" h = Some w -> w <> "" -> picks w)
      /\ (forall w, found (which "yay" h) = false ->
                    found (which "pikaur" h) = false ->
                    which "trizen" h = Some w -> w <> "" -> picks w)
      /\ (found (which "yay" h) = false ->
          found (which "pikaur" h) = false ->
          found (which "trizen" h) = false -> picks pacman)).
Proof.
  intros Hx picks. subst picks. cbv beta.
  rewrite (get_handler_eq pacman st rc out err h Hx). split.
  - intros Hroot.
    replace (String.eqb (user_of rc out) "root") with true; [reflexivity |].
    symmetry. apply String.eqb_eq. unfold user_of.
    destruct Hroot as [Hrc | Hout].
    + apply Z.eqb_neq in Hrc. now rewrite Hrc.
    + destruct (rc =? 0)%Z; [exact Hout | reflexivity].
  - intros -> Huser.
    replace (String.eqb (user_of 0 out) "root") with false
      by (symmetry; apply String.eqb_neq; exact Huser).
    unfold wrapper_on.
    assert (Hfound : forall w, w <> "" -> found (Some w) = true)
      by (intros [| c w] Hw; [contradiction | reflexivity]).
    repeat split.
    + intros w Hy Hw. rewrite Hy, (Hfound w Hw). reflexivity.
    + intros w Hy Hp Hw. rewrite Hy, Hp, (Hfound w Hw). reflexivity.
    + intros w Hy Hp Ht Hw. rewrite Hy, Hp, Ht, (Hfound w Hw). reflexivity.
    + intros Hy Hp Ht. rewrite Hy, Hp, Ht. reflexivity.
Qed.

(** X2. The command line for a wrapper begins with the wrapper's path as it
    was given and goes on with the template of the wrapper's base name; it is
    an install command, or an upgrade command in upgrade mode, whatever is
    appended to it. A path whose base name is none of yay, pikaur and trizen
    has no command line (the table lookup raises). *)
Theorem get_pacman_wrapper_command_shape (wrapper : string) (upgrade_mode : bool) :
  let base := last_item (split_on "/" wrapper) in
  (In base ["yay"; "pikaur"; "trizen"] ->
   exists template,
     get_pacman_wrapper_command wrapper upgrade_mode = Some (Some wrapper, template)
     /\ forall more,
          (if upgrade_mode then upgrade_command else install_command)
            (Cmd (Some wrapper) (template ++ more)) = true)
  /\ (~ In base ["yay"; "pikaur"; "trizen"] ->
      get_pacman_wrapper_command wrapper upgrade_mode = None).
Proof.
  intros base. unfold get_pacman_wrapper_command. fold base. split.
  - intros [Hb | [Hb | [Hb | []]]]; rewrite <- Hb; cbn [lookup pacman_wrappers];
      cbn; eexists; (split; [reflexivity |]); intros more;
      destruct upgrade_mode; reflexivity.
  - intros Hnot. cbn [lookup pacman_wrappers].
    destruct (String.eqb_spec base "yay") as [-> | _];
      [exfalso; apply Hnot; cbn; tauto |].
    destruct (String.eqb_spec base "pikaur") as [-> | _];
      [exfalso; apply Hnot; cbn; tauto |].
    destruct (String.eqb_spec base "trizen") as [-> | _];
      [exfalso; apply Hnot; cbn; tauto |].
    reflexivity.
Qed.

(** *** Taking computations apart *)

Ltac inv_bind Hrun a s1 e1 Hfirst :=
  let e2 := fresh "e" in
  let Hev := fresh "Hev" in
  let h := fresh "h" in
  let Hstop := fresh "Hstop" in
  apply bind_inv in Hrun
    as [(a & s1 & e1 & e2 & Hfirst & Hrun & Hev) | (h & Hrun & Hstop)];
  [ match type of Hev with ?x = _ => try subst x end
  | match type of Hstop with ?x = _ => try subst x end ].

Lemma run_command_inv (cmd : Cmdline) (st st' : St) o ev :
  run_command cmd st = (o, st', ev) ->
  exists r h, o = Ret r /\ st' = set_host h st
              /\ ev = [Cmd (fst cmd) (snd cmd)]
              /\ exec (cwd st) (fst cmd) (snd cmd) (host st) = (r, h).
Proof.
  unfold run_command.
  destruct (exec (cwd st) (fst cmd) (snd cmd) (host st)) as [r h].
  intros Heq. injection Heq as <- <- <-. exists r, h. auto.
Qed.

Lemma get_current_user_name_inv (st st' : St) o ev :
  get_current_user_name st = (o, st', ev) ->
  exists rc out err h,
    exec (cwd st) (Some "whoami") [] (host st) = ((rc, out, err), h)
    /\ o = Ret (user_of rc out) /\ st' = set_host h st
    /\ ev = [Cmd (Some "whoami") []].
Proof.
  destruct (exec (cwd st) (Some "whoami") [] (host st)) as [[[rc out] err] h]
    eqn:Hx.
  rewrite (get_current_user_name_eq st rc out err h Hx).
  intros Heq. injection Heq as <- <- <-. exists rc, out, err, h. auto.
Qed.

Lemma get_handler_inv pacman (st st' : St) o ev :
  get_handler pacman st = (o, st', ev) ->
  exists rc out err h,
    exec (cwd st) (Some "whoami") [] (host st) = ((rc, out, err), h)
    /\ o = Ret (if String.eqb (user_of rc out) "root" then pacman
                else match wrapper_on h with Some w => w | None => pacman end)
    /\ st' = set_host h st /\ ev = [Cmd (Some "whoami") []].
Proof.
  destruct (exec (cwd st) (Some "whoami") [] (host st)) as [[[rc out] err] h]
    eqn:Hx.
  rewrite (get_handler_eq pacman st rc out err h Hx).
  intros Heq. injection Heq as <- <- <-. exists rc, out, err, h. auto.
Qed.

(** [result['msg'] = message] and [fail_json], under a condition. *)
Lemma when_fail_inv b message (st st' : St) o ev :
  when b (set_msg message ;; fail_json) st = (o, st', ev) ->
  ev = []
  /\ ((b = false /\ o = Ret tt /\ st' = st)
      \/ (b = true /\ o = Stop FailJson /\ st' = said message st)).
Proof.
  destruct b; cbn; intros Heq; injection Heq as <- <- <-; auto.
Qed.

(** *** Refreshing the databases *)


(** X4. A user other than root, on a host without wrapper, cannot refresh the
    databases: [refresh_package_databases] asks [whoami] twice and fails with
    its message, and no refresh command is issued. *)
Theorem refresh_package_databases_denied (module : AnsibleModule)
    (pacman : string) (st : St) (rc rc' : Z) (out err out' err' : string)
    (h1 h2 : Host) :
  exec (cwd st) (Some "whoami") [] (host st) = ((rc, out, err), h1) ->
  user_of rc out <> "root" ->
  wrapper_on h1 = None ->
  exec (cwd st) (Some "whoami") [] h1 = ((rc', out', err'), h2) ->
  user_of rc' out' <> "root" ->
  refresh_package_databases module pacman st
  = (Stop FailJson,
     said ("could not refresh the master package databases as a non-root "
           +++ "user when no pacman's wrapper is installed") (set_host h2 st),
     [Cmd (Some "whoami") []; Cmd (Some "whoami") []]).
Proof.
  intros Hx Huser Hnone Hx' Huser'. unfold refresh_package_databases.
  rewrite (bind_ret _ _ _ _ _ _ (get_handler_eq pacman st rc out err h1 Hx)).
  apply String.eqb_neq in Huser. rewrite Huser, Hnone, String.eqb_refl.
  rewrite (bind_ret _ _ (set_host h1 st) (negb (String.eqb (user_of rc' out') "root"))
             (set_host h2 st) [Cmd (Some "whoami") []]).
  2: { rewrite (bind_ret _ _ _ _ _ _
                  (get_current_user_name_eq (set_host h1 st) rc' out' err' h2 Hx')).
       reflexivity. }
  apply String.eqb_neq in Huser'. rewrite Huser'. reflexivity.
Qed.

Lemma refresh_command_line module (hdl : string) :
  (let cmd : Cmdline := (Some hdl, ["-S"; "-y"]) in
   let cmd := if force (params module) then extend cmd ["-y"] else cmd in
   if negb (name_given (params module) || upgrade_flag (params module))
   then extend cmd (split_extra_args (extra_args (params module)))
   else cmd)
  = (Some hdl, refresh_arguments (params module)).
Proof.
  unfold refresh_arguments, extend.
  destruct (force (params module));
    destruct (negb (name_given (params module) || upgrade_flag (params module)));
    cbn [fst snd app]; rewrite ?app_nil_r; reflexivity.
Qed.

(** However [refresh_package_databases] ends, it has asked [whoami] and issued
    at most one other command, the refresh line. *)
Lemma refresh_package_databases_outcomes module pacman (st st' : St) o ev :
  refresh_package_databases module pacman st = (o, st', ev) ->
  exists asked,
    Forall (fun e => is_whoami e = true) asked
    /\ ((o = Ret tt /\ result st' = result st
         /\ exists hdl,
              ev = asked ++ [Cmd (Some hdl) (refresh_arguments (params module))])
        \/ (o = Stop FailJson /\ changed (result st') = changed (result st)
            /\ handler (result st') = handler (result st)
            /\ (ev = asked
                \/ exists hdl,
                     ev = asked
                          ++ [Cmd (Some hdl) (refresh_arguments (params module))]))).
Proof.
  unfold refresh_package_databases. intros Hrun.
  inv_bind Hrun hdl st1 e1 Hhandler.
  2: { apply get_handler_inv in Hrun as (rc & out & err & h1 & _ & Hbad & _).
       discriminate. }
  apply get_handler_inv in Hhandler
    as (rc & out & err & h1 & _ & _ & -> & ->).
  inv_bind Hrun denied st2 e2 Hdenied.
  2: { destruct (String.eqb hdl pacman).
       - inv_bind Hrun user st3 e3 Huser; [unfold ret in Hrun; discriminate |].
         apply get_current_user_name_inv in Hrun
           as (rc2 & out2 & err2 & h2 & _ & Hbad & _).
         discriminate.
       - unfold ret in Hrun. discriminate. }
  assert (Hasked : result st2 = result st
                   /\ Forall (fun e => is_whoami e = true) e2).
  { destruct (String.eqb hdl pacman).
    - inv_bind Hdenied user st3 e3 Huser; [| discriminate].
      apply get_current_user_name_inv in Huser
        as (rc2 & out2 & err2 & h2 & _ & _ & -> & ->).
      unfold ret in Hdenied. injection Hdenied as _ <- <-.
      split; [reflexivity | repeat constructor].
    - unfold ret in Hdenied. injection Hdenied as _ <- <-.
      split; [reflexivity | constructor]. }
  destruct Hasked as [Hres Hasked].
  exists (Cmd (Some "whoami") [] :: e2).
  split; [constructor; [reflexivity | exact Hasked] |].
  inv_bind Hrun u st3 e3 Hwhen.
  2: { apply when_fail_inv in Hrun as [-> [(_ & Hbad & _) | (_ & Hfail & ->)]];
         [discriminate |].
       right. rewrite app_nil_r.
       repeat split; [exact Hfail | cbn; now rewrite Hres .. |].
       left. reflexivity. }
  apply when_fail_inv in Hwhen as [-> [(_ & _ & ->) | (_ & Hno & _)]];
    [| discriminate].
  pose proof (refresh_command_line module hdl) as Hargs. cbv zeta in Hargs.
  rewrite Hargs in Hrun. clear Hargs.
  inv_bind Hrun r st4 e4 Hcmd.
  2: { apply run_command_inv in Hrun as (r' & h3 & Hbad & _). discriminate. }
  apply run_command_inv in Hcmd as (r' & h3 & Hr & -> & -> & _).
  destruct r as [[rc3 out3] err3]. cbn [fst snd].
  apply when_fail_inv in Hrun as [-> [(_ & -> & ->) | (_ & -> & ->)]].
  - left. repeat split; [cbn; exact Hres |]. exists hdl.
    now rewrite !app_nil_r.
  - right. repeat split; [cbn; now rewrite Hres .. |]. right. exists hdl.
    now rewrite !app_nil_r.
Qed.


(** *** Official packages beside AUR packages *)

(** X6. Without wrapper, official packages cannot be installed in one request
    with AUR packages: for a user other than root for whom [get_handler]
    gives pacman, [install_packages_with_aur_support] with official packages
    fails with its message after two [whoami], before anything is looked up,
    built or installed. *)
Theorem official_beside_aur_needs_wrapper (module : AnsibleModule)
    (packages aur_packages : list string) (pacman : string) (st : St)
    (rc rc' : Z) (out err out' err' : string) (h1 h2 : Host) :
  exec (cwd st) (Some "whoami") [] (host st) = ((rc, out, err), h1) ->
  user_of rc out <> "root" ->
  exec (cwd st) (Some "whoami") [] h1 = ((rc', out', err'), h2) ->
  user_of rc' out' = "root" \/ wrapper_on h2 = None ->
  packages <> [] ->
  install_packages_with_aur_support module packages aur_packages pacman st
  = (Stop FailJson,
     said ("could not install packages from the official repositories "
           +++ "mixed with aur packages when no pacman's wrapper is "
           +++ "installed") (set_host h2 st),
     [Cmd (Some "whoami") []; Cmd (Some "whoami") []]).
Proof.
  intros Hx Huser Hx' Hpacman Hpackages.
  unfold install_packages_with_aur_support.
  rewrite (bind_ret _ _ _ _ _ _ (get_current_user_name_eq st rc out err h1 Hx)).
  apply String.eqb_neq in Huser. rewrite Huser. cbn [when].
  rewrite (bind_ret _ _ (set_host h1 st) tt (set_host h1 st) []) by reflexivity.
  rewrite after_nil.
  rewrite (bind_ret _ _ _ _ _ _
             (get_handler_eq pacman (set_host h1 st) rc' out' err' h2 Hx')).
  replace (if String.eqb (user_of rc' out') "root" then pacman
           else match wrapper_on h2 with Some w => w | None => pacman end)
    with pacman.
  2: { destruct Hpacman as [-> | ->]; [reflexivity |].
       destruct (String.eqb (user_of rc' out') "root"); reflexivity. }
  rewrite String.eqb_refl. cbn [negb].
  destruct packages as [| p packages]; [contradiction |]. reflexivity.
Qed.

(** *** Upgrading the system *)

Lemma when_exit_inv b message (st st' : St) o ev :
  when b (set_msg message ;; exit_json) st = (o, st', ev) ->
  ev = []
  /\ ((b = false /\ o = Ret tt /\ st' = st)
      \/ (b = true /\ o = Stop ExitJson /\ st' = said message st)).
Proof.
  destruct b; cbn; intros Heq; injection Heq as <- <- <-; auto.
Qed.

Lemma upgrade_template wrapper (cmd : Cmdline) more :
  get_pacman_wrapper_command wrapper true = Some cmd ->
  upgrade_command (Cmd (fst cmd) (snd cmd ++ more)) = true.
Proof.
  unfold get_pacman_wrapper_command. cbn [lookup pacman_wrappers].
  repeat match goal with
         | |- context [String.eqb ?x ?y] => destruct (String.eqb x y)
         end;
    intros Heq; try discriminate; injection Heq as <-; reflexivity.
Qed.

(** The command line that [upgrade] prepares. *)
Lemma upgrade_command_line_inv hdl pacman (st st' : St)
    (o : Outcome Cmdline) ev :
  (if String.eqb hdl pacman
   then user <- get_current_user_name ;;
        when (negb (String.eqb user "root"))
          (set_msg ("could not upgrade the system as a non-root user "
                    +++ "when no pacman's wrapper is installed") ;;
           fail_json) ;;
        ret (Some pacman, ["-S"; "-u"; "-q"; "--noconfirm"])
   else wrapper_command hdl true) st = (o, st', ev) ->
  existsb upgrade_command ev = false
  /\ changed (result st') = changed (result st)
  /\ handler (result st') = handler (result st)
  /\ kind o <> Some ExitJson
  /\ forall cmd, o = Ret cmd ->
       forall more, upgrade_command (Cmd (fst cmd) (snd cmd ++ more)) = true.
Proof.
  destruct (String.eqb hdl pacman).
  - intros Hrun. inv_bind Hrun user st1 e1 Huser.
    + apply get_current_user_name_inv in Huser
        as (rc & out & err & h & _ & _ & -> & ->).
      inv_bind Hrun u st2 e2 Hwhen.
      * apply when_fail_inv in Hwhen as [-> [(_ & _ & ->) | (_ & Hno & _)]];
          [| discriminate].
        unfold ret in Hrun. injection Hrun as <- <- <-.
        repeat split; try discriminate.
        intros cmd Hcmd more. injection Hcmd as <-. reflexivity.
      * apply when_fail_inv in Hrun as [-> [(_ & Hno & _) | (_ & Ho & ->)]];
          [discriminate | injection Ho as ->].
        repeat split; discriminate.
    + apply get_current_user_name_inv in Hrun as (? & ? & ? & ? & _ & ? & _).
      discriminate.
  - unfold wrapper_command.
    destruct (get_pacman_wrapper_command hdl true) as [cmd |] eqn:Hcmd.
    + unfold ret. intros Heq. injection Heq as <- <- <-.
      repeat split; try discriminate.
      intros cmd' Hcmd' more. injection Hcmd' as <-.
      now apply upgrade_template with (wrapper := hdl).
    + unfold halt. intros Heq. injection Heq as <- <- <-.
      repeat split; discriminate.
Qed.

(** What [upgrade] reports, by the way it ends. *)
Lemma upgrade_outcomes (module : AnsibleModule) (pacman : string)
    (st st' : St) (o : Outcome unit) (ev : list Event) :
  upgrade module pacman st = (o, st', ev) ->
  changed (result st) = false ->
  handler (result st) = None ->
  returned o = false
  /\ (o = Stop ExitJson ->
      changed (result st') = existsb upgrade_command ev
      /\ (handler (result st') <> None <-> changed (result st') = true))
  /\ (o <> Stop ExitJson ->
      changed (result st') = false /\ handler (result st') = None).
Proof.
  unfold upgrade. intros Hrun Hchanged Hhandler.
  inv_bind Hrun hdl st1 e1 Hget.
  2: { apply get_handler_inv in Hrun as (? & ? & ? & ? & _ & ? & _).
       discriminate. }
  apply get_handler_inv in Hget as (rc & out & err & h1 & _ & _ & -> & ->).
  inv_bind Hrun cmd st2 e2 Hcmd.
  2: { apply upgrade_command_line_inv in Hrun as (He & Hc & Hh & Hexit & _).
       cbn [result set_host kind] in Hc, Hh, Hexit.
       repeat split; try congruence. }
  apply upgrade_command_line_inv in Hcmd as (He2 & Hc2 & Hh2 & _ & Hline).
  cbn [result set_host] in Hc2, Hh2.
  specialize (Hline cmd eq_refl).
  inv_bind Hrun r st3 e3 Hquery.
  2: { apply run_command_inv in Hrun as (? & ? & ? & _). discriminate. }
  apply run_command_inv in Hquery as (r' & h3 & Hr & -> & -> & _).
  destruct r as [[rc3 out3] err3].
  inv_bind Hrun u st4 e4 Hcurrent.
  2: { apply when_exit_inv in Hrun as [-> [(_ & Hno & _) | (_ & Ho & ->)]];
         [discriminate | injection Ho as ->].
       cbn [result said set_host changed handler].
       rewrite !existsb_app, He2. cbn.
       repeat split; try congruence. }
  apply when_exit_inv in Hcurrent as [-> [(_ & _ & ->) | (_ & Hno & _)]];
    [| discriminate].
  inv_bind Hrun r4 st5 e5 Hupgrade.
  2: { apply run_command_inv in Hrun as (? & ? & ? & _). discriminate. }
  apply run_command_inv in Hupgrade as (r5 & h5 & Hr5 & -> & -> & _).
  destruct r4 as [[rc5 out5] err5].
  inv_bind Hrun u5 st6 e6 Hfailed.
  2: { apply when_fail_inv in Hrun as [-> [(_ & Hno & _) | (_ & Ho & ->)]];
         [discriminate | injection Ho as ->].
       cbn [result said set_host changed handler].
       repeat split; try congruence; discriminate. }
  apply when_fail_inv in Hfailed as [-> [(_ & _ & ->) | (_ & Hno & _)]];
    [| discriminate].
  unfold bind, set_handler, set_result, return_upgrade_result, set_changed,
    set_msg, exit_json, halt in Hrun.
  cbn in Hrun. injection Hrun as <- <- <-.
  cbn [result changed handler].
  repeat split; try congruence; try discriminate.
  rewrite !existsb_app. cbn [existsb extend fst snd].
  rewrite Hline. cbn. now rewrite !orb_true_r.
Qed.

(** X7. [upgrade] never returns to its caller. When it exits, it reports a
    change exactly when it has issued the upgrade command, and it names the
    handler exactly then; when it stops in any other way, it reports no change
    and no handler, also after an upgrade command that failed. *)
Theorem upgrade_report (module : AnsibleModule) (pacman : string)
    (st st' : St) (o : Outcome unit) (ev : list Event) :
  upgrade module pacman st = (o, st', ev) ->
  changed (result st) = false ->
  handler (result st) = None ->
  returned o = false
  /\ (o = Stop ExitJson ->
      changed (result st') = existsb upgrade_command ev
      /\ (handler (result st') <> None <-> changed (result st') = true))
  /\ (o <> Stop ExitJson ->
      changed (result st') = false /\ handler (result st') = None).
Proof.
  intros Hrun Hchanged Hhandler.
  destruct (upgrade_outcomes module pacman st st' o ev Hrun Hchanged Hhandler)
    as (Hreturned & Hexit & Hstop).
  split; [exact Hreturned | split; [exact Hexit | exact Hstop]].
Qed.

(** *** Runs without names *)

(** X8. A dry run without names asks the host nothing. It reports a change
    whenever a refresh of the databases or an upgrade is requested: "would be
    refreshed" for the refresh alone, "would be upgraded" with [upgrade],
    whatever the state of the host. *)
Theorem dry_run_without_names (module : AnsibleModule) (pacman : string)
    (st : St) :
  check_mode module = true ->
  name_given (params module) = false ->
  which "pacman" (host st) = Some pacman ->
  let p := params module in
  run_module module st
  = (Stop ExitJson,
     {| host := host st; cwd := cwd st;
        result :=
          if upgrade_flag p
          then {| changed := true; msg := "system would be upgraded";
                  handler := None |}
          else if update_cache p
          then {| changed := true;
                  msg := "master package databases would be refreshed";
                  handler := None |}
          else initial_result |},
     []).
Proof.
  intros Hcheck Hname Hwhich p. subst p. rewrite run_module_fresh.
  rewrite (bind_ret _ _ (fresh st) pacman (fresh st) []).
  2: { unfold require_bin_path, get_bin_path, bind, ret.
       cbn [host fresh]. rewrite Hwhich. reflexivity. }
  rewrite after_nil.
  unfold run_module_update_cache, run_module_upgrade, run_module_name.
  rewrite Hcheck, Hname.
  destruct (update_cache (params module)), (upgrade_flag (params module));
    reflexivity.
Qed.

(** *** Facts about parts of the runs *)

Lemma steady_ret (s s' : St) : result s' = result s -> steady s None s'.
Proof. intros Hr. split; [intros _; exact Hr | discriminate]. Qed.

Lemma steady_stop (s s' : St) h :
  h <> ExitJson -> handler (result s') = handler (result s) ->
  steady s (Some h) s'.
Proof. intros Hh _. split; [discriminate | congruence]. Qed.

Lemma steady_trans (s s1 : St) k (s2 : St) :
  steady s None s1 -> steady s1 k s2 -> steady s k s2.
Proof.
  intros [H1 _] [H2 Hk]. split; [| exact Hk].
  intros Hnone. rewrite (H2 Hnone). now apply H1.
Qed.

Lemma get_package_details_facts module pkg pacman aur (st st' : St) o ev :
  get_package_details module pkg pacman aur st = (o, st', ev) ->
  (kind o = None -> result st' = result st)
  /\ kind o <> Some ExitJson
  /\ Forall (fun e => probing e = true) ev.
Proof.
  intros Hrun.
  assert (Hs : sound steady (fun e => probing e = true)
                 (get_package_details module pkg pacman aur)).
  { apply sound_get_package_details;
      first [ exact steady_ret | exact steady_stop | exact steady_trans
            | intros; now auto ]. }
  specialize (Hs st). rewrite Hrun in Hs. destruct Hs as [[Hr Hk] He]. auto.
Qed.

Lemma get_package_details_package module pkg pacman aur (st st' : St) details ev :
  get_package_details module pkg pacman aur st = (Ret details, st', ev) ->
  package details = pkg.
Proof.
  unfold get_package_details. intros Hrun.
  inv_bind Hrun got st1 e1 Hinst; [| discriminate].
  destruct (State_eqb (state (params module)) Latest && got).
  - inv_bind Hrun ver st2 e2 Hversion; [| discriminate].
    inv_bind Hrun rem st3 e3 Hremote; [| discriminate].
    destruct rem; unfold ret in Hrun; injection Hrun as <- _ _; reflexivity.
  - unfold ret in Hrun. injection Hrun as <- _ _. reflexivity.
Qed.

Ltac decide_shape :=
  cbn [probing install_command refresh_command removal_command upgrade_command
       is_mktemp is_rmtemp list_prefix];
  repeat match goal with
         | |- context [String.eqb ?x ?y] => destruct (String.eqb_spec x y)
         end;
  cbn [andb orb]; intros; subst;
  solve [discriminate | reflexivity | congruence].

Lemma probing_not_removal e : probing e = true -> removal_command e = false.
Proof.
  destruct e as [prog args | | | | | |]; try reflexivity.
  destruct args as [| a [| b rest]]; [reflexivity | |];
    destruct prog; decide_shape.
Qed.

Lemma count_app p (e1 e2 : list Event) : count p (e1 ++ e2) = count p e1 + count p e2.
Proof. unfold count. now rewrite filter_app, length_app. Qed.

Lemma count_none p (evs : list Event) :
  Forall (fun e => p e = false) evs -> count p evs = 0.
Proof.
  unfold count. induction 1 as [| e evs He _ IH]; [reflexivity |].
  cbn. now rewrite He.
Qed.

Lemma count_one p (e : Event) : p e = true -> count p [e] = 1.
Proof. intros He. unfold count. cbn. now rewrite He. Qed.

Lemma existsb_count p (evs : list Event) : existsb p evs = (0 <? count p evs).
Proof.
  unfold count. induction evs as [| e evs IH]; [reflexivity |].
  cbn. destruct (p e); [reflexivity | exact IH].
Qed.

(** *** Removing packages *)

(** X9. When [remove_packages] exits, it reports a change exactly when it has
    issued a removal command; every removal command is the prepared command
    for one of the packages asked for, there are no more of them than
    packages, and the handler is left as it was. *)
Theorem remove_packages_report (module : AnsibleModule)
    (packages : list string) (pacman : string) (st st' : St) (ev : list Event) :
  remove_packages module packages pacman st = (Stop ExitJson, st', ev) ->
  changed (result st) = false ->
  changed (result st') = existsb removal_command ev
  /\ count removal_command ev <= length packages
  /\ Forall (fun e => removal_command e = true ->
                      removes module pacman packages e) ev
  /\ handler (result st') = handler (result st).
Proof.
  unfold remove_packages. intros Hrun Hchanged.
  match type of Hrun with
  | context [foldM ?f packages 0] => set (body := f) in *
  end.
  assert (Hstep : forall n pkg (s s' : St) o e,
    body n pkg s = (o, s', e) ->
    kind o <> Some ExitJson
    /\ forall n', o = Ret n' ->
         result s' = result s
         /\ n' = n + count removal_command e
         /\ count removal_command e <= 1
         /\ Forall (fun x => removal_command x = true ->
                             removes module pacman [pkg] x) e).
  { intros n pkg s s' o e Hbody. subst body. cbv beta in Hbody.
    inv_bind Hbody details s1 e1 Hdetails.
    2: { apply get_package_details_facts in Hbody as (_ & Hk & _).
         split; [exact Hk | discriminate]. }
    pose proof (get_package_details_package _ _ _ _ _ _ _ _ Hdetails) as Hpkg.
    apply get_package_details_facts in Hdetails as (Hr1 & _ & He1).
    specialize (Hr1 eq_refl).
    assert (Hnone : count removal_command e1 = 0).
    { apply count_none. eapply Forall_impl; [| exact He1].
      apply probing_not_removal. }
    assert (Hq : Forall (fun x => removal_command x = true ->
                                  removes module pacman [pkg] x) e1).
    { eapply Forall_impl; [| exact He1]. intros x Hp Hrm.
      rewrite (probing_not_removal x Hp) in Hrm. discriminate. }
    destruct (installed details).
    - inv_bind Hbody r s2 e2 Hcmd.
      2: { apply run_command_inv in Hbody as (? & ? & ? & _). discriminate. }
      apply run_command_inv in Hcmd as (r' & h2 & _ & -> & -> & _).
      destruct r as [[rc out] err].
      inv_bind Hbody u s3 e3 Hwhen.
      2: { apply when_fail_inv in Hbody as [_ [(_ & Hno & _) | (_ & Ho & _)]];
             [discriminate | injection Ho as ->].
           split; [discriminate | discriminate]. }
      apply when_fail_inv in Hwhen as [-> [(_ & _ & ->) | (_ & Hno & _)]];
        [| discriminate].
      unfold ret in Hbody. injection Hbody as <- <- <-.
      split; [discriminate |]. intros n' Hn'. injection Hn' as <-.
      assert (Hone : removal_command
                       (Cmd (fst (extend (prepare_remove_package_command module pacman)
                                         [package details]))
                            (snd (extend (prepare_remove_package_command module pacman)
                                         [package details]))) = true).
      { unfold prepare_remove_package_command.
        destruct (force (params module)); reflexivity. }
      rewrite ?app_nil_r, count_app, Hnone, (count_one _ _ Hone).
      split; [exact Hr1 | split; [lia | split; [lia |]]].
      apply Forall_app. split; [exact Hq |].
      constructor; [| constructor]. intros _. exists pkg.
      split; [now left |]. rewrite Hpkg.
      unfold prepare_remove_package_command, extend.
      destruct (force (params module)); reflexivity.
    - unfold ret in Hbody. injection Hbody as <- <- <-.
      split; [discriminate |]. intros n' Hn'. injection Hn' as <-.
      rewrite app_nil_r, Hnone. repeat split; auto; lia. }
  assert (Hloop : forall l n (s s' : St) o e,
    foldM body l n s = (o, s', e) ->
    kind o <> Some ExitJson
    /\ forall n', o = Ret n' ->
         result s' = result s
         /\ n' = n + count removal_command e
         /\ count removal_command e <= length l
         /\ Forall (fun x => removal_command x = true ->
                             removes module pacman l x) e).
  { induction l as [| pkg l IH]; intros n s s' o e Hfold.
    - cbn in Hfold. unfold ret in Hfold. injection Hfold as <- <- <-.
      split; [discriminate |]. intros n' Hn'. injection Hn' as <-.
      repeat split; auto.
    - rewrite foldM_cons in Hfold. inv_bind Hfold n1 s1 e1 Hfirst.
      + apply Hstep in Hfirst as [_ Hfirst].
        destruct (Hfirst n1 eq_refl) as (Hr1 & Hn1 & Hc1 & Hq1).
        apply IH in Hfold as [Hk Hrest]. split; [exact Hk |].
        intros n' Hn'. destruct (Hrest n' Hn') as (Hr2 & Hn2 & Hc2 & Hq2).
        rewrite count_app. cbn [length].
        repeat split; try lia; try congruence.
        apply Forall_app. split.
        * eapply Forall_impl; [| exact Hq1]. intros x Hx Hrm.
          destruct (Hx Hrm) as (p0 & Hin & ->). exists p0.
          split; [| reflexivity]. destruct Hin as [<- | []]. now left.
        * eapply Forall_impl; [| exact Hq2]. intros x Hx Hrm.
          destruct (Hx Hrm) as (p0 & Hin & ->). exists p0.
          split; [| reflexivity]. now right.
      + apply Hstep in Hfold as [Hk _]. split; [exact Hk | discriminate]. }
  inv_bind Hrun n st1 e1 Hfold.
  2: { apply Hloop in Hrun as [Hk _].
       match goal with Hs : Stop _ = Stop _ |- _ => injection Hs as <- end.
       exfalso. now apply Hk. }
  apply Hloop in Hfold as [_ Hfold].
  destruct (Hfold n eq_refl) as (Hr & Hn & Hc & Hq).
  cbn [plus] in Hn.
  assert (He2 : e = [] /\ changed (result st') = (0 <? n) || changed (result st1)
                /\ handler (result st') = handler (result st1)).
  { unfold return_name_result, bind, set_changed, set_msg, set_result,
      exit_json, halt in Hrun.
    destruct (0 <? n); cbn in Hrun; injection Hrun as <- <-; auto. }
  destruct He2 as (-> & Hch & Hh).
  rewrite app_nil_r, existsb_count, <- Hn, Hch, Hh, Hr, Hchanged, orb_false_r.
  repeat split; [lia | exact Hq].
Qed.

(** *** Installing with pacman *)

(** However [remove_packages] ends, its events are queries and the prepared
    removal lines of packages asked for. *)
Lemma remove_packages_events module packages pacman (st : St) :
  Forall (fun e => probing e = true \/ removes module pacman packages e)
         (events (remove_packages module packages pacman st)).
Proof.
  unfold remove_packages.
  match goal with
  | |- context [foldM ?f packages 0] => set (body := f)
  end.
  assert (Hstep : forall n pkg (s s' : St) o e,
    body n pkg s = (o, s', e) ->
    Forall (fun x => probing x = true \/ removes module pacman [pkg] x) e).
  { intros n pkg s s' o e Hbody. subst body. cbv beta in Hbody.
    inv_bind Hbody details s1 e1 Hdetails.
    2: { apply get_package_details_facts in Hbody as (_ & _ & He).
         eapply Forall_impl; [| exact He]. auto. }
    pose proof (get_package_details_package _ _ _ _ _ _ _ _ Hdetails) as Hpkg.
    apply get_package_details_facts in Hdetails as (_ & _ & He1).
    apply Forall_app. split; [eapply Forall_impl; [| exact He1]; auto |].
    destruct (installed details).
    - assert (Hline : forall x,
                x = Cmd (fst (extend (prepare_remove_package_command module pacman)
                                     [package details]))
                        (snd (extend (prepare_remove_package_command module pacman)
                                     [package details])) ->
                removes module pacman [pkg] x).
      { intros x ->. exists pkg. split; [now left |]. rewrite Hpkg.
        unfold prepare_remove_package_command, extend.
        destruct (force (params module)); reflexivity. }
      inv_bind Hbody r s2 e2 Hcmd.
      2: { apply run_command_inv in Hbody as (? & ? & ? & _). discriminate. }
      apply run_command_inv in Hcmd as (r' & h2 & _ & -> & -> & _).
      destruct r as [[rc out] err].
      inv_bind Hbody u s3 e3 Hwhen.
      + apply when_fail_inv in Hwhen as [-> _].
        unfold ret in Hbody. injection Hbody as _ _ <-. cbn [app].
        constructor; [right; now apply Hline | constructor].
      + apply when_fail_inv in Hbody as [-> _]. cbn [app].
        constructor; [right; now apply Hline | constructor].
    - unfold ret in Hbody. injection Hbody as _ _ <-. constructor. }
  assert (Hloop : forall l n (s s' : St) o e,
    foldM body l n s = (o, s', e) ->
    Forall (fun x => probing x = true \/ removes module pacman l x) e).
  { induction l as [| pkg l IH]; intros n s s' o e Hfold.
    - cbn in Hfold. unfold ret in Hfold. injection Hfold as _ _ <-. constructor.
    - assert (Hwiden : forall l' x,
                incl l' (pkg :: l) ->
                probing x = true \/ removes module pacman l' x ->
                probing x = true \/ removes module pacman (pkg :: l) x).
      { intros l' x Hincl [Hp | (p0 & Hin & ->)]; [now left | right].
        exists p0. split; [now apply Hincl | reflexivity]. }
      rewrite foldM_cons in Hfold. inv_bind Hfold n1 s1 e1 Hfirst.
      + apply Hstep in Hfirst. apply IH in Hfold.
        apply Forall_app. split;
          (eapply Forall_impl; [| eassumption]); intros x;
          apply Hwiden; intros y Hy; [| now right].
        destruct Hy as [<- | []]. now left.
      + apply Hstep in Hfold. eapply Forall_impl; [| exact Hfold].
        intros x. apply Hwiden. intros y [<- | []]. now left. }
  unfold bind.
  destruct (foldM body packages 0 st) as [[[n | h] s1] e1] eqn:Hfold;
    pose proof (Hloop _ _ _ _ _ _ Hfold) as Hev.
  - destruct (return_name_result module n (length packages =? 1) false s1)
      as [[o2 s2] e2] eqn:Hreport.
    assert (e2 = []) as ->.
    { unfold return_name_result, bind, set_changed, set_msg, set_result,
        exit_json, halt in Hreport.
      destruct (0 <? n); cbn in Hreport; now injection Hreport as _ _ <-. }
    cbn [events snd]. now rewrite app_nil_r.
  - exact Hev.
Qed.

Lemma filterM_kept {A} (f : A -> M bool) l (st st' : St) kept ev :
  filterM f l st = (Ret kept, st', ev) ->
  incl kept l /\ length kept <= length l.
Proof.
  revert st st' kept ev. induction l as [| a l IH]; intros st st' kept ev Hrun.
  - cbn in Hrun. unfold ret in Hrun. injection Hrun as <- _ _.
    split; [apply incl_refl | reflexivity].
  - cbn [filterM] in Hrun.
    inv_bind Hrun keep st1 e1 Hkeep; [| discriminate].
    inv_bind Hrun rest st2 e2 Hrest; [| discriminate].
    apply IH in Hrest as [Hincl Hlen].
    unfold ret in Hrun. injection Hrun as <- _ _.
    destruct keep; cbn [length]; split; try lia.
    + intros x [<- | Hx]; [now left | right; now apply Hincl].
    + intros x Hx. right. now apply Hincl.
Qed.

Lemma get_package_details_same_state module pkg pacman aur (st st' : St)
    details ev :
  read_only_queries ->
  get_package_details module pkg pacman aur st = (Ret details, st', ev) ->
  st' = st.
Proof.
  intros Hpure. unfold get_package_details. intros Hrun.
  assert (Hcmd : forall cmd (s s' : St) o e,
            probing (Cmd (fst cmd) (snd cmd)) = true ->
            run_command cmd s = (o, s', e) -> s' = s).
  { intros cmd s s' o e Hp Hc.
    now apply (run_command_same_state cmd s s' o e Hpure Hp). }
  assert (Hversion : forall remote (s s' : St) o e,
            get_package_version pkg pacman remote s = (o, s', e) -> s' = s).
  { intros remote s s' o e. unfold get_package_version. intros Hv.
    inv_bind Hv r s1 e1 Hq.
    - apply Hcmd in Hq; [| destruct remote; reflexivity]. subst s1.
      destruct r as [[rc out] err].
      destruct (rc =? 0)%Z; [| unfold ret in Hv; now injection Hv].
      destruct (nth_error _ _); unfold ret, halt in Hv; now injection Hv.
    - apply Hcmd in Hv; [exact Hv | destruct remote; reflexivity]. }
  assert (Haur : forall (s s' : St) o e,
            get_aur_package_version pkg s = (o, s', e) -> s' = s).
  { intros s s' o e. unfold get_aur_package_version, get_aur_package_info, bind.
    rewrite (pure_aur_rpc pkg (host s) Hpure).
    destruct (fst (aur_rpc pkg (host s))) as [info |].
    - destruct (resultcount info >? 0)%Z; [destruct (results info) |];
        unfold ret, halt; intros Heq; injection Heq as _ <- _;
        apply set_host_same.
    - intros Heq. injection Heq as _ <- _. apply set_host_same. }
  inv_bind Hrun got st1 e1 Hinst; [| discriminate].
  unfold is_package_installed in Hinst.
  inv_bind Hinst r s1 e2 Hq; [| discriminate].
  apply Hcmd in Hq; [| reflexivity]. subst s1.
  destruct r as [[rc out] err]. unfold ret in Hinst. injection Hinst as _ <- _.
  destruct (State_eqb (state (params module)) Latest && got);
    [| unfold ret in Hrun; now injection Hrun].
  inv_bind Hrun ver st2 e3 Hlocal; [| discriminate].
  apply Hversion in Hlocal. subst st2.
  inv_bind Hrun rem st3 e4 Hremote; [| discriminate].
  assert (st3 = st) as ->.
  { destruct aur; [now apply Haur in Hremote | now apply Hversion in Hremote]. }
  destruct rem; unfold ret in Hrun; now injection Hrun.
Qed.

(** With read-only queries, the packages that the loops of the installation
    keep are those that need a change in the state the function starts in. *)
Lemma filterM_needs_change module pacman aur (name_of : string -> string)
    packages (st st' : St) kept ev :
  read_only_queries ->
  filterM (fun pkg =>
             details <- get_package_details module (name_of pkg) pacman aur ;;
             ret (is_state_change_required (state (params module)) details))
          packages st
  = (Ret kept, st', ev) ->
  st' = st
  /\ kept = filter (fun pkg => needs_change module pacman aur st (name_of pkg))
                   packages.
Proof.
  intros Hpure. revert st' kept ev.
  induction packages as [| pkg packages IH]; intros st' kept ev Hrun.
  - cbn in Hrun. unfold ret in Hrun. injection Hrun as <- <- _. auto.
  - cbn [filterM] in Hrun.
    inv_bind Hrun keep st1 e1 Hkeep; [| discriminate].
    inv_bind Hkeep details st2 e2 Hdetails; [| discriminate].
    pose proof (get_package_details_same_state _ _ _ _ _ _ _ _ Hpure Hdetails)
      as ->.
    unfold ret in Hkeep. injection Hkeep as <- <- _.
    inv_bind Hrun others st3 e3 Hothers; [| discriminate].
    apply IH in Hothers as [-> ->].
    unfold ret in Hrun. injection Hrun as <- <- _.
    split; [reflexivity |]. cbn [filter].
    replace (needs_change module pacman aur st (name_of pkg))
      with (is_state_change_required (state (params module)) details)
      by (unfold needs_change; now rewrite Hdetails).
    reflexivity.
Qed.

(** X10. When [install_packages_with_pacman] returns, it has first asked the
    host about the packages with read-only queries and then issued at most one
    command: none when no package needs a change, else one install command
    ([-S], or [-U] for local files) for all the packages that need one, which
    are among those asked for and are as many as the number it returns. When
    the queries leave the host as it is, these are exactly the packages asked
    for that need a change (a local file by the name read off its file name),
    in the order of the request. *)
Theorem install_packages_with_pacman_batch (module : AnsibleModule)
    (packages : list string) (pacman : string) (local_resources : bool)
    (st st' : St) (n : nat) (ev : list Event) :
  install_packages_with_pacman module packages pacman local_resources st
  = (Ret n, st', ev) ->
  exists queries packages_to_install,
    Forall (fun e => probing e = true) queries
    /\ incl packages_to_install packages
    /\ n = length packages_to_install
    /\ n <= length packages
    /\ ev = queries
            ++ (if nonempty packages_to_install
                then [pacman_install_command module pacman local_resources
                        packages_to_install]
                else [])
    /\ result st' = result st
    /\ (read_only_queries ->
        packages_to_install
        = filter (fun pkg =>
                    needs_change module pacman false st
                      (if local_resources then local_package_name pkg else pkg))
                 packages).
Proof.
  unfold install_packages_with_pacman. intros Hrun.
  inv_bind Hrun kept st1 e1 Hfilter; [| discriminate].
  pose proof (fun Hpure =>
                proj2 (filterM_needs_change module pacman false
                         (fun pkg => if local_resources
                                     then local_package_name pkg else pkg)
                         packages st st1 kept e1 Hpure Hfilter)) as Hneeds.
  pose proof (filterM_kept _ _ _ _ _ _ Hfilter) as [Hincl Hlen].
  assert (Hfacts : result st1 = result st
                   /\ Forall (fun e => probing e = true) e1).
  { match type of Hfilter with
    | filterM ?f _ _ = _ =>
        assert (Hs : sound steady (fun e => probing e = true)
                       (filterM f packages))
    end.
    { apply sound_filterM;
        first [ exact steady_ret | exact steady_stop | exact steady_trans
              | idtac ].
      intros pkg. apply sound_bind;
        first [ exact steady_ret | exact steady_stop | exact steady_trans
              | idtac ].
      - apply sound_get_package_details;
          first [ exact steady_ret | exact steady_stop | exact steady_trans
                | intros; now auto ].
      - intros details. apply sound_ret. exact steady_ret. }
    specialize (Hs st). rewrite Hfilter in Hs. destruct Hs as [[Hr _] He].
    split; [now apply Hr | exact He]. }
  destruct Hfacts as [Hr1 He1].
  inv_bind Hrun u st2 e2 Hwhen; [| discriminate].
  unfold ret in Hrun. injection Hrun as <- <- <-.
  assert (Hcommand : result st2 = result st1
                     /\ e2 = if nonempty kept
                             then [pacman_install_command module pacman
                                     local_resources kept]
                             else []).
  { destruct kept as [| k kept]; cbn [nonempty when] in *.
    - unfold ret in Hwhen. injection Hwhen as <- <-. auto.
    - unfold run_install_packages_command in Hwhen.
      inv_bind Hwhen r st3 e3 Hcmd; [| discriminate].
      apply run_command_inv in Hcmd as (r' & h3 & _ & -> & -> & _).
      destruct r as [[rc out] err].
      apply when_fail_inv in Hwhen as [-> [(_ & _ & ->) | (_ & Hno & _)]];
        [| discriminate].
      split; [reflexivity |]. destruct local_resources; reflexivity. }
  destruct Hcommand as [Hr2 ->].
  exists e1, kept. rewrite app_nil_r.
  repeat split; auto. congruence.
Qed.

Lemma filterM_details_facts module pacman aur (name_of : string -> string)
    packages (st st' : St) kept ev :
  filterM (fun pkg =>
             details <- get_package_details module (name_of pkg) pacman aur ;;
             ret (is_state_change_required (state (params module)) details))
          packages st
  = (Ret kept, st', ev) ->
  result st' = result st /\ Forall (fun e => probing e = true) ev
  /\ incl kept packages.
Proof.
  intros Hfilter.
  pose proof (filterM_kept _ _ _ _ _ _ Hfilter) as [Hincl _].
  match type of Hfilter with
  | filterM ?f _ _ = _ =>
      assert (Hs : sound steady (fun e => probing e = true)
                     (filterM f packages))
  end.
  { apply sound_filterM;
      first [ exact steady_ret | exact steady_stop | exact steady_trans
            | idtac ].
    intros pkg. apply sound_bind;
      first [ exact steady_ret | exact steady_stop | exact steady_trans
            | idtac ].
    - apply sound_get_package_details;
        first [ exact steady_ret | exact steady_stop | exact steady_trans
              | intros; now auto ].
    - intros details. apply sound_ret. exact steady_ret. }
  specialize (Hs st). rewrite Hfilter in Hs. destruct Hs as [[Hr _] He].
  repeat split; [now apply Hr | exact He | exact Hincl].
Qed.

(** X11. When [install_packages_with_wrapper] returns, it has first asked the
    host about the official packages and then about the AUR packages with
    read-only queries, and then issued at most one command: none when no
    package needs a change, else the install command of the wrapper for all
    the packages that need one, the official ones before the AUR ones; the
    number it returns is the number of these packages. When the queries leave
    the host as it is, these are exactly the official packages and the AUR
    packages asked for that need a change, in the order of the request. *)
Theorem install_packages_with_wrapper_batch (module : AnsibleModule)
    (packages aur_packages : list string) (wrapper pacman : string)
    (st st' : St) (n : nat) (ev : list Event) :
  install_packages_with_wrapper module packages aur_packages wrapper pacman st
  = (Ret n, st', ev) ->
  exists queries official aur commands,
    Forall (fun e => probing e = true) queries
    /\ incl official packages /\ incl aur aur_packages
    /\ n = length official + length aur
    /\ ev = queries ++ commands
    /\ (official ++ aur = [] -> commands = [])
    /\ (official ++ aur <> [] ->
        exists cmd,
          get_pacman_wrapper_command wrapper false = Some cmd
          /\ commands
             = [Cmd (fst cmd)
                    ((snd cmd ++ split_extra_args (extra_args (params module)))
                     ++ official ++ aur)])
    /\ result st' = result st
    /\ (read_only_queries ->
        official = filter (needs_change module pacman false st) packages
        /\ aur = filter (needs_change module pacman true st) aur_packages).
Proof.
  unfold install_packages_with_wrapper. intros Hrun.
  inv_bind Hrun official st1 e1 Hofficial; [| discriminate].
  pose proof (fun Hpure =>
                filterM_needs_change module pacman false (fun pkg => pkg)
                  packages st st1 official e1 Hpure Hofficial) as Hneeds1.
  apply (filterM_details_facts module pacman false (fun pkg => pkg))
    in Hofficial as (Hr1 & He1 & Hincl1).
  inv_bind Hrun aur st2 e2 Haur; [| discriminate].
  pose proof (fun Hpure =>
                filterM_needs_change module pacman true (fun pkg => pkg)
                  aur_packages st1 st2 aur e2 Hpure Haur) as Hneeds2.
  apply (filterM_details_facts module pacman true (fun pkg => pkg))
    in Haur as (Hr2 & He2 & Hincl2).
  inv_bind Hrun u st3 e3 Hwhen; [| discriminate].
  unfold ret in Hrun. injection Hrun as <- <- <-.
  assert (Hcommand :
            result st3 = result st2
            /\ (official ++ aur = [] -> e3 = [])
            /\ (official ++ aur <> [] ->
                exists cmd,
                  get_pacman_wrapper_command wrapper false = Some cmd
                  /\ e3 = [Cmd (fst cmd)
                               ((snd cmd
                                 ++ split_extra_args (extra_args (params module)))
                                ++ official ++ aur)])).
  { destruct (official ++ aur) as [| k kept] eqn:Hkept; cbn [nonempty when] in *.
    - unfold ret in Hwhen. injection Hwhen as _ <- <-.
      repeat split. congruence.
    - unfold wrapper_command in Hwhen.
      destruct (get_pacman_wrapper_command wrapper false) as [cmd |] eqn:Hcmd.
      2: { unfold bind, halt in Hwhen. discriminate. }
      rewrite (bind_ret _ _ st2 cmd st2 []) in Hwhen by reflexivity.
      rewrite after_nil in Hwhen.
      unfold run_install_packages_command in Hwhen.
      inv_bind Hwhen r st4 e4 Hrc; [| discriminate].
      apply run_command_inv in Hrc as (r' & h4 & _ & -> & -> & _).
      destruct r as [[rc out] err].
      apply when_fail_inv in Hwhen as [-> [(_ & _ & ->) | (_ & Hno & _)]];
        [| discriminate].
      repeat split; [discriminate |]. intros _. exists cmd.
      split; reflexivity. }
  destruct Hcommand as (Hr3 & Hnone & Hsome).
  exists (e1 ++ e2), official, aur, e3.
  repeat split; auto.
  - apply Forall_app. split; assumption.
  - apply length_app.
  - now rewrite app_nil_r, app_assoc.
  - congruence.
  - now apply Hneeds1.
  - destruct (Hneeds1 H0) as [-> _]. now apply Hneeds2.
Qed.

(** *** Building with makepkg *)

Lemma probing_plain e : probing e = true -> plain e = true.
Proof. destruct e; try discriminate; reflexivity. Qed.

Lemma plain_counts (evs : list Event) :
  Forall (fun e => plain e = true) evs ->
  count is_mktemp evs = 0 /\ count is_rmtemp evs = 0.
Proof.
  intros Hp. split; apply count_none; (eapply Forall_impl; [| exact Hp]);
    intros e He; unfold plain in He; apply andb_true_iff in He as [H1 H2];
    now apply negb_true_iff.
Qed.

Lemma with_temporary_directory_inv {A} (body : string -> M A) (st st' : St) o ev :
  with_temporary_directory body st = (o, st', ev) ->
  exists d h1 st2 ev2,
    mkdtemp (host st) = (d, h1)
    /\ body d (set_host h1 st) = (o, st2, ev2)
    /\ st' = set_host (rmtree d (host st2)) st2
    /\ ev = MkTemp d :: ev2 ++ [RmTemp d].
Proof.
  unfold with_temporary_directory.
  destruct (mkdtemp (host st)) as [d h1].
  destruct (body d (set_host h1 st)) as [[o2 st2] ev2] eqn:Hbody.
  intros Heq. injection Heq as <- <- <-. exists d, h1, st2, ev2. auto.
Qed.

Lemma noexit_trans (s s1 : St) k (s2 : St) :
  noexit s None s1 -> noexit s1 k s2 -> noexit s k s2.
Proof. intros _ Hk. exact Hk. Qed.

(** What is done inside the scratch directory. *)
Lemma plain_build (pkg package_name url_path : string) (cmd : Cmdline) (n : nat)
    (d : string) :
  sound noexit (fun e => plain e = true)
    (os_chdir d ;;
     download_aur_package (package_name +++ ".tar.gz") url_path ;;
     extract_tar_file (package_name +++ ".tar.gz") ;;
     os_chdir package_name ;;
     '(rc, _, stderr) <- run_command_check_rc cmd ;;
     when (negb (rc =? 0)%Z)
       (set_msg ("failed to install " +++ pkg +++ ": " +++ stderr) ;;
        fail_json) ;;
     ret (n + 1)).
Proof.
  assert (Hchdir : forall path, sound noexit (fun e => plain e = true)
                                  (os_chdir path)).
  { intros path s. unfold os_chdir.
    destruct (enter (cwd s) path (host s)); cbn;
      (split; [discriminate | repeat constructor]). }
  apply sound_bind; [exact noexit_trans | apply Hchdir |]. intros _.
  apply sound_bind; [exact noexit_trans | |].
  { intros s. unfold download_aur_package.
    destruct (fetch (cwd s) _ url_path (host s)) as [[|] h]; cbn;
      (split; [discriminate | repeat constructor]). }
  intros _. apply sound_bind; [exact noexit_trans | |].
  { intros s. unfold extract_tar_file.
    destruct (untar (cwd s) _ (host s)) as [[|] h]; cbn;
      (split; [discriminate | repeat constructor]). }
  intros _. apply sound_bind; [exact noexit_trans | apply Hchdir |]. intros _.
  apply sound_bind; [exact noexit_trans | |].
  { intros s. unfold run_command_check_rc, bind, run_command.
    destruct (exec (cwd s) (fst cmd) (snd cmd) (host s)) as [[[rc out] err] h].
    destruct (rc =? 0)%Z; cbn; (split; [discriminate | repeat constructor]). }
  intros [[rc out] err]. apply sound_bind; [exact noexit_trans | |].
  { intros s. destruct (negb (rc =? 0)%Z); cbn;
      (split; [discriminate | constructor]). }
  intros _ s. cbn. split; [discriminate | constructor].
Qed.

Lemma build_returns (pkg package_name url_path : string) (cmd : Cmdline)
    (n : nat) (d : string) (st st' : St) n' ev :
  (os_chdir d ;;
   download_aur_package (package_name +++ ".tar.gz") url_path ;;
   extract_tar_file (package_name +++ ".tar.gz") ;;
   os_chdir package_name ;;
   '(rc, _, stderr) <- run_command_check_rc cmd ;;
   when (negb (rc =? 0)%Z)
     (set_msg ("failed to install " +++ pkg +++ ": " +++ stderr) ;;
      fail_json) ;;
   ret (n + 1)) st = (Ret n', st', ev) ->
  n' = n + 1.
Proof.
  intros Hrun.
  inv_bind Hrun u1 s1 e1 H1; [| discriminate].
  inv_bind Hrun u2 s2 e2 H2; [| discriminate].
  inv_bind Hrun u3 s3 e3 H3; [| discriminate].
  inv_bind Hrun u4 s4 e4 H4; [| discriminate].
  inv_bind Hrun r s5 e5 H5; [| discriminate].
  destruct r as [[rc out] err].
  inv_bind Hrun u6 s6 e6 H6; [| discriminate].
  unfold ret in Hrun. now injection Hrun as <- _ _.
Qed.

Lemma install_aur_package_step_counts module cmd pacman n pkg (st st' : St) o ev :
  install_aur_package_step module cmd pacman n pkg st = (o, st', ev) ->
  count is_mktemp ev = count is_rmtemp ev
  /\ count is_mktemp ev <= 1
  /\ kind o <> Some ExitJson
  /\ forall n', o = Ret n' -> n' = n + count is_mktemp ev.
Proof.
  unfold install_aur_package_step. intros Hrun.
  inv_bind Hrun details st1 e1 Hdetails.
  2: { apply get_package_details_facts in Hrun as (_ & Hk & He).
       destruct (plain_counts ev) as [Hm Hr].
       { eapply Forall_impl; [| exact He]. apply probing_plain. }
       rewrite Hm, Hr. repeat split; auto. discriminate. }
  apply get_package_details_facts in Hdetails as (_ & _ & He1).
  destruct (plain_counts e1) as [Hm1 Hr1].
  { eapply Forall_impl; [| exact He1]. apply probing_plain. }
  rewrite !count_app, Hm1, Hr1. cbn [plus].
  destruct (is_state_change_required (state (params module)) details).
  2: { unfold ret in Hrun. injection Hrun as <- <- <-.
       repeat split; auto; try discriminate.
       intros n' Hn'. injection Hn' as <-. cbn. lia. }
  assert (Hinfo : forall (s s' : St) oi ei,
            get_aur_package_info pkg s = (oi, s', ei) ->
            ei = [AurRpc pkg] /\ kind oi <> Some ExitJson).
  { intros s s' oi ei. unfold get_aur_package_info.
    destruct (aur_rpc pkg (host s)) as [[info |] h]; intros Heq;
      injection Heq as <- <- <-; split; auto; discriminate. }
  inv_bind Hrun info st2 e2 Hget.
  2: { apply Hinfo in Hrun as [-> Hk]. repeat split; auto. discriminate. }
  apply Hinfo in Hget as [-> _]. rewrite !count_app.
  change (count is_mktemp [AurRpc pkg]) with 0.
  change (count is_rmtemp [AurRpc pkg]) with 0. cbn [plus].
  inv_bind Hrun u st3 e3 Hwhen.
  2: { apply when_fail_inv in Hrun as [-> [(_ & Hno & _) | (_ & Ho & _)]];
         [discriminate | injection Ho as ->].
       repeat split; auto; discriminate. }
  apply when_fail_inv in Hwhen as [-> _]. cbn [app].
  destruct (results info) as [| r rest].
  { unfold halt in Hrun. injection Hrun as <- <- <-.
    repeat split; auto; discriminate. }
  apply with_temporary_directory_inv in Hrun
    as (d & h1 & st4 & ev4 & _ & Hbody & -> & ->).
  pose proof (plain_build pkg (strip (Name r)) (strip (URLPath r)) cmd n d
                (set_host h1 st3)) as [Hexit Hplain].
  rewrite Hbody in Hexit, Hplain. cbn [events outcome fst snd] in Hexit, Hplain.
  destruct (plain_counts ev4 Hplain) as [Hm4 Hr4].
  assert (Hmk : count is_mktemp (MkTemp d :: ev4 ++ [RmTemp d]) = 1).
  { change (MkTemp d :: ev4 ++ [RmTemp d]) with ([MkTemp d] ++ ev4 ++ [RmTemp d]).
    rewrite !count_app, Hm4. reflexivity. }
  assert (Hrm : count is_rmtemp (MkTemp d :: ev4 ++ [RmTemp d]) = 1).
  { change (MkTemp d :: ev4 ++ [RmTemp d]) with ([MkTemp d] ++ ev4 ++ [RmTemp d]).
    rewrite !count_app, Hr4. reflexivity. }
  rewrite Hmk, Hrm. split; [reflexivity | split; [lia | split; [exact Hexit |]]].
  intros n' ->. now apply build_returns in Hbody.
Qed.

(** X12. However [install_aur_packages_with_makepkg] ends, every scratch
    directory it has made has been removed; it never ends by [exit_json]; and
    when it returns, the number of changes it gives is the number of scratch
    directories it has made, one for each package it has built, and at most
    the number of packages. *)
Theorem makepkg_scratch_directories (module : AnsibleModule)
    (packages : list string) (pacman : string) (st st' : St)
    (o : Outcome nat) (ev : list Event) :
  install_aur_packages_with_makepkg module packages pacman st = (o, st', ev) ->
  count is_mktemp ev = count is_rmtemp ev
  /\ count is_mktemp ev <= length packages
  /\ kind o <> Some ExitJson
  /\ forall n, o = Ret n -> n = count is_mktemp ev.
Proof.
  rewrite install_aur_packages_with_makepkg_eq.
  generalize (makepkg_command module st). intros cmd Hrun.
  assert (Hloop : forall l n (s s' : St) ol el,
    foldM (install_aur_package_step module cmd pacman) l n s = (ol, s', el) ->
    count is_mktemp el = count is_rmtemp el
    /\ count is_mktemp el <= length l
    /\ kind ol <> Some ExitJson
    /\ forall n', ol = Ret n' -> n' = n + count is_mktemp el).
  { induction l as [| pkg l IH]; intros n s s' ol el Hfold.
    - cbn in Hfold. unfold ret in Hfold. injection Hfold as <- <- <-.
      repeat split; auto; try discriminate.
      intros n' Hn'. injection Hn' as <-. cbn. lia.
    - rewrite foldM_cons in Hfold. inv_bind Hfold n1 s1 e1 Hstep.
      + apply install_aur_package_step_counts in Hstep as (Hb1 & Hc1 & _ & Hn1).
        specialize (Hn1 n1 eq_refl).
        apply IH in Hfold as (Hb2 & Hc2 & Hk2 & Hn2).
        rewrite !count_app. cbn [length].
        repeat split; try lia; auto.
        intros n' Hn'. specialize (Hn2 n' Hn'). lia.
      + apply install_aur_package_step_counts in Hfold as (Hb1 & Hc1 & Hk1 & _).
        cbn [length]. repeat split; try lia; auto. discriminate. }
  inv_bind Hrun n st1 e1 Hfold.
  2: { apply Hloop in Hrun as (Hb & Hc & Hk & _).
       repeat split; auto. discriminate. }
  apply Hloop in Hfold as (Hb & Hc & _ & Hn). specialize (Hn n eq_refl).
  assert (Htail : count is_mktemp e = 0 /\ count is_rmtemp e = 0
                  /\ kind o <> Some ExitJson /\ forall n', o = Ret n' -> n' = n).
  { inv_bind Hrun u st2 e2 Hcd.
    - unfold os_chdir in Hcd.
      destruct (enter (cwd st1) (cwd st) (host st1)); [| discriminate].
      injection Hcd as _ _ <-. unfold ret in Hrun. injection Hrun as <- _ <-.
      repeat split; try discriminate. intros n' Hn'. now injection Hn'.
    - unfold os_chdir in Hrun.
      destruct (enter (cwd st1) (cwd st) (host st1)); [discriminate |].
      injection Hrun as <- _ <-. repeat split; discriminate. }
  destruct Htail as (Hm & Hr & Hk & Hret).
  rewrite !count_app, Hm, Hr.
  repeat split; try lia; auto.
  intros n' Hn'. rewrite (Hret n' Hn'). lia.
Qed.

(** *** The handler that is reported *)











End Further.

(** ** Properties of the string functions *)

Lemma split_on_not_nil sep s : split_on sep s <> [].
Proof.
  destruct s as [| c r]; cbn; [discriminate |].
  destruct (Ascii.eqb c sep); [discriminate |].
  destruct (split_on sep r); discriminate.
Qed.

Lemma split_on_pieces sep s :
  Forall (fun w => contains sep w = false) (split_on sep s).
Proof.
  induction s as [| c r IH]; cbn; [repeat constructor |].
  destruct (Ascii.eqb c sep) eqn:Hc; [constructor; [reflexivity | exact IH] |].
  destruct (split_on sep r) as [| w ws]; [repeat constructor; cbn; now rewrite Hc |].
  inversion IH as [| w' ws' Hw Hws]; subst.
  constructor; [cbn; now rewrite Hc, Hw | exact Hws].
Qed.

Lemma last_in (l : list string) d : l <> [] -> In (last l d) l.
Proof.
  induction l as [| x l IH]; [contradiction |]. intros _.
  destruct l as [| y l]; [now left |].
  right. apply IH. discriminate.
Qed.

Lemma last_item_piece sep s : contains sep (last_item (split_on sep s)) = false.
Proof.
  pose proof (split_on_pieces sep s) as Hall.
  rewrite Forall_forall in Hall. apply Hall.
  apply last_in, split_on_not_nil.
Qed.

Lemma contains_lstrip c s : contains c (lstrip s) = true -> contains c s = true.
Proof.
  induction s as [| c' r IH]; cbn; [auto |].
  destruct (is_space c'); [| auto].
  intros Hc. rewrite (IH Hc). apply orb_true_r.
Qed.

Lemma contains_rstrip c s : contains c (rstrip s) = true -> contains c s = true.
Proof.
  induction s as [| c' r IH]; cbn; [auto |].
  destruct (is_space c' && is_empty (rstrip r)); cbn; [discriminate |].
  destruct (Ascii.eqb c' c); [auto |]. cbn. exact IH.
Qed.

Lemma contains_strip c s : contains c s = false -> contains c (strip s) = false.
Proof.
  intros Hs. unfold strip.
  destruct (contains c (rstrip (lstrip s))) eqn:Hc; [| reflexivity].
  apply contains_rstrip, contains_lstrip in Hc. congruence.
Qed.

Lemma lstrip_start s : starts_with_space (lstrip s) = false.
Proof.
  induction s as [| c r IH]; cbn; [reflexivity |].
  destruct (is_space c) eqn:Hc; [exact IH | cbn; exact Hc].
Qed.

Lemma rstrip_start s :
  starts_with_space s = false -> starts_with_space (rstrip s) = false.
Proof.
  destruct s as [| c r]; cbn; [auto |]. intros Hc. rewrite Hc. cbn. exact Hc.
Qed.

Lemma rstrip_end s : ends_with_space (rstrip s) = false.
Proof.
  induction s as [| c r IH]; cbn; [reflexivity |].
  destruct (is_space c) eqn:Hc; cbn.
  - destruct (rstrip r) as [| c' r'] eqn:Hr; cbn; [reflexivity |].
    cbn in IH. exact IH.
  - destruct (rstrip r) as [| c' r'] eqn:Hr; cbn; [exact Hc |].
    cbn in IH. exact IH.
Qed.

Lemma strip_clean s :
  starts_with_space (strip s) = false /\ ends_with_space (strip s) = false.
Proof.
  unfold strip. split; [apply rstrip_start, lstrip_start | apply rstrip_end].
Qed.

Lemma member_lines_clean out :
  Forall (fun m => clean_name m = true) (member_lines out).
Proof.
  unfold member_lines. apply Forall_forall. intros m Hm.
  apply filter_In in Hm as [Hin Hne]. apply in_map_iff in Hin as (line & <- & Hline).
  pose proof (split_on_pieces nl out) as Hall. rewrite Forall_forall in Hall.
  specialize (Hall line Hline). destruct (strip_clean line) as [Hs He].
  unfold clean_name. now rewrite Hne, (contains_strip nl line Hall), Hs, He.
Qed.

Lemma has_space_append a b : has_space (a +++ b) = has_space a || has_space b.
Proof.
  induction a as [| c r IH]; cbn; [reflexivity |].
  now rewrite IH, orb_assoc.
Qed.

Lemma words_clean cur s :
  has_space cur = false ->
  Forall (fun w => is_empty w = false /\ has_space w = false) (words cur s).
Proof.
  revert cur. induction s as [| c r IH]; intros cur Hcur; cbn.
  - destruct cur; cbn; [constructor | repeat constructor; exact Hcur].
  - destruct (is_space c) eqn:Hc.
    + destruct cur as [| c' cur']; cbn [is_empty]; [now apply IH |].
      constructor; [split; [reflexivity | exact Hcur] | now apply IH].
    + apply IH. rewrite has_space_append. cbn. now rewrite Hcur, Hc.
Qed.

(** X13. The extra arguments are cut at white space: no argument is empty
    and none has white space in it; an empty or blank string gives no
    argument at all. *)
Theorem split_extra_args_words (extra_args_str : string) :
  Forall (fun w => is_empty w = false /\ has_space w = false)
         (split_extra_args extra_args_str)
  /\ (lstrip extra_args_str = "" -> split_extra_args extra_args_str = []).
Proof.
  unfold split_extra_args, split. split.
  - destruct (is_empty extra_args_str); [constructor | now apply words_clean].
  - destruct (is_empty extra_args_str); [reflexivity |].
    induction extra_args_str as [| c r IH]; [reflexivity |].
    cbn. destruct (is_space c); [exact IH | discriminate].
Qed.

(** *** The name of a local package file *)

Lemma last_item_cons x (l : list string) : l <> [] -> last_item (x :: l) = last_item l.
Proof. destruct l; [contradiction | reflexivity]. Qed.

Lemma split_on_single sep s : contains sep s = false -> split_on sep s = [s].
Proof.
  induction s as [| c r IH]; [reflexivity |]. cbn.
  destruct (Ascii.eqb c sep); [discriminate |]. cbn. intros Hr.
  now rewrite (IH Hr).
Qed.

Lemma split_on_two sep a b :
  exists w w' ws, split_on sep (a +++ String sep b) = w :: w' :: ws.
Proof.
  induction a as [| c r IH].
  - cbn [String.append split_on]. rewrite Ascii.eqb_refl.
    destruct (split_on sep b) as [| w ws] eqn:Hs.
    { exfalso. now apply (split_on_not_nil sep b). }
    now exists EmptyString, w, ws.
  - change ((String c r) +++ String sep b) with (String c (r +++ String sep b)).
    cbn [split_on]. destruct IH as (w & w' & ws & ->).
    destruct (Ascii.eqb c sep); eauto.
Qed.

Lemma last_item_after sep a b :
  last_item (split_on sep (a +++ String sep b)) = last_item (split_on sep b).
Proof.
  induction a as [| c r IH].
  - cbn [String.append split_on]. rewrite Ascii.eqb_refl.
    apply last_item_cons, split_on_not_nil.
  - change ((String c r) +++ String sep b) with (String c (r +++ String sep b)).
    cbn [split_on]. destruct (Ascii.eqb c sep).
    + rewrite last_item_cons by apply split_on_not_nil. exact IH.
    + rewrite <- IH.
      destruct (split_on_two sep r b) as (w & w' & ws & Hs). now rewrite Hs.
Qed.

Lemma last_item_after_slash dir base :
  last_item (split_on "/" (dir +++ "/" +++ base)) = last_item (split_on "/" base).
Proof. exact (last_item_after "/" dir base). Qed.

Lemma last_item_no_slash base :
  contains "/" base = false -> last_item (split_on "/" base) = base.
Proof. intros Hb. now rewrite (split_on_single "/" base Hb). Qed.

Lemma no_newline_dot_star s : no_newline s = true -> dot_star_eol s = true.
Proof.
  induction s as [| c r IH]; [reflexivity |]. cbn [no_newline dot_star_eol].
  destruct (Ascii.eqb c nl); [discriminate | exact IH].
Qed.

Lemma no_newline_end s : no_newline s = true -> ends_with_nl s = false.
Proof.
  induction s as [| c r IH]; [reflexivity |]. cbn [no_newline ends_with_nl].
  destruct (Ascii.eqb c nl) eqn:Hc; [discriminate |]. cbn [negb andb]. intros Hr.
  destruct r; [reflexivity | now apply IH].
Qed.

Lemma substring_rest n s : String.length s <= n -> substring 0 n s = s.
Proof.
  revert n. induction s as [| c r IH]; intros [| n] Hn; cbn in *;
    [reflexivity | reflexivity | lia |].
  rewrite IH by lia. reflexivity.
Qed.

Lemma strip_package_version_here d rest :
  is_digit d = true -> no_newline rest = true ->
  strip_package_version (String "-" (String d rest)) = "".
Proof.
  intros Hd Hrest. cbn [strip_package_version].
  rewrite Hd, (no_newline_dot_star rest Hrest).
  change (Ascii.eqb "-" "-") with true. cbn [andb].
  cbn [String.length substring]. rewrite substring_rest by lia.
  now rewrite (no_newline_end rest Hrest).
Qed.

Lemma strip_package_version_skip c r :
  hyphen_digit c r = false ->
  strip_package_version (String c r) = String c (strip_package_version r).
Proof.
  destruct r as [| d t]; [reflexivity |]. unfold hyphen_digit.
  cbn [strip_package_version]. now intros ->.
Qed.

Lemma strip_package_version_none s :
  hyphen_then_digit s = false -> strip_package_version s = s.
Proof.
  induction s as [| c r IH]; [reflexivity |]. cbn [hyphen_then_digit].
  intros Hs. apply orb_false_iff in Hs as [Hhere Hr].
  now rewrite strip_package_version_skip, IH.
Qed.

Lemma strip_package_version_cut nm d rest :
  hyphen_then_digit nm = false ->
  is_digit d = true -> no_newline rest = true ->
  strip_package_version (nm +++ "-" +++ String d rest) = nm.
Proof.
  intros Hnm Hd Hrest. induction nm as [| c r IH].
  - now apply strip_package_version_here.
  - cbn [hyphen_then_digit] in Hnm. apply orb_false_iff in Hnm as [Hhere Hnm].
    change ((String c r) +++ "-" +++ String d rest)
      with (String c (r +++ "-" +++ String d rest)).
    rewrite strip_package_version_skip; [now rewrite IH |].
    destruct r as [| c' r']; [| exact Hhere].
    cbn [String.append hyphen_digit]. change (is_digit "-") with false.
    apply andb_false_r.
Qed.

(** X14. The name under which a local package file is looked up is read off
    the file name: the directories in front are dropped; a file name
    [nm-V...], where [V] begins with a digit and [nm] has no hyphen followed by
    a digit, gives [nm]; a file name with no hyphen followed by a digit is
    taken whole. *)
Theorem local_package_name_of_file (dir file : string) :
  contains "/" file = false ->
  local_package_name (dir +++ "/" +++ file) = local_package_name file
  /\ (hyphen_then_digit file = false -> local_package_name file = file)
  /\ (forall nm d rest,
        file = nm +++ "-" +++ String d rest ->
        hyphen_then_digit nm = false ->
        is_digit d = true -> no_newline rest = true ->
        local_package_name file = nm).
Proof.
  intros Hslash. unfold local_package_name.
  rewrite last_item_after_slash, (last_item_no_slash file Hslash).
  repeat split.
  - apply strip_package_version_none.
  - intros nm d rest -> Hnm Hd Hrest. now apply strip_package_version_cut.
Qed.

(** *** The file names taken for local packages *)

Lemma length_append a b :
  String.length (a +++ b) = String.length a + String.length b.
Proof. induction a as [| c r IH]; cbn; [reflexivity | now rewrite IH]. Qed.

Lemma substring_front a b : substring 0 (String.length a) (a +++ b) = a.
Proof. induction a as [| c r IH]; cbn; [now destruct b | now rewrite IH]. Qed.

Lemma substring_back a b :
  substring (String.length a) (String.length b) (a +++ b) = b.
Proof.
  induction a as [| c r IH]; cbn; [| exact IH].
  apply substring_rest. reflexivity.
Qed.

Lemma substring_parts n s :
  n <= String.length s ->
  s = substring 0 n s +++ substring n (String.length s - n) s
  /\ String.length (substring 0 n s) = n.
Proof.
  revert n. induction s as [| c r IH]; intros [| n] Hn; cbn in *.
  - now split.
  - lia.
  - split; [| reflexivity]. now rewrite substring_rest.
  - destruct (IH n) as [Hs Hl]; [lia |].
    split; [now rewrite <- Hs | now rewrite Hl].
Qed.

Lemma dot_plus_then_fits suf s :
  dot_plus_then suf s = fits suf s || fits (suf +++ String nl EmptyString) s.
Proof. reflexivity. Qed.

Lemma fits_shape tail s :
  fits tail s = true <->
  exists stem,
    is_empty stem = false /\ no_newline stem = true /\ s = stem +++ tail.
Proof.
  unfold fits, has_suffix. split.
  - intros Hf. apply andb_true_iff in Hf as [Hf Hnl].
    apply andb_true_iff in Hf as [Hf Hlt]. apply andb_true_iff in Hf as [Hle Heq].
    apply Nat.leb_le in Hle. apply Nat.ltb_lt in Hlt. apply String.eqb_eq in Heq.
    destruct (substring_parts (String.length s - String.length tail) s)
      as [Hs Hl]; [lia |].
    exists (substring 0 (String.length s - String.length tail) s).
    repeat split; [| exact Hnl |].
    + destruct (substring 0 _ s); [cbn in Hl; lia | reflexivity].
    + replace (String.length s - (String.length s - String.length tail))
        with (String.length tail) in Hs by lia.
      now rewrite Heq in Hs.
  - intros (stem & Hne & Hnl & ->). rewrite length_append.
    replace (String.length stem + String.length tail - String.length tail)
      with (String.length stem) by lia.
    rewrite substring_front, substring_back, Hnl, String.eqb_refl.
    destruct stem; [discriminate |]. cbn [String.length].
    rewrite andb_true_r. apply andb_true_iff. split; [| apply Nat.ltb_lt; lia].
    rewrite andb_true_r. apply Nat.leb_le. lia.
Qed.

(** X15. [is_local_package] takes exactly the names that end in [.pkg.tar] or
    in [.pkg.tar] with one of the extensions [.gz], [.bz2], [.xz], [.lrz],
    [.lzo], [.Z], possibly with one line feed after it, and that have in front
    of that ending at least one character and no line feed. *)
Theorem is_local_package_shape (package : string) :
  is_local_package package = true <->
  exists stem ext,
    is_empty stem = false /\ no_newline stem = true
    /\ In ext archive_extensions
    /\ (package = stem +++ ".pkg.tar" +++ ext
        \/ package = stem +++ ".pkg.tar" +++ ext +++ String nl EmptyString).
Proof.
  unfold is_local_package. fold archive_extensions. rewrite existsb_exists. split.
  - intros (ext & Hin & Hm). rewrite dot_plus_then_fits in Hm.
    apply orb_true_iff in Hm as [Hm | Hm];
      apply fits_shape in Hm as (stem & Hne & Hnl & ->);
      exists stem, ext; repeat split; auto.
  - intros (stem & ext & Hne & Hnl & Hin & Hp). exists ext. split; [exact Hin |].
    rewrite dot_plus_then_fits. apply orb_true_iff.
    destruct Hp as [-> | ->]; [left | right]; apply fits_shape; exists stem;
      repeat split; auto.
Qed.

(** ** Properties of the queries and of the run as a whole *)

Section Queries.

Context {Host : Type} `{Collaborators Host}.

Local Abbreviation M := (@M Host).
Local Abbreviation St := (@St Host).
Local Abbreviation never_returns := (@never_returns Host).

(** *** Versions *)

Lemma version_text_clean field :
  contains ":" (strip (last_item (split_on ":" field))) = false
  /\ starts_with_space (strip (last_item (split_on ":" field))) = false
  /\ ends_with_space (strip (last_item (split_on ":" field))) = false.
Proof. split; [apply contains_strip, last_item_piece | apply strip_clean]. Qed.

Lemma version_text_epoch e w :
  contains ":" w = false ->
  strip (last_item (split_on ":" (e +++ ":" +++ w))) = strip w.
Proof.
  intros Hw. change (":" +++ w) with (String ":" w).
  now rewrite last_item_after, (split_on_single ":" w Hw).
Qed.

(** X16. [get_package_version] issues the one query [-Q -i] (or [-S -i] for
    the remote version).  When the query fails the version is [None]; when it
    succeeds the version is read off the second line of the output (the third
    for the remote version) and the lack of that line is an [IndexError]; the
    version is what follows the last colon of the line, without the white
    space around it, so that an epoch in front of a colon is dropped. *)
Theorem get_package_version_reading (package pacman : string)
    (remote_version : bool) (st : St) rc out err h :
  exec (cwd st) (Some pacman)
       [if remote_version then "-S" else "-Q"; "-i"; package] (host st)
  = ((rc, out, err), h) ->
  events (get_package_version package pacman remote_version st)
  = [Cmd (Some pacman) [if remote_version then "-S" else "-Q"; "-i"; package]]
  /\ (rc <> 0%Z ->
      outcome (get_package_version package pacman remote_version st) = Ret None)
  /\ (rc = 0%Z ->
      match nth_error (split_on nl out) (if remote_version then 2 else 1) with
      | None =>
          outcome (get_package_version package pacman remote_version st)
          = Stop (Raised "IndexError")
      | Some line =>
          exists v,
            outcome (get_package_version package pacman remote_version st)
            = Ret (Some v)
            /\ contains ":" v = false
            /\ starts_with_space v = false /\ ends_with_space v = false
            /\ (forall e w, line = e +++ ":" +++ w -> contains ":" w = false ->
                            v = strip w)
      end).
Proof.
  intros Hx. unfold get_package_version.
  erewrite bind_ret by (eapply run_command_eq; exact Hx).
  cbn [fst snd]. destruct (Z.eqb_spec rc 0) as [-> | Hrc].
  - destruct (nth_error (split_on nl out) (if remote_version then 2 else 1))
      as [line |] eqn:Hline.
    + repeat split; [congruence |]. intros _.
      exists (strip (last_item (split_on ":" line))).
      destruct (version_text_clean line) as (Hc & Hs & He).
      repeat split; auto. intros e w -> Hw. now apply version_text_epoch.
    + repeat split. congruence.
  - destruct (nth_error (split_on nl out) (if remote_version then 2 else 1));
      repeat split; congruence.
Qed.

(** X17. [get_aur_package_version] makes one request to the AUR, and fails
    with the exception of the request when that fails.  With no result the
    version is [None]; a positive [resultcount] with an empty list of results
    is an [IndexError]; otherwise the version is what follows the last colon
    of the [Version] of the first result, without the white space around it,
    so that an epoch is dropped. *)
Theorem get_aur_package_version_reading (package : string) (st : St) answer h :
  aur_rpc package (host st) = (answer, h) ->
  events (get_aur_package_version package st) = [AurRpc package]
  /\ match answer with
     | None => outcome (get_aur_package_version package st)
               = Stop (Raised "open_url")
     | Some info =>
         if (resultcount info >? 0)%Z then
           match results info with
           | [] => outcome (get_aur_package_version package st)
                   = Stop (Raised "IndexError")
           | r :: _ =>
               exists v,
                 outcome (get_aur_package_version package st) = Ret (Some v)
                 /\ contains ":" v = false
                 /\ starts_with_space v = false /\ ends_with_space v = false
                 /\ (contains ":" (Version r) = false -> v = strip (Version r))
                 /\ (forall e w, Version r = e +++ ":" +++ w ->
                                 contains ":" w = false -> v = strip w)
           end
         else outcome (get_aur_package_version package st) = Ret None
     end.
Proof.
  intros Hq. unfold get_aur_package_version, get_aur_package_info, bind.
  rewrite Hq. destruct answer as [info |]; [| split; reflexivity].
  destruct (resultcount info >? 0)%Z; [| split; reflexivity].
  destruct (results info) as [| r rs]; [split; reflexivity |].
  split; [reflexivity |]. exists (strip (last_item (split_on ":" (Version r)))).
  destruct (version_text_clean (Version r)) as (Hc & Hs & He).
  repeat split; auto.
  - intros Hv. now rewrite (split_on_single ":" _ Hv).
  - intros e w -> Hw. now apply version_text_epoch.
Qed.

(** *** The members of a group *)

(** X18. [extract_packages] issues the one query [-S -g -q] and always
    returns.  When the query fails there is no member; when it succeeds the
    members are the lines of its output without the white space around them,
    the blank lines left out: no member is empty, has a line feed in it or
    white space at either end. *)
Theorem extract_packages_members (package_group pacman : string) (st : St)
    rc out err h :
  exec (cwd st) (Some pacman) ["-S"; "-g"; "-q"; package_group] (host st)
  = ((rc, out, err), h) ->
  exists members,
    extract_packages package_group pacman st
    = (Ret members, set_host h st,
       [Cmd (Some pacman) ["-S"; "-g"; "-q"; package_group]])
    /\ Forall (fun m => clean_name m = true) members
    /\ (rc <> 0%Z -> members = [])
    /\ (rc = 0%Z ->
        forall m, In m members
                  <-> is_empty m = false
                      /\ exists line, In line (split_on nl out) /\ m = strip line).
Proof.
  intros Hx. rewrite (extract_packages_eq _ _ _ _ _ _ _ Hx).
  eexists. split; [reflexivity |]. destruct (Z.eqb_spec rc 0) as [-> | Hrc].
  - split; [apply member_lines_clean |]. split; [congruence |]. intros _ m.
    unfold member_lines. rewrite filter_In, in_map_iff. split.
    + intros [(line & <- & Hline) Hne]. split; [| eauto].
      now destruct (strip line).
    + intros [Hne (line & Hline & ->)]. split; [eauto |]. now rewrite Hne.
  - split; [constructor |]. split; [reflexivity | contradiction].
Qed.

(** *** The run as a whole *)

Lemma never_returns_run_module_name module pacman :
  never_returns (run_module_name module pacman).
Proof.
  unfold run_module_name. destruct (name_given (params module)).
  2: { apply never_returns_halt. }
  apply never_returns_bind_r. intros [[packages aur_packages] local_packages].
  apply never_returns_bind_r. intros _.
  apply never_returns_bind_r. intros _.
  destruct (State_eqb (state (params module)) Absent).
  - unfold remove_packages. apply never_returns_bind_r. intros n.
    apply never_returns_return_name_result.
  - unfold install_packages. apply never_returns_bind_r. intros [hdl n].
    apply never_returns_bind_r. intros _.
    apply never_returns_return_name_result.
Qed.

(** X19. [run_module] never comes back to its caller: every run ends by
    [exit_json], by [fail_json], by a failure of the library or by an
    exception.  Without [pacman] on the path it ends in the library before
    any command is issued; with [pacman] and nothing asked for (no name, no
    upgrade, no refresh) it exits without a command and reports no change. *)
Theorem run_module_ends (module : AnsibleModule) (st : St) :
  returned (outcome (run_module module st)) = false
  /\ (which "pacman" (host st) = None ->
      run_module module st = (Stop (LibFail "pacman"), fresh st, []))
  /\ (which "pacman" (host st) <> None ->
      name_given (params module) = false ->
      upgrade_flag (params module) = false ->
      update_cache (params module) = false ->
      run_module module st = (Stop ExitJson, fresh st, [])).
Proof.
  split; [| split].
  - revert st. change (never_returns (run_module module)). unfold run_module.
    apply never_returns_bind_r. intros _.
    apply never_returns_bind_r. intros pacman.
    apply never_returns_bind_r. intros _.
    apply never_returns_bind_r. intros _.
    apply never_returns_run_module_name.
  - intros Hw. rewrite run_module_fresh.
    assert (Hbin : require_bin_path "pacman" (fresh st)
                   = (Stop (LibFail "pacman"), fresh st, [])).
    { unfold require_bin_path, bind, get_bin_path.
      change (host (fresh st)) with (host st). now rewrite Hw. }
    now rewrite (bind_stop _ _ _ _ _ _ Hbin).
  - intros Hw Hn Hu Hc. rewrite run_module_fresh.
    destruct (which "pacman" (host st)) as [pacman |] eqn:Hp; [| contradiction].
    assert (Hbin : require_bin_path "pacman" (fresh st)
                   = (Ret pacman, fresh st, [])).
    { unfold require_bin_path, bind, get_bin_path.
      change (host (fresh st)) with (host st). now rewrite Hp. }
    rewrite (bind_ret _ _ _ _ _ _ Hbin), after_nil.
    unfold run_module_update_cache, run_module_upgrade, run_module_name.
    rewrite Hn, Hu, Hc. reflexivity.
Qed.

Lemma whoami_probing e : is_whoami e = true -> probing e = true.
Proof.
  destruct e as [[p |] [| a args] | | | | | |]; try discriminate. cbn. auto.
Qed.

(** X20. In a run for state [absent] without upgrade, on a host with pacman,
    every event is a read-only query, the refresh line of the handler
    ([-S -y], a second [-y] with [force], and the extra arguments when no name
    is given) or the prepared removal line [-R ...] for one of the names asked
    for. When names are given, the refresh line is [-S -y] or [-S -y -y] and
    nothing else. *)
Theorem removal_request_events (module : AnsibleModule) (pacman : string)
    (st : St) :
  state (params module) = Absent ->
  upgrade_flag (params module) = false ->
  which "pacman" (host st) = Some pacman ->
  Forall (fun e =>
            probing e = true
            \/ (exists hdl,
                  e = Cmd (Some hdl) (refresh_arguments (params module)))
            \/ removes module pacman
                  (match name (params module) with Some l => l | None => [] end)
                  e)
         (events (run_module module st))
  /\ (name_given (params module) = true ->
      refresh_arguments (params module)
      = ["-S"; "-y"] ++ (if force (params module) then ["-y"] else [])).
Proof.
  intros Hs Hu Hwhich. split.
  2: { intros Hn. unfold refresh_arguments. rewrite Hn. cbn [orb negb].
       now rewrite app_nil_r. }
  set (E := fun e =>
              probing e = true
              \/ (exists hdl,
                    e = Cmd (Some hdl) (refresh_arguments (params module)))
              \/ removes module pacman
                    (match name (params module) with Some l => l | None => [] end)
                    e).
  set (any := fun (_ : St) (_ : option Halt) (_ : St) => True).
  assert (Hprobe : forall e, probing e = true -> E e) by (intros e He; now left).
  rewrite run_module_fresh.
  rewrite (bind_ret _ _ (fresh st) pacman (fresh st) []).
  2: { unfold require_bin_path, get_bin_path, bind, ret.
       cbn [host fresh]. rewrite Hwhich. reflexivity. }
  rewrite after_nil.
  assert (Hrefresh : sound any E (refresh_package_databases module pacman)).
  { intros s. split; [exact I |].
    destruct (refresh_package_databases module pacman s) as [[o s'] e] eqn:Hr.
    apply refresh_package_databases_outcomes in Hr
      as (asked & Hasked & Hcases).
    assert (Hq : Forall E asked).
    { eapply Forall_impl; [| exact Hasked]. intros x Hx.
      left. now apply whoami_probing. }
    assert (Hline : forall hdl,
              Forall E (asked ++ [Cmd (Some hdl)
                                      (refresh_arguments (params module))])).
    { intros hdl. apply Forall_app. split; [exact Hq |].
      constructor; [right; left; now exists hdl | constructor]. }
    cbn [events snd].
    destruct Hcases as [(_ & _ & hdl & ->) | (_ & _ & _ & [-> | (hdl & ->)])];
      auto. }
  assert (Hremove : forall packages,
            incl packages
                 (match name (params module) with Some l => l | None => [] end) ->
            sound any E (remove_packages module packages pacman)).
  { intros packages Hincl s. split; [exact I |].
    eapply Forall_impl; [| apply remove_packages_events].
    intros x [Hp | (pkg & Hin & ->)]; [now left | right; right].
    exists pkg. split; [now apply Hincl | reflexivity]. }
  assert (Hstages : sound any E
                      (run_module_update_cache module pacman ;;
                       run_module_upgrade module pacman ;;
                       run_module_name module pacman)).
  { apply sound_bind; [exact (fun _ _ _ _ _ _ => I) | |].
    { unfold run_module_update_cache. apply sound_when; [exact (fun _ _ _ => I) |].
      destruct (check_mode module); cbn [negb].
      - apply sound_when; [exact (fun _ _ _ => I) |].
        apply sound_return_update_cache_result. exact (fun _ _ _ => I).
      - apply sound_bind; [exact (fun _ _ _ _ _ _ => I) | exact Hrefresh |].
        intros _. apply sound_when; [exact (fun _ _ _ => I) |].
        apply sound_return_update_cache_result. exact (fun _ _ _ => I). }
    intros _. apply sound_bind; [exact (fun _ _ _ _ _ _ => I) | |].
    { unfold run_module_upgrade. rewrite Hu. apply sound_ret.
      exact (fun _ _ _ => I). }
    intros _. unfold run_module_name, name_given.
    destruct (name (params module)) as [[| nm names] |] eqn:Hname.
    - intros s. split; [exact I | constructor].
    - unfold group_packages. rewrite Hs. cbn [State_eqb negb].
      assert (Hfirst : forall {A B} (a : A) (f : A -> M B),
                sound any E (f a) -> sound any E (bind (ret a) f)).
      { intros A B a f Hf s. unfold bind, ret. specialize (Hf s).
        destruct (f a s) as [[o s2] e2]. exact Hf. }
      apply Hfirst. cbv beta iota.
      apply sound_bind; [exact (fun _ _ _ _ _ _ => I) | |].
      { apply sound_when; [exact (fun _ _ _ => I) |].
        apply sound_msg_fail. exact (fun _ _ _ _ _ => I). }
      intros _. apply sound_bind; [exact (fun _ _ _ _ _ _ => I) | |].
      { apply sound_when; [exact (fun _ _ _ => I) |].
        apply sound_run_name_check_mode;
          first [ exact (fun _ _ _ => I) | exact (fun _ _ _ _ _ => I)
                | exact (fun _ _ _ _ _ _ => I) | exact Hprobe ]. }
      intros _. apply Hremove. intros x Hx.
      now apply filter_In in Hx as [Hx _].
    - intros s. split; [exact I | constructor]. }
  exact (proj2 (Hstages (fresh st))).
Qed.

End Queries.

(** ** The further properties on the concrete host *)

Lemma get_handler_choice_witness :
  get_handler pacman_path (start machine_alice_yay)
  = (Ret "/usr/bin/yay", set_host machine_alice_yay (start machine_alice_yay),
     [Cmd (Some "whoami") []]).
Proof.
  pose proof (get_handler_choice pacman_path (start machine_alice_yay) 0
                ("alice" +++ String nl EmptyString) "" machine_alice_yay)
    as Hchoice.
  destruct Hchoice as [_ Hother]; [reflexivity |].
  destruct Hother as [Hyay _]; [reflexivity | vm_compute; discriminate |].
  apply (Hyay "/usr/bin/yay"); [reflexivity | discriminate].
Defined.

Lemma get_pacman_wrapper_command_shape_witness :
  exists template,
    get_pacman_wrapper_command "/usr/bin/yay" false
    = Some (Some "/usr/bin/yay", template)
    /\ forall more,
         install_command (Cmd (Some "/usr/bin/yay") (template ++ more)) = true.
Proof.
  apply (proj1 (get_pacman_wrapper_command_shape "/usr/bin/yay" false)).
  left. reflexivity.
Defined.


Lemma refresh_package_databases_denied_witness :
  let mc := as_user "alice" machine_root in
  let module := real_run (with_update_cache (request [] Present)) in
  refresh_package_databases module pacman_path (start mc)
  = (Stop FailJson,
     said ("could not refresh the master package databases as a non-root "
           +++ "user when no pacman's wrapper is installed")
          (set_host mc (start mc)),
     [Cmd (Some "whoami") []; Cmd (Some "whoami") []]).
Proof.
  intros mc module.
  apply (refresh_package_databases_denied module pacman_path (start mc)
           0 0 ("alice" +++ String nl EmptyString) ""
           ("alice" +++ String nl EmptyString) "" mc mc);
    first [reflexivity | vm_compute; discriminate].
Defined.


Lemma official_beside_aur_needs_wrapper_witness :
  let mc := as_user "alice" machine_root in
  let module := real_run (request ["bar"; "aurfoo"] Present) in
  install_packages_with_aur_support module ["bar"] ["aurfoo"] pacman_path
    (start mc)
  = (Stop FailJson,
     said ("could not install packages from the official repositories "
           +++ "mixed with aur packages when no pacman's wrapper is "
           +++ "installed") (set_host mc (start mc)),
     [Cmd (Some "whoami") []; Cmd (Some "whoami") []]).
Proof.
  intros mc module.
  apply (official_beside_aur_needs_wrapper module ["bar"] ["aurfoo"] pacman_path
           (start mc) 0 0 ("alice" +++ String nl EmptyString) ""
           ("alice" +++ String nl EmptyString) "" mc mc);
    first [reflexivity | discriminate | vm_compute; discriminate
          | right; reflexivity].
Defined.

Lemma upgrade_report_witness :
  let module := real_run upgrade_request in
  let st_root : @St Outdated :=
    {| host := outdated_root; cwd := "/home/user"; result := initial_result |} in
  let st_failing : @St Outdated :=
    {| host := outdated_root_failing; cwd := "/home/user";
       result := initial_result |} in
  (exists st' ev,
     upgrade module pacman_path st_root = (Stop ExitJson, st', ev)
     /\ ev = [Cmd (Some "whoami") []; Cmd (Some "whoami") [];
              Cmd (Some pacman_path) ["-Q"; "-u"];
              Cmd (Some pacman_path) ["-S"; "-u"; "-q"; "--noconfirm"]]
     /\ changed (result st') = existsb upgrade_command ev
     /\ changed (result st') = true
     /\ handler (result st') <> None)
  /\ (exists st' ev,
        upgrade module pacman_path st_failing = (Stop FailJson, st', ev)
        /\ existsb upgrade_command ev = true
        /\ changed (result st') = false
        /\ handler (result st') = None).
Proof.
  intros module st_root st_failing. split.
  - eexists. eexists. split; [reflexivity |]. split; [reflexivity |].
    pose proof (upgrade_report module pacman_path st_root) as Hreport.
    edestruct Hreport as (_ & Hexit & _);
      [reflexivity | reflexivity | reflexivity |].
    destruct (Hexit eq_refl) as [Hchanged Hhandler].
    split; [exact Hchanged | split; [reflexivity |]].
    apply Hhandler. reflexivity.
  - eexists. eexists. split; [reflexivity |]. split; [reflexivity |].
    pose proof (upgrade_report module pacman_path st_failing) as Hreport.
    edestruct Hreport as (_ & _ & Hstop);
      [reflexivity | reflexivity | reflexivity |].
    apply Hstop. discriminate.
Defined.

Lemma dry_run_without_names_witness :
  let module :=
    dry_run {| name := None; state := Present; upgrade_flag := false;
               update_cache := true; force := false; extra_args := "" |} in
  run_module module (start machine_root)
  = (Stop ExitJson,
     {| host := machine_root; cwd := "/home/user";
        result := {| changed := true;
                     msg := "master package databases would be refreshed";
                     handler := None |} |},
     []).
Proof.
  intros module.
  apply (dry_run_without_names module pacman_path (start machine_root));
    reflexivity.
Defined.

Lemma remove_packages_report_witness :
  let module := real_run (request ["foo"; "bar"] Absent) in
  exists st' ev,
    remove_packages module ["foo"; "bar"] pacman_path (start machine_root)
    = (Stop ExitJson, st', ev)
    /\ changed (result st') = existsb removal_command ev
    /\ count removal_command ev <= 2
    /\ Forall (fun e => removal_command e = true ->
                        removes module pacman_path ["foo"; "bar"] e) ev
    /\ handler (result st') = None.
Proof.
  intros module. eexists. eexists. split; [reflexivity |].
  eapply (remove_packages_report module ["foo"; "bar"] pacman_path
            (start machine_root)); reflexivity.
Defined.

Lemma install_packages_with_pacman_batch_witness :
  let module := real_run (request ["foo"; "bar"] Present) in
  let st := start machine_root in
  let run :=
    install_packages_with_pacman module ["foo"; "bar"] pacman_path false st in
  outcome run = Ret 1
  /\ filter (needs_change module pacman_path false st) ["foo"; "bar"] = ["bar"]
  /\ exists queries,
       Forall (fun e => probing e = true) queries
       /\ events run
          = queries ++ [pacman_install_command module pacman_path false ["bar"]].
Proof.
  intros module st run. split; [reflexivity | split; [reflexivity |]].
  pose proof (install_packages_with_pacman_batch module ["foo"; "bar"]
                pacman_path false st (final run) 1 (events run)) as Hbatch.
  destruct Hbatch
    as (queries & chosen & Hq & _ & _ & _ & Hev & _ & Hneeds); [reflexivity |].
  rewrite (Hneeds machine_read_only) in Hev.
  exists queries. split; [exact Hq | exact Hev].
Defined.

Lemma install_packages_with_wrapper_batch_witness :
  let module := real_run (request ["foo"; "bar"; "aurfoo"] Present) in
  let st := start machine_alice_yay in
  let run :=
    install_packages_with_wrapper module ["foo"; "bar"] ["aurfoo"]
      "/usr/bin/yay" pacman_path st in
  outcome run = Ret 2
  /\ filter (needs_change module pacman_path false st) ["foo"; "bar"] = ["bar"]
  /\ filter (needs_change module pacman_path true st) ["aurfoo"] = ["aurfoo"]
  /\ exists queries,
       Forall (fun e => probing e = true) queries
       /\ events run
          = queries
            ++ [Cmd (Some "/usr/bin/yay")
                    ["-S"; "--needed"; "--noconfirm"; "--noprogressbar";
                     "--cleanafter"; "bar"; "aurfoo"]].
Proof.
  intros module st run.
  split; [reflexivity | split; [reflexivity | split; [reflexivity |]]].
  pose proof (install_packages_with_wrapper_batch module ["foo"; "bar"]
                ["aurfoo"] "/usr/bin/yay" pacman_path st (final run) 2
                (events run)) as Hbatch.
  destruct Hbatch
    as (queries & official & aur & commands & Hq & _ & _ & _ & Hev & _ & Hsome
        & _ & Hneeds); [reflexivity |].
  destruct (Hneeds machine_read_only) as [Hofficial Haur].
  rewrite Hofficial, Haur in Hsome.
  destruct Hsome as (cmd & Hcmd & Hcommands); [discriminate |].
  injection Hcmd as <-. rewrite Hcommands in Hev.
  exists queries. split; [exact Hq | exact Hev].
Defined.

Lemma makepkg_scratch_directories_witness :
  let mc := as_user "alice" machine_root in
  let module := real_run (request ["aurfoo"] Present) in
  exists st' ev,
    install_aur_packages_with_makepkg module ["aurfoo"] pacman_path (start mc)
    = (Ret 1, st', ev)
    /\ count is_mktemp ev = count is_rmtemp ev
    /\ count is_mktemp ev <= 1
    /\ 1 = count is_mktemp ev.
Proof.
  intros mc module. eexists. eexists. split; [reflexivity |].
  pose proof (makepkg_scratch_directories module ["aurfoo"] pacman_path
                (start mc)) as Hscratch.
  edestruct Hscratch as (Hsame & Hmost & _ & Hcount); [reflexivity |].
  split; [exact Hsame | split; [exact Hmost | exact (Hcount 1 eq_refl)]].
Defined.

Lemma split_extra_args_words_witness :
  Forall (fun w => is_empty w = false /\ has_space w = false)
         (split_extra_args "  --overwrite  '*'  ")
  /\ split_extra_args "   " = [].
Proof.
  destruct (split_extra_args_words "  --overwrite  '*'  ") as [Hwords _].
  destruct (split_extra_args_words "   ") as [_ Hblank].
  split; [exact Hwords | exact (Hblank eq_refl)].
Defined.

Lemma local_package_name_of_file_witness :
  local_package_name "/var/cache/pacman/pkg/bar-1.0.0-1-any.pkg.tar.xz"
  = local_package_name "bar-1.0.0-1-any.pkg.tar.xz"
  /\ local_package_name "bar-1.0.0-1-any.pkg.tar.xz" = "bar".
Proof.
  pose proof (local_package_name_of_file "/var/cache/pacman/pkg"
                "bar-1.0.0-1-any.pkg.tar.xz") as Hname.
  destruct Hname as (Hdir & _ & Hcut); [reflexivity |].
  split; [exact Hdir |].
  apply (Hcut "bar" "1"%char ".0.0-1-any.pkg.tar.xz"); reflexivity.
Defined.

Lemma is_local_package_shape_witness :
  is_local_package "bar-1.0.0-1-any.pkg.tar.xz" = true
  /\ is_local_package "bar-1.0.0-1-any.pkg.tar.zst" = false.
Proof.
  split.
  - apply (proj2 (is_local_package_shape "bar-1.0.0-1-any.pkg.tar.xz")).
    exists "bar-1.0.0-1-any", ".xz".
    repeat split; [cbn; tauto | left; reflexivity].
  - reflexivity.
Defined.

Lemma get_package_version_reading_witness :
  exists v,
    outcome (get_package_version "foo" pacman_path false (start machine_root))
    = Ret (Some v)
    /\ contains ":" v = false
    /\ v = strip " 1.0-1".
Proof.
  pose proof (get_package_version_reading "foo" pacman_path false
                (start machine_root) 0
                ("Name : foo" +++ String nl ("Version : 1.0-1" +++ String nl ""))
                "" machine_root) as Hreading.
  destruct Hreading as (_ & _ & Hok); [reflexivity |].
  specialize (Hok eq_refl). cbv beta iota delta [nth_error split_on] in Hok.
  destruct Hok as (v & Ho & Hc & _ & _ & Hepoch).
  exists v. repeat split; [exact Ho | exact Hc |].
  exact (Hepoch "Version " " 1.0-1" eq_refl eq_refl).
Defined.

Lemma get_aur_package_version_reading_witness :
  exists v,
    outcome (get_aur_package_version "aurfoo" (start machine_root))
    = Ret (Some v)
    /\ contains ":" v = false
    /\ v = strip "3.1-2".
Proof.
  pose proof (get_aur_package_version_reading "aurfoo" (start machine_root)
                _ _ eq_refl) as [_ Hok].
  hnf in Hok. destruct Hok as (v & Ho & Hc & _ & _ & Hplain & _).
  exists v. repeat split; [exact Ho | exact Hc | exact (Hplain eq_refl)].
Defined.

Lemma extract_packages_members_witness :
  exists members,
    extract_packages "grp" pacman_path (start machine_root)
    = (Ret members, set_host machine_root (start machine_root),
       [Cmd (Some pacman_path) ["-S"; "-g"; "-q"; "grp"]])
    /\ Forall (fun m => clean_name m = true) members
    /\ In "ga" members.
Proof.
  pose proof (extract_packages_members "grp" pacman_path (start machine_root)
                0 ("ga" +++ String nl ("gb" +++ String nl "")) "" machine_root)
    as Hmembers.
  destruct Hmembers as (members & Hrun & Hclean & _ & Hin); [reflexivity |].
  exists members. repeat split; [exact Hrun | exact Hclean |].
  apply (Hin eq_refl). split; [reflexivity |].
  exists "ga". split; [left; reflexivity | reflexivity].
Defined.

Lemma run_module_ends_witness :
  returned (outcome (run_module (real_run (request ["bar"] Present))
                                (start machine_root))) = false
  /\ run_module (real_run (request [] Present)) (start machine_root)
     = (Stop ExitJson, fresh (start machine_root), []).
Proof.
  split.
  - exact (proj1 (run_module_ends (real_run (request ["bar"] Present))
                                  (start machine_root))).
  - apply (proj2 (proj2 (run_module_ends (real_run (request [] Present))
                                         (start machine_root))));
      first [reflexivity | discriminate].
Defined.

Lemma removal_request_events_witness :
  let module := real_run (with_update_cache (request ["foo"; "bar"] Absent)) in
  let run := run_module module (start machine_root) in
  events run
  = [Cmd (Some "whoami") []; Cmd (Some "whoami") [];
     Cmd (Some pacman_path) ["-S"; "-y"];
     Cmd (Some pacman_path) ["-Q"; "foo"];
     Cmd (Some pacman_path) ["-R"; "--noconfirm"; "--noprogressbar"; "foo"];
     Cmd (Some pacman_path) ["-Q"; "bar"]]
  /\ Forall (fun e =>
               probing e = true
               \/ (exists hdl,
                     e = Cmd (Some hdl) (refresh_arguments (params module)))
               \/ removes module pacman_path ["foo"; "bar"] e)
            (events run)
  /\ refresh_arguments (params module) = ["-S"; "-y"].
Proof.
  intros module run. split; [reflexivity |].
  pose proof (removal_request_events module pacman_path (start machine_root))
    as Hevents.
  destruct Hevents as [Hall Hbare]; [reflexivity | reflexivity | reflexivity |].
  split; [exact Hall | exact (Hbare eq_refl)].
Defined.

